(** * pynessus: the session layer and the resource registry of [nessus.py]

    A shallow embedding of the [Nessus] class of [pynessus/nessus.py]:
    the request layer ([_request], [_api_request]), the session operations
    ([server_version], [login], [logout]), the per-kind loaders
    ([load_scanners], [load_scans], ...), the bulk [load] and the lazy
    property getters.

    Python values that come out of [json.loads] are modelled by [json];
    Python exceptions by [exn]; a method of [Nessus] by a function in the
    state-and-exception monad [M] over the record [Nessus].  A raised
    exception keeps the state reached so far, as a Python object keeps the
    mutations made before the [raise].

    What lies outside the module is left open: [json.loads] is a
    parameter, the transport ([httplib]) is a pair of oracles that decide
    how each call of [connection.request] and of [getresponse] ends, and
    the constructors and the [load] methods of the classes of [models/]
    are parameters too.  Resource instances are compared by value: object
    identity, and the sharing of one [User] object between the session and
    a collection, are not modelled. *)

From Stdlib Require Import String Ascii List ZArith Bool Arith Lia.
From Stdlib Require Import DecimalString.
Import ListNotations.

Open Scope string_scope.
Open Scope list_scope.

Set Warnings "-register-all".

(* ================================================================= *)
(** ** Python values *)

(** Values produced by [json.loads].  Numbers are restricted to integers:
    payloads with fractional numbers are outside the model. *)
Inductive json : Type :=
| JNull                                  (* None *)
| JBool (b : bool)
| JInt (n : Z)
| JStr (s : string)
| JArr (l : list json)
| JObj (o : list (string * json)).       (* dict, as an association list *)

Fixpoint lookup (k : string) (o : list (string * json)) : option json :=
  match o with
  | [] => None
  | (k', v) :: o' => if String.eqb k k' then Some v else lookup k o'
  end.

Definition Z_of_bool (b : bool) : Z := if b then 1%Z else 0%Z.

(** Python's [==] on these values ([bool] is a subclass of [int]; dicts
    compare without regard to order). *)
Fixpoint py_eq (a b : json) {struct a} : bool :=
  match a, b with
  | JNull, JNull => true
  | JBool x, JBool y => Bool.eqb x y
  | JBool x, JInt y => Z.eqb (Z_of_bool x) y
  | JInt x, JBool y => Z.eqb x (Z_of_bool y)
  | JInt x, JInt y => Z.eqb x y
  | JStr x, JStr y => String.eqb x y
  | JArr l1, JArr l2 =>
      (fix go (l1 l2 : list json) {struct l1} : bool :=
         match l1, l2 with
         | [], [] => true
         | x :: xs, y :: ys => py_eq x y && go xs ys
         | _, _ => false
         end) l1 l2
  | JObj o1, JObj o2 =>
      Nat.eqb (length o1) (length o2) &&
      (fix go (o : list (string * json)) {struct o} : bool :=
         match o with
         | [] => true
         | (k, v) :: r =>
             match lookup k o2 with
             | Some v' => py_eq v v'
             | None => false
             end && go r
         end) o1
  | _, _ => false
  end.

(** Truth value of a Python object ([if not params]). *)
Definition py_truthy (v : json) : bool :=
  match v with
  | JNull => false
  | JBool b => b
  | JInt n => negb (Z.eqb n 0)
  | JStr s => negb (String.eqb s "")
  | JArr l => negb (Nat.eqb (length l) 0)
  | JObj o => negb (Nat.eqb (length o) 0)
  end.

Definition is_None (v : json) : bool :=
  match v with JNull => true | _ => false end.

(** [needle in hay] on [str]. *)
Fixpoint contains (needle hay : string) {struct hay} : bool :=
  String.prefix needle hay ||
  match hay with
  | EmptyString => false
  | String _ hay' => contains needle hay'
  end.

(* ================================================================= *)
(** ** Exceptions *)

(** The exceptions the module raises or lets through.  Four of them are
    plain [Exception] instances that differ by their message. *)
Inductive exn : Type :=
| NessusAPIError (message : json)        (* raise NessusAPIError(response["error"]) *)
| CannotConnect (url : string) (port : Z)(* Exception("Can't connect to Nessus at https://%s:%s") *)
| HTTPStatusError (body : string)        (* Exception(response.read()), status != 200 *)
| UnsupportedVersion                     (* Exception("This version of Nessus is not supported ...") *)
| LoginRefused (status : json)           (* Exception(response["status"]) *)
| SocketError (errno : Z)                (* socket.error re-raised *)
| TransportFailure (what : string)       (* whatever getresponse() raises *)
| KeyError (k : string)
| TypeError
| IndexError
| AttributeError
| ValueError                             (* json.loads on a malformed body *)
| RecursionLimit.                        (* maximum recursion depth exceeded *)

Inductive outcome (A : Type) : Type :=
| Ret (a : A)
| Raise (e : exn).
Arguments Ret {A} a.
Arguments Raise {A} e.

Definition obind {A B} (o : outcome A) (k : A -> outcome B) : outcome B :=
  match o with
  | Ret a => k a
  | Raise e => Raise e
  end.

Notation "x <~ c1 ;; c2" := (obind c1 (fun x => c2))
  (at level 61, c1 at next level, right associativity).

(** [container[key]] with a string key. *)
Definition getitem (v : json) (k : string) : outcome json :=
  match v with
  | JObj o => match lookup k o with Some x => Ret x | None => Raise (KeyError k) end
  | _ => Raise TypeError
  end.

(** [key in container] with a string key. *)
Definition py_in (k : string) (v : json) : outcome bool :=
  match v with
  | JObj o => Ret (match lookup k o with Some _ => true | None => false end)
  | JArr l => Ret (existsb (py_eq (JStr k)) l)
  | JStr s => Ret (contains k s)
  | _ => Raise TypeError
  end.

(** The items a [for] loop visits. *)
Definition py_iter (v : json) : outcome (list json) :=
  match v with
  | JArr l => Ret l
  | JObj o => Ret (map (fun kv => JStr (fst kv)) o)
  | JStr s => Ret (map (fun c => JStr (String c EmptyString)) (list_ascii_of_string s))
  | _ => Raise TypeError
  end.

(** [value[0]], as in [self.server_version[0]]. *)
Definition first_item (v : json) : outcome json :=
  match v with
  | JStr EmptyString => Raise IndexError
  | JStr (String c _) => Ret (JStr (String c EmptyString))
  | JArr [] => Raise IndexError
  | JArr (x :: _) => Ret x
  | JObj _ => Raise (KeyError "0")
  | _ => Raise TypeError
  end.

Definition string_of_Z (n : Z) : string := NilZero.string_of_int (Z.to_int n).

(** ["%d" % value]. *)
Definition fmt_d (v : json) : outcome string :=
  match v with
  | JInt n => Ret (string_of_Z n)
  | JBool b => Ret (string_of_Z (Z_of_bool b))
  | _ => Raise TypeError
  end.

(* ================================================================= *)
(** ** Resource instances

    The model classes ([models/user.py], [models/scan.py], ...) are plain
    attribute bags; a record lists the attributes this module assigns. *)

Record User : Type := mkUser {
  user_last_login : json;
  user_permissions : json;
  user_type : json;
  user_name : json;
  user_username : json;
  user_id : json;
  user_password : json;
  user_token : json
}.

Record Scanner : Type := mkScanner {
  scanner_id : json;
  scanner_uuid : json;
  scanner_name : json;
  scanner_type : json;
  scanner_status : json;
  scanner_scan_count : json;
  scanner_engine_version : json;
  scanner_platform : json;
  scanner_loaded_plugin_set : json;
  scanner_registration_code : json;
  scanner_owner : json
}.

Record Agent : Type := mkAgent {
  agent_distros : json;
  agent_id : json;
  agent_ip : json;
  agent_last_scanned : json;
  agent_name : json;
  agent_platform : json;
  agent_token : json;
  agent_uuid : json;
  agent_scanner_id : json
}.

Record AgentGroup : Type := mkAgentGroup {
  group_id : json;
  group_name : json;
  group_owner_id : json;
  group_owner : json;
  group_shared : json;
  group_user_permissions : json;
  group_creation_date : json;
  group_last_modification_date : json
}.

Record Policy : Type := mkPolicy {
  policy_id : json;
  policy_template_uuid : json;
  policy_name : json;
  policy_owner : json;
  policy_creation_date : json;
  policy_no_target : json;
  policy_visibility : json;
  policy_shared : json;
  policy_user_permissions : json;
  policy_last_modification_date : json
}.

Record Template : Type := mkTemplate {
  template_uuid : json;
  template_title : json;
  template_name : json;
  template_description : json;
  template_more_info : json;
  template_cloud_only : json;
  template_subscription_only : json
}.

Record Folder : Type := mkFolder {
  folder_id : json;
  folder_type : json;
  folder_custom : json;
  folder_default_tag : json;
  folder_name : json;
  folder_unread_count : json
}.

(** [scan_owner] is [None] as long as hydration did not assign
    [scan.owner]. *)
Record Scan : Type := mkScan {
  scan_status : json;
  scan_name : json;
  scan_read : json;
  scan_last_modification_date : json;
  scan_creation_date : json;
  scan_user_permissions : json;
  scan_shared : json;
  scan_id : json;
  scan_template : Template;
  scan_folder : Folder;
  scan_owner : option User
}.

(** Mail and proxy settings are opaque field bags. *)
Definition Mail : Type := list (string * json).
Definition Proxy : Type := list (string * json).

Definition set_template_uuid (v : json) (t : Template) : Template :=
  mkTemplate v (template_title t) (template_name t) (template_description t)
    (template_more_info t) (template_cloud_only t) (template_subscription_only t).

Definition set_folder_id (v : json) (f : Folder) : Folder :=
  mkFolder v (folder_type f) (folder_custom f) (folder_default_tag f)
    (folder_name f) (folder_unread_count f).

(* ================================================================= *)
(** ** The client object and its environment *)

(** [self._headers]; [x_cookie = Some t] stands for the entry
    ["X-Cookie": 'token=%s' % t]. *)
Record Headers : Type := mkHeaders {
  content_type : string;
  accept : string;
  x_cookie : option json
}.

(** An [HTTPSConnection(host, port[, context=ctx])] handle; [conn_unverified]
    records whether it was built with [ssl._create_unverified_context()]. *)
Record Connection : Type := HTTPSConnection {
  conn_host : string;
  conn_port : Z;
  conn_unverified : bool
}.

(** The [body] argument handed to [connection.request]. *)
Inductive req_body : Type :=
| Text (s : string)                      (* a str given as is *)
| JsonDumps (j : json)                   (* json.dumps(j) *)
| EmptyList.                             (* the list [] given by logout *)

Record Request : Type := mkRequest {
  rq_method : string;
  rq_target : string;
  rq_body : req_body;
  rq_headers : Headers
}.

(** What [connection.request] does on one call. *)
Inductive send_outcome : Type :=
| Sent
| CannotSendRequest                      (* httplib.CannotSendRequest *)
| ImproperConnectionState                (* httplib.ImproperConnectionState *)
| SocketErr (errno : Z).                 (* socket.error *)

(** What [connection.getresponse] does on one call. *)
Inductive recv_outcome : Type :=
| Response (status : Z) (body : string)
| RecvFails (what : string).

(** The transport as the client sees it: the outcome of the n-th call of
    [connection.request] and of the n-th call of [getresponse], the
    requests handed over so far (oldest first) and the number of
    responses asked for. *)
Record Wire : Type := mkWire {
  on_request : nat -> send_outcome;
  on_getresponse : nat -> recv_outcome;
  requests : list Request;
  n_getresponse : nat
}.

Record Session : Type := mkSession {
  _url : string;
  _port : Z;
  _verify : bool;
  _connection : option Connection;
  _user : option User;
  _headers : Headers
}.

(** The scalar attributes filled by [load_properties]. *)
Record Properties : Type := mkProperties {
  _loaded_plugin_set : json;
  _uuid : json;
  _expiration : json;
  _nessus_ui_version : json;
  _nessus_type : json;
  _capabilities : json;
  _plugin_set : json;
  _idle_timeout : json;
  _scanner_boottime : json;
  _server_version : json
}.

(** The collections.  Those whose getter tests [is None] may hold [None];
    those whose getter tests [len] are lists. *)
Record Registry : Type := mkRegistry {
  _mail : option Mail;
  _proxy : option Proxy;
  _agents : option (list Agent);
  _agentgroups : option (list AgentGroup);
  _policies : option (list Policy);
  _templates : list Template;
  _scans : option (list Scan);
  _folders : list Folder;
  _users : option (list User);
  _notifications : list json;
  _scanners : list Scanner
}.

Record Nessus : Type := mkNessus {
  session : Session;
  properties : Properties;
  registry : Registry;
  wire : Wire
}.

(** *** Attribute assignment *)

Definition upd_session (f : Session -> Session) (st : Nessus) : Nessus :=
  mkNessus (f (session st)) (properties st) (registry st) (wire st).
Definition upd_properties (f : Properties -> Properties) (st : Nessus) : Nessus :=
  mkNessus (session st) (f (properties st)) (registry st) (wire st).
Definition upd_registry (f : Registry -> Registry) (st : Nessus) : Nessus :=
  mkNessus (session st) (properties st) (f (registry st)) (wire st).
Definition upd_wire (f : Wire -> Wire) (st : Nessus) : Nessus :=
  mkNessus (session st) (properties st) (registry st) (f (wire st)).

Definition set_connection (c : option Connection) (s : Session) : Session :=
  mkSession (_url s) (_port s) (_verify s) c (_user s) (_headers s).
Definition set_user (u : option User) (s : Session) : Session :=
  mkSession (_url s) (_port s) (_verify s) (_connection s) u (_headers s).
Definition set_headers (h : Headers) (s : Session) : Session :=
  mkSession (_url s) (_port s) (_verify s) (_connection s) (_user s) h.

Definition set_token (t : json) (u : User) : User :=
  mkUser (user_last_login u) (user_permissions u) (user_type u) (user_name u)
         (user_username u) (user_id u) (user_password u) t.
Definition set_x_cookie (t : json) (h : Headers) : Headers :=
  mkHeaders (content_type h) (accept h) (Some t).

Definition set_loaded_plugin_set (v : json) (p : Properties) : Properties :=
  mkProperties v (_uuid p) (_expiration p) (_nessus_ui_version p) (_nessus_type p)
    (_capabilities p) (_plugin_set p) (_idle_timeout p) (_scanner_boottime p)
    (_server_version p).
Definition set_uuid (v : json) (p : Properties) : Properties :=
  mkProperties (_loaded_plugin_set p) v (_expiration p) (_nessus_ui_version p)
    (_nessus_type p) (_capabilities p) (_plugin_set p) (_idle_timeout p)
    (_scanner_boottime p) (_server_version p).
Definition set_expiration (v : json) (p : Properties) : Properties :=
  mkProperties (_loaded_plugin_set p) (_uuid p) v (_nessus_ui_version p)
    (_nessus_type p) (_capabilities p) (_plugin_set p) (_idle_timeout p)
    (_scanner_boottime p) (_server_version p).
Definition set_nessus_ui_version (v : json) (p : Properties) : Properties :=
  mkProperties (_loaded_plugin_set p) (_uuid p) (_expiration p) v
    (_nessus_type p) (_capabilities p) (_plugin_set p) (_idle_timeout p)
    (_scanner_boottime p) (_server_version p).
Definition set_nessus_type (v : json) (p : Properties) : Properties :=
  mkProperties (_loaded_plugin_set p) (_uuid p) (_expiration p)
    (_nessus_ui_version p) v (_capabilities p) (_plugin_set p) (_idle_timeout p)
    (_scanner_boottime p) (_server_version p).
Definition set_capabilities (v : json) (p : Properties) : Properties :=
  mkProperties (_loaded_plugin_set p) (_uuid p) (_expiration p)
    (_nessus_ui_version p) (_nessus_type p) v (_plugin_set p) (_idle_timeout p)
    (_scanner_boottime p) (_server_version p).
Definition set_plugin_set (v : json) (p : Properties) : Properties :=
  mkProperties (_loaded_plugin_set p) (_uuid p) (_expiration p)
    (_nessus_ui_version p) (_nessus_type p) (_capabilities p) v (_idle_timeout p)
    (_scanner_boottime p) (_server_version p).
Definition set_idle_timeout (v : json) (p : Properties) : Properties :=
  mkProperties (_loaded_plugin_set p) (_uuid p) (_expiration p)
    (_nessus_ui_version p) (_nessus_type p) (_capabilities p) (_plugin_set p) v
    (_scanner_boottime p) (_server_version p).
Definition set_scanner_boottime (v : json) (p : Properties) : Properties :=
  mkProperties (_loaded_plugin_set p) (_uuid p) (_expiration p)
    (_nessus_ui_version p) (_nessus_type p) (_capabilities p) (_plugin_set p)
    (_idle_timeout p) v (_server_version p).
Definition set_server_version (v : json) (p : Properties) : Properties :=
  mkProperties (_loaded_plugin_set p) (_uuid p) (_expiration p)
    (_nessus_ui_version p) (_nessus_type p) (_capabilities p) (_plugin_set p)
    (_idle_timeout p) (_scanner_boottime p) v.

Definition set_mail (v : option Mail) (r : Registry) : Registry :=
  mkRegistry v (_proxy r) (_agents r) (_agentgroups r) (_policies r)
    (_templates r) (_scans r) (_folders r) (_users r) (_notifications r)
    (_scanners r).
Definition set_proxy (v : option Proxy) (r : Registry) : Registry :=
  mkRegistry (_mail r) v (_agents r) (_agentgroups r) (_policies r)
    (_templates r) (_scans r) (_folders r) (_users r) (_notifications r)
    (_scanners r).
Definition set_agents (v : option (list Agent)) (r : Registry) : Registry :=
  mkRegistry (_mail r) (_proxy r) v (_agentgroups r) (_policies r)
    (_templates r) (_scans r) (_folders r) (_users r) (_notifications r)
    (_scanners r).
Definition set_agentgroups (v : option (list AgentGroup)) (r : Registry) : Registry :=
  mkRegistry (_mail r) (_proxy r) (_agents r) v (_policies r)
    (_templates r) (_scans r) (_folders r) (_users r) (_notifications r)
    (_scanners r).
Definition set_policies (v : option (list Policy)) (r : Registry) : Registry :=
  mkRegistry (_mail r) (_proxy r) (_agents r) (_agentgroups r) v
    (_templates r) (_scans r) (_folders r) (_users r) (_notifications r)
    (_scanners r).
Definition set_templates (v : list Template) (r : Registry) : Registry :=
  mkRegistry (_mail r) (_proxy r) (_agents r) (_agentgroups r) (_policies r)
    v (_scans r) (_folders r) (_users r) (_notifications r)
    (_scanners r).
Definition set_scans (v : option (list Scan)) (r : Registry) : Registry :=
  mkRegistry (_mail r) (_proxy r) (_agents r) (_agentgroups r) (_policies r)
    (_templates r) v (_folders r) (_users r) (_notifications r)
    (_scanners r).
Definition set_folders (v : list Folder) (r : Registry) : Registry :=
  mkRegistry (_mail r) (_proxy r) (_agents r) (_agentgroups r) (_policies r)
    (_templates r) (_scans r) v (_users r) (_notifications r)
    (_scanners r).
Definition set_users (v : option (list User)) (r : Registry) : Registry :=
  mkRegistry (_mail r) (_proxy r) (_agents r) (_agentgroups r) (_policies r)
    (_templates r) (_scans r) (_folders r) v (_notifications r)
    (_scanners r).
Definition set_notifications (v : list json) (r : Registry) : Registry :=
  mkRegistry (_mail r) (_proxy r) (_agents r) (_agentgroups r) (_policies r)
    (_templates r) (_scans r) (_folders r) (_users r) v
    (_scanners r).
Definition set_scanners (v : list Scanner) (r : Registry) : Registry :=
  mkRegistry (_mail r) (_proxy r) (_agents r) (_agentgroups r) (_policies r)
    (_templates r) (_scans r) (_folders r) (_users r) (_notifications r)
    v.

(** [Nessus.__init__(url, port, verify)], placed in front of a transport. *)
Definition init_headers : Headers :=
  mkHeaders "application/json" "application/json" None.

Definition init_registry : Registry :=
  mkRegistry None None (Some []) (Some []) (Some []) [] (Some []) [] (Some [])
    [] [].

Definition init_properties : Properties :=
  mkProperties JNull (JInt 0) JNull JNull JNull JNull JNull JNull JNull JNull.

Definition __init__ (url : string) (port : Z) (verify : bool)
    (send : nat -> send_outcome) (recv : nat -> recv_outcome) : Nessus :=
  mkNessus (mkSession url port verify None None init_headers)
           init_properties init_registry (mkWire send recv [] 0).

(* ================================================================= *)
(** ** The state-and-exception monad *)

Definition M (A : Type) : Type := Nessus -> outcome A * Nessus.

Definition ret {A} (a : A) : M A := fun st => (Ret a, st).
Definition raise {A} (e : exn) : M A := fun st => (Raise e, st).
Definition bind {A B} (m : M A) (k : A -> M B) : M B :=
  fun st =>
    match m st with
    | (Ret a, st') => k a st'
    | (Raise e, st') => (Raise e, st')
    end.
Definition lift {A} (o : outcome A) : M A := fun st => (o, st).
Definition gets {A} (f : Nessus -> A) : M A := fun st => (Ret (f st), st).
Definition modify (f : Nessus -> Nessus) : M unit := fun st => (Ret tt, f st).

Notation "x <- c1 ;; c2" := (bind c1 (fun x => c2))
  (at level 61, c1 at next level, right associativity).
Notation "c1 ;; c2" := (bind c1 (fun _ => c2))
  (at level 61, right associativity).

(** [for x in xs: body x]. *)
Fixpoint for_each {A} (xs : list A) (body : A -> M unit) : M unit :=
  match xs with
  | [] => ret tt
  | x :: xs' => body x ;; for_each xs' body
  end.

(** A loop that carries a local variable. *)
Fixpoint for_fold {A S} (xs : list A) (body : S -> A -> M S) (s : S) : M S :=
  match xs with
  | [] => ret s
  | x :: xs' => s' <- body s x ;; for_fold xs' body s'
  end.

(* ================================================================= *)
(** ** The request layer and the session *)

Definition ECONNREFUSED : Z := 111.

Definition log_request (rq : Request) (w : Wire) : Wire :=
  mkWire (on_request w) (on_getresponse w) (requests w ++ [rq]) (n_getresponse w).

Definition count_response (w : Wire) : Wire :=
  mkWire (on_request w) (on_getresponse w) (requests w) (S (n_getresponse w)).

(** [self._connection.request(method, target, params, headers)]: the
    request is recorded and the transport decides how the call ends. *)
Definition connection_request (method target : string) (params : req_body)
    (headers : Headers) : M send_outcome :=
  fun st =>
    let w := wire st in
    (Ret (on_request w (length (requests w))),
     upd_wire (log_request (mkRequest method target params headers)) st).

(** The tail of [_request]:
    [response = self._connection.getresponse()], then the body on status
    200 and [Exception(response.read())] otherwise. *)
Definition read_response : M string :=
  fun st =>
    let w := wire st in
    let st' := upd_wire count_response st in
    match on_getresponse w (n_getresponse w) with
    | Response status body =>
        if Z.eqb status 200 then (Ret body, st')
        else (Raise (HTTPStatusError body), st')
    | RecvFails what => (Raise (TransportFailure what), st')
    end.

(** [if self._connection is None: self._connection = HTTPSConnection(...)],
    with an unverified context when [verify] is off. *)
Definition ensure_connection (st : Nessus) : Nessus :=
  match _connection (session st) with
  | None =>
      upd_session (fun s => set_connection
        (Some (HTTPSConnection (_url s) (_port s) (negb (_verify s)))) s) st
  | Some _ => st
  end.

(** [self._connection = HTTPSConnection(self._url, self._port)] of the two
    recovery handlers. *)
Definition reconnect (st : Nessus) : Nessus :=
  upd_session (fun s => set_connection
    (Some (HTTPSConnection (_url s) (_port s) false)) s) st.

(** [self._headers if headers is None else headers]. *)
Definition headers_or_default (headers : option Headers) (st : Nessus) : Headers :=
  match headers with
  | None => _headers (session st)
  | Some h => h
  end.

(** [x is not None] for the [str] that [_request] returns. *)
Definition str_is_not_None (_ : string) : bool := true.

(* ================================================================= *)
(** ** Plain exceptions and the multipart encoding *)

(** [upload_file] and the imports also raise plain [Exception(text)]. *)
Inductive raised : Type :=
| Exn (e : exn)
| Message (text : string).

Inductive uoutcome (A : Type) : Type :=
| URet (a : A)
| URaise (r : raised).
Arguments URet {A} a.
Arguments URaise {A} r.

Definition MU (A : Type) : Type := Nessus -> uoutcome A * Nessus.

Definition uret {A} (a : A) : MU A := fun st => (URet a, st).
Definition umessage {A} (text : string) : MU A :=
  fun st => (URaise (Message text), st).
Definition ubind {A B} (m : MU A) (k : A -> MU B) : MU B :=
  fun st =>
    match m st with
    | (URet a, st') => k a st'
    | (URaise r, st') => (URaise r, st')
    end.
Definition of_M {A} (m : M A) : MU A :=
  fun st =>
    match m st with
    | (Ret a, st') => (URet a, st')
    | (Raise e, st') => (URaise (Exn e), st')
    end.

Notation "x <-- c1 ;; c2" := (ubind c1 (fun x => c2))
  (at level 61, c1 at next level, right associativity).

Definition crlf : string :=
  String (ascii_of_nat 13) (String (ascii_of_nat 10) EmptyString).

Definition double_quote : string := String (ascii_of_nat 34) EmptyString.

(** [sep.join(parts)]. *)
Fixpoint py_join (sep : string) (parts : list string) : string :=
  match parts with
  | [] => ""
  | [x] => x
  | x :: parts' => (x ++ sep ++ py_join sep parts')%string
  end.

(** [os.path.basename]: what follows the last slash. *)
Fixpoint basename (p : string) : string :=
  match p with
  | EmptyString => ""
  | String c p' =>
      if contains "/" p' then basename p'
      else if Ascii.eqb c "/" then p' else p
  end.

Definition boundary : string := "----------bundary------".

(** [_encode(filename)], given the content read from the file: the
    content type and the multipart body. *)
Definition _encode (filename content : string) : string * string :=
  let body :=
    [("--" ++ boundary)%string;
     ("Content-Disposition: form-data; name=" ++ double_quote ++ "Filedata"
        ++ double_quote ++ "; filename=" ++ double_quote ++ basename filename
        ++ double_quote)%string;
     "Content-Type: text/xml";
     "";
     content] ++
    [("--" ++ boundary ++ "--")%string; ""] in
  (("multipart/form-data; boundary=" ++ boundary)%string, py_join crlf body).

Definition set_content_type (v : string) (h : Headers) : Headers :=
  mkHeaders v (accept h) (x_cookie h).

Section Client.

(** [json.loads]; [None] when it raises [ValueError]. *)
Variable json_loads : string -> option json.

Definition loads (raw : string) : outcome json :=
  match json_loads raw with
  | Some v => Ret v
  | None => Raise ValueError
  end.

(** The envelope check of [_api_request]:
    [if response is not None and "error" in response: raise
    NessusAPIError(response["error"])], else [return response]. *)
Definition unwrap (response : json) : outcome json :=
  if negb (is_None response) then
    has_error <~ py_in "error" response ;;
    if has_error then
      message <~ getitem response "error" ;;
      Raise (NessusAPIError message)
    else Ret response
  else Ret response.

(** [if not params: params = {}]. *)
Definition params_or_empty (params : json) : json :=
  if py_truthy params then params else JObj [].

Section WithRequest.

(** The methods below reach the network only through [self._request];
    they are written over it so that [_request] can call [login] back. *)
Variable request : string -> string -> req_body -> option Headers -> M string.

Definition _api_request_with (method target : string) (params : json) : M json :=
  let params := params_or_empty params in
  raw_response <- request method target (JsonDumps params) None ;;
  if negb (Nat.eqb (String.length raw_response) 0) then
    response <- lift (loads raw_response) ;;
    lift (unwrap response)
  else ret JNull.

Definition server_version_with : M json :=
  v <- gets (fun st => _server_version (properties st)) ;;
  (if is_None v then
     page <- request "GET" "/nessus6.html" (Text "") None ;;
     if negb (contains "404 File not found" page) then
       modify (upd_properties (set_server_version (JStr "6.x")))
     else
       page5 <- request "GET" "/html5.html" (Text "") None ;;
       if str_is_not_None page5 then
         modify (upd_properties (set_server_version (JStr "5.x")))
       else
         modify (upd_properties (set_server_version (JStr "unknown")))
   else ret tt) ;;
  gets (fun st => _server_version (properties st)).

Definition login_with (user : option User) : M bool :=
  version <- server_version_with ;;
  major <- lift (first_item version) ;;
  if negb (py_eq major (JStr "6")) then raise UnsupportedVersion
  else
    match user with
    | None => raise AttributeError
    | Some u =>
        let params := JObj [("username", user_username u);
                            ("password", user_password u)] in
        response <- _api_request_with "POST" "/session" params ;;
        if negb (is_None response) then
          has_status <- lift (py_in "status" response) ;;
          if has_status then
            status <- lift (getitem response "status") ;;
            raise (LoginRefused status)
          else
            modify (upd_session (set_user (Some u))) ;;
            token <- lift (getitem response "token") ;;
            modify (upd_session (set_user (Some (set_token token u)))) ;;
            token' <- lift (getitem response "token") ;;
            modify (upd_session (fun s =>
                      set_headers (set_x_cookie token' (_headers s)) s)) ;;
            ret true
        else ret false
    end.

End WithRequest.

(** [_request].  [depth] bounds the nesting of the recovery path, in which
    [_request] calls [login] and itself; running out of it is Python's
    recursion limit. *)
Fixpoint _request (depth : nat) (method target : string) (params : req_body)
    (headers : option Headers) {struct depth} : M string :=
  fun st =>
    let st1 := ensure_connection st in
    match connection_request method target params (headers_or_default headers st1) st1 with
    | (Raise e, st2) => (Raise e, st2)
    | (Ret Sent, st2) => read_response st2
    | (Ret (SocketErr errno), st2) =>
        if negb (Z.eqb errno ECONNREFUSED) then (Raise (SocketError errno), st2)
        else (Raise (CannotConnect (_url (session st2)) (_port (session st2))), st2)
    | (Ret _, st2) =>
        (* except CannotSendRequest / except ImproperConnectionState *)
        let st3 := reconnect st2 in
        match depth with
        | O => (Raise RecursionLimit, st3)
        | S depth' =>
            (user <- gets (fun st => _user (session st)) ;;
             login_with (_request depth') user ;;
             hs' <- gets (fun st => _headers (session st)) ;;
             _request depth' method target params (Some hs') ;;
             read_response) st3
        end
    end.

(** The recursion budget of a call made from outside [_request]. *)
Variable depth : nat.

Definition _api_request : string -> string -> json -> M json :=
  _api_request_with (_request depth).

Definition server_version : M json := server_version_with (_request depth).

Definition login : option User -> M bool := login_with (_request depth).

Definition logout : M bool :=
  _request depth "DELETE" "/session" EmptyList None ;;
  ret true.

(** The [status] property. *)
Definition status : M json :=
  response <- _api_request "GET" "/server/status" (JStr "") ;;
  if negb (is_None response) then lift (getitem response "status")
  else ret (JStr "unknown").

(* ================================================================= *)
(** ** Hydration and the loaders *)

(** Freshly constructed instances.  The constructors live in [models/],
    outside this module; only [Template()], [Folder()] and [User()] leave
    attributes that hydration does not assign. *)
Variable new_Template : Template.
Variable new_Folder : Folder.
Variable new_User : User.
Variable new_Mail : Mail.
Variable new_Proxy : Proxy.

(** [Mail.load] and [Proxy.load] of [models/mail.py] and [models/proxy.py],
    run on the client whose [_mail] / [_proxy] has just been replaced. *)
Variable Mail_load : M bool.
Variable Proxy_load : M bool.

Definition hydrate_scanner (s : json) : outcome Scanner :=
  id <~ getitem s "id" ;;
  uuid <~ getitem s "uuid" ;;
  name <~ getitem s "name" ;;
  type <~ getitem s "type" ;;
  status <~ getitem s "status" ;;
  scan_count <~ getitem s "scan_count" ;;
  engine_version <~ getitem s "engine_version" ;;
  platform <~ getitem s "platform" ;;
  loaded_plugin_set <~ getitem s "loaded_plugin_set" ;;
  registration_code <~ getitem s "registration_code" ;;
  owner <~ getitem s "owner" ;;
  Ret (mkScanner id uuid name type status scan_count engine_version platform
         loaded_plugin_set registration_code owner).

Definition hydrate_agent (scanner : Scanner) (a : json) : outcome Agent :=
  distros <~ getitem a "distros" ;;
  id <~ getitem a "id" ;;
  ip <~ getitem a "ip" ;;
  last_scanned <~ getitem a "last_scanned" ;;
  name <~ getitem a "name" ;;
  platform <~ getitem a "platform" ;;
  token <~ getitem a "token" ;;
  uuid <~ getitem a "uuid" ;;
  Ret (mkAgent distros id ip last_scanned name platform token uuid
         (scanner_id scanner)).

Definition hydrate_agentgroup (g : json) : outcome AgentGroup :=
  id <~ getitem g "id" ;;
  name <~ getitem g "name" ;;
  owner_id <~ getitem g "owner_id" ;;
  owner <~ getitem g "owner" ;;
  shared <~ getitem g "shared" ;;
  user_permissions <~ getitem g "user_permissions" ;;
  creation_date <~ getitem g "creation_date" ;;
  last_modification_date <~ getitem g "last_modification_date" ;;
  Ret (mkAgentGroup id name owner_id owner shared user_permissions
         creation_date last_modification_date).

Definition hydrate_template (t : json) : outcome Template :=
  uuid <~ getitem t "uuid" ;;
  title <~ getitem t "title" ;;
  name <~ getitem t "name" ;;
  desc <~ getitem t "desc" ;;
  has_more <~ py_in "more_info" t ;;
  more_info <~ (if has_more then getitem t "more_info" else Ret JNull) ;;
  cloud_only <~ getitem t "cloud_only" ;;
  subscription_only <~ getitem t "subscription_only" ;;
  Ret (mkTemplate uuid title name desc more_info cloud_only subscription_only).

Definition hydrate_folder (result : json) : outcome Folder :=
  id <~ getitem result "id" ;;
  has_type <~ py_in "type" result ;;
  type <~ (if has_type then getitem result "type" else Ret (JStr "local")) ;;
  custom <~ getitem result "custom" ;;
  default_tag <~ getitem result "default_tag" ;;
  name <~ getitem result "name" ;;
  has_unread <~ py_in "unread_count" result ;;
  unread_count <~ (if has_unread then getitem result "unread_count"
                   else Ret (JInt 0)) ;;
  Ret (mkFolder id type custom default_tag name unread_count).

Definition hydrate_policy (result : json) : outcome Policy :=
  id <~ getitem result "id" ;;
  template_uuid <~ getitem result "template_uuid" ;;
  name <~ getitem result "name" ;;
  owner <~ getitem result "owner" ;;
  _ <~ getitem result "creation_date" ;;
  has_no_target <~ py_in "no_target" result ;;
  no_target <~ (if has_no_target then getitem result "no_target"
                else Ret (JBool false)) ;;
  visibility <~ getitem result "visibility" ;;
  shared <~ getitem result "shared" ;;
  user_permissions <~ getitem result "user_permissions" ;;
  last_modification_date <~ getitem result "last_modification_date" ;;
  creation_date <~ getitem result "creation_date" ;;
  Ret (mkPolicy id template_uuid name owner creation_date no_target visibility
         shared user_permissions last_modification_date).

Definition hydrate_user (result : json) : outcome User :=
  last_login <~ getitem result "lastlogin" ;;
  permissions <~ getitem result "permissions" ;;
  type <~ getitem result "type" ;;
  name <~ getitem result "name" ;;
  username <~ getitem result "username" ;;
  id <~ getitem result "id" ;;
  Ret (mkUser last_login permissions type name username id
         (user_password new_User) (user_token new_User)).

(** [list.append] on an attribute that may hold [None]. *)
Definition append_to {A} (get : Registry -> option (list A))
    (set : option (list A) -> Registry -> Registry) (x : A) : M unit :=
  fun st =>
    match get (registry st) with
    | Some l => (Ret tt, upd_registry (set (Some (l ++ [x]))) st)
    | None => (Raise AttributeError, st)
    end.

(** [key in response and response[key] is not None]. *)
Definition present (key : string) (response : json) : outcome bool :=
  has <~ py_in key response ;;
  if has then v <~ getitem response key ;; Ret (negb (is_None v))
  else Ret false.

(** The records a [for x in response[key]] visits. *)
Definition records (key : string) (response : json) : outcome (list json) :=
  v <~ getitem response key ;; py_iter v.

Definition assign_property (set : json -> Properties -> Properties)
    (response : json) (key : string) : M unit :=
  v <- lift (getitem response key) ;;
  modify (upd_properties (set v)).

Definition load_properties : M bool :=
  response <- _api_request "GET" "/server/properties?json=1" (JObj []) ;;
  if negb (is_None response) then
    assign_property set_loaded_plugin_set response "loaded_plugin_set" ;;
    assign_property set_uuid response "server_uuid" ;;
    assign_property set_expiration response "expiration" ;;
    assign_property set_nessus_ui_version response "nessus_ui_version" ;;
    assign_property set_nessus_type response "nessus_type" ;;
    modify (upd_registry (set_notifications [])) ;;
    notifications <- lift (records "notifications" response) ;;
    for_each notifications (fun notification =>
      modify (upd_registry (fun r =>
        set_notifications (_notifications r ++ [notification]) r))) ;;
    assign_property set_capabilities response "capabilities" ;;
    assign_property set_plugin_set response "plugin_set" ;;
    assign_property set_idle_timeout response "idle_timeout" ;;
    assign_property set_scanner_boottime response "scanner_boottime" ;;
    assign_property set_server_version response "server_version" ;;
    ret true
  else ret false.

Definition load_mail : M bool :=
  modify (upd_registry (set_mail (Some new_Mail))) ;;
  Mail_load.

Definition load_proxy : M bool :=
  modify (upd_registry (set_proxy (Some new_Proxy))) ;;
  Proxy_load.

Definition load_templates : M bool :=
  response <- _api_request "GET" "/editor/scan/templates" (JStr "") ;;
  modify (upd_registry (set_templates [])) ;;
  has <- lift (py_in "templates" response) ;;
  (if has then
     ts <- lift (records "templates" response) ;;
     for_each ts (fun t =>
       template <- lift (hydrate_template t) ;;
       modify (upd_registry (fun r => set_templates (_templates r ++ [template]) r)))
   else ret tt) ;;
  ret true.

Definition load_scanners : M bool :=
  response <- _api_request "GET" "/scanners" JNull ;;
  has <- lift (py_in "scanners" response) ;;
  (if has then
     ss <- lift (records "scanners" response) ;;
     for_each ss (fun s =>
       scanner <- lift (hydrate_scanner s) ;;
       modify (upd_registry (fun r => set_scanners (_scanners r ++ [scanner]) r)))
   else ret tt) ;;
  ret true.

Definition load_agents : M bool :=
  scanners <- gets (fun st => _scanners (registry st)) ;;
  for_each scanners (fun scanner =>
    id <- lift (fmt_d (scanner_id scanner)) ;;
    response <- _api_request "GET" ("/scanners/" ++ id ++ "/agents") JNull ;;
    has <- lift (present "agents" response) ;;
    if has then
      agents <- lift (records "agents" response) ;;
      for_each agents (fun a =>
        agent <- lift (hydrate_agent scanner a) ;;
        append_to _agents set_agents agent)
    else ret tt) ;;
  ret true.

Definition load_agentgroups : M bool :=
  scanners <- gets (fun st => _scanners (registry st)) ;;
  for_each scanners (fun scanner =>
    id <- lift (fmt_d (scanner_id scanner)) ;;
    response <- _api_request "GET" ("/scanners/" ++ id ++ "/agent-groups") JNull ;;
    has <- lift (present "groups" response) ;;
    if has then
      groups <- lift (records "groups" response) ;;
      for_each groups (fun g =>
        group <- lift (hydrate_agentgroup g) ;;
        append_to _agentgroups set_agentgroups group)
    else ret tt) ;;
  ret true.

Definition load_folders : M bool :=
  response <- _api_request "GET" "/folders" JNull ;;
  has <- lift (py_in "folders" response) ;;
  if has then
    modify (upd_registry (set_folders [])) ;;
    results <- lift (records "folders" response) ;;
    for_each results (fun result =>
      f <- lift (hydrate_folder result) ;;
      modify (upd_registry (fun r => set_folders (_folders r ++ [f]) r))) ;;
    ret true
  else ret false.

Definition load_policies : M bool :=
  response <- _api_request "GET" "/policies" JNull ;;
  has <- lift (present "policies" response) ;;
  (if has then
     modify (upd_registry (set_policies (Some []))) ;;
     results <- lift (records "policies" response) ;;
     for_each results (fun result =>
       policy <- lift (hydrate_policy result) ;;
       append_to _policies set_policies policy)
   else ret tt) ;;
  ret true.

Definition load_users : M bool :=
  response <- _api_request "GET" "/users" JNull ;;
  has <- lift (py_in "users" response) ;;
  if has then
    results <- lift (records "users" response) ;;
    users <- for_fold results (fun users result =>
               user <- lift (hydrate_user result) ;;
               ret (users ++ [user])) [] ;;
    modify (upd_registry (set_users (Some users))) ;;
    ret true
  else ret false.

(** The [users] property. *)
Definition users : M (option (list User)) :=
  u <- gets (fun st => _users (registry st)) ;;
  match u with
  | None => load_users ;; ret tt
  | Some _ => ret tt
  end ;;
  gets (fun st => _users (registry st)).

(** The inner loop of [load_scans]:
    [for user in self.users: if user.id == s["owner_id"]: scan.owner = user]. *)
Definition resolve_owner (s : json) : M (option User) :=
  us <- users ;;
  match us with
  | None => raise TypeError
  | Some us =>
      for_fold us (fun owner user =>
        owner_id <- lift (getitem s "owner_id") ;;
        ret (if py_eq (user_id user) owner_id then Some user else owner)) None
  end.

Definition hydrate_scan (s : json) : M Scan :=
  status <- lift (getitem s "status") ;;
  name <- lift (getitem s "name") ;;
  read <- lift (getitem s "read") ;;
  last_modification_date <- lift (getitem s "last_modification_date") ;;
  creation_date <- lift (getitem s "creation_date") ;;
  user_permissions <- lift (getitem s "user_permissions") ;;
  shared <- lift (getitem s "shared") ;;
  id <- lift (getitem s "id") ;;
  uuid <- lift (getitem s "uuid") ;;
  let template := set_template_uuid uuid new_Template in
  folder_id <- lift (getitem s "folder_id") ;;
  let folder := set_folder_id folder_id new_Folder in
  owner <- resolve_owner s ;;
  ret (mkScan status name read last_modification_date creation_date
         user_permissions shared id template folder owner).

Definition load_scans : M bool :=
  response <- _api_request "GET" "/scans" (JStr "") ;;
  modify (upd_registry (set_scans (Some []))) ;;
  has <- lift (present "scans" response) ;;
  (if has then
     ss <- lift (records "scans" response) ;;
     for_each ss (fun s =>
       scan <- hydrate_scan s ;;
       append_to _scans set_scans scan)
   else ret tt) ;;
  ret true.

(** [load]: every [success &= self.load_x()] in turn. *)
Definition load : M bool :=
  let success := true in
  r <- load_properties ;; let success := success && r in
  r <- load_mail ;; let success := success && r in
  r <- load_proxy ;; let success := success && r in
  r <- load_scanners ;; let success := success && r in
  r <- load_agents ;; let success := success && r in
  r <- load_agentgroups ;; let success := success && r in
  r <- load_policies ;; let success := success && r in
  r <- load_scans ;; let success := success && r in
  r <- load_folders ;; let success := success && r in
  r <- load_templates ;; let success := success && r in
  r <- load_users ;; let success := success && r in
  ret success.

(** *** The lazy getters *)

Definition agents : M (option (list Agent)) :=
  a <- gets (fun st => _agents (registry st)) ;;
  match a with
  | None => load_agents ;; ret tt
  | Some _ => ret tt
  end ;;
  gets (fun st => _agents (registry st)).

(** [agentgroups] calls [self.load_agentgrous()], a name the class does not
    define. *)
Definition agentgroups : M (option (list AgentGroup)) :=
  a <- gets (fun st => _agentgroups (registry st)) ;;
  match a with
  | None => raise AttributeError
  | Some _ => ret tt
  end ;;
  gets (fun st => _agentgroups (registry st)).

Definition scanners : M (list Scanner) :=
  n <- gets (fun st => length (_scanners (registry st))) ;;
  (if Nat.eqb n 0 then load_scanners ;; ret tt else ret tt) ;;
  gets (fun st => _scanners (registry st)).

Definition scans : M (option (list Scan)) :=
  s <- gets (fun st => _scans (registry st)) ;;
  match s with
  | None => load_scans ;; ret tt
  | Some _ => ret tt
  end ;;
  gets (fun st => _scans (registry st)).

Definition policies : M (option (list Policy)) :=
  p <- gets (fun st => _policies (registry st)) ;;
  match p with
  | None => load_policies ;; ret tt
  | Some _ => ret tt
  end ;;
  gets (fun st => _policies (registry st)).

Definition templates : M (list Template) :=
  n <- gets (fun st => length (_templates (registry st))) ;;
  (if Nat.eqb n 0 then load_templates ;; ret tt else ret tt) ;;
  gets (fun st => _templates (registry st)).

Definition folders : M (list Folder) :=
  n <- gets (fun st => length (_folders (registry st))) ;;
  (if Nat.eqb n 0 then load_folders ;; ret tt else ret tt) ;;
  gets (fun st => _folders (registry st)).


(* ================================================================= *)
(** ** File upload and imports *)

Section Upload.

(** The files the client can read: [read_file name] is the content of a
    regular file ([os.path.isfile], then [open(name, "rb").read()]) and
    [None] when there is no such file. *)
Variable read_file : string -> option string.

(** [upload_file].  [headers = self._headers] names the session's own
    dictionary, so the assignment of ["Content-type"] is made on the
    session headers. *)
Definition upload_file (filename : string) : MU json :=
  match read_file filename with
  | None => umessage "This file does not exist."
  | Some content =>
      let '(content_type, body) := _encode filename content in
      _ <-- of_M (modify (upd_session (fun s =>
                    set_headers (set_content_type content_type (_headers s)) s))) ;;
      headers <-- of_M (gets (fun st => _headers (session st))) ;;
      raw <-- of_M (_request depth "POST" "/file/upload" (Text body) (Some headers)) ;;
      response <-- of_M (lift (loads raw)) ;;
      has <-- of_M (lift (py_in "fileuploaded" response)) ;;
      if has then of_M (lift (getitem response "fileuploaded"))
      else uret (JBool false)
  end.

Definition import_policy (filename : string) : MU bool :=
  uploaded_file <-- upload_file filename ;;
  if py_truthy uploaded_file then
    response <-- of_M (_api_request "POST" "/policies/import"
                         (JObj [("file", uploaded_file)])) ;;
    uret (is_None response)
  else
    umessage ("An error occured while uploading " ++ filename ++ ".").

(** [import_scan]; [folder_id] and [password] are [JNull] when not given.
    The result is [True], [False] or, when the upload gave nothing,
    [None]. *)
Definition import_scan (filename : string) (folder_id password : json) : MU json :=
  uploaded_file <-- upload_file filename ;;
  if py_truthy uploaded_file then
    let params := [("file", uploaded_file)] in
    let params := if negb (is_None folder_id)
                  then params ++ [("folder_id", folder_id)] else params in
    let params := if negb (is_None password)
                  then params ++ [("password", password)] else params in
    response <-- of_M (_api_request "POST" "/scans/import" (JObj params)) ;;
    uret (JBool (is_None response))
  else uret JNull.

End Upload.

(* ================================================================= *)
(** ** Vocabulary of the statements

    Predicates and auxiliary functions in which the properties below are
    stated. *)

(** Running [m] relates the state before to the state after by [R],
    whether [m] returns or raises. *)
Definition keeps (R : Nessus -> Nessus -> Prop) {A} (m : M A) : Prop :=
  forall st, R st (snd (m st)).

(** The transport accepts the next request and answers it with status 200
    and [body]. *)
Definition served (st : Nessus) (body : string) : Prop :=
  on_request (wire st) (length (requests (wire st))) = Sent /\
  on_getresponse (wire st) (n_getresponse (wire st)) = Response 200 body.

(** The client after one request went out and one response was read. *)
Definition exchange (method target : string) (params : req_body)
    (headers : option Headers) (st : Nessus) : Nessus :=
  let st1 := ensure_connection st in
  upd_wire count_response
    (upd_wire (log_request
       (mkRequest method target params (headers_or_default headers st1))) st1).

(** What [_api_request] makes of the body of an answered request. *)
Definition decode (body : string) : outcome json :=
  if negb (Nat.eqb (String.length body) 0) then
    response <~ loads body ;; unwrap response
  else Ret JNull.

(** The requests only ever grow at the end. *)
Definition log_extends (st st' : Nessus) : Prop :=
  exists l, requests (wire st') = requests (wire st) ++ l.

(** The body of [login]'s [POST /session]. *)
Definition credentials (u : User) : req_body :=
  JsonDumps (JObj [("username", user_username u); ("password", user_password u)]).

(** [self.server_version[0] == "6"] holds on the version already stored. *)
Definition version_supported (st : Nessus) : bool :=
  match first_item (_server_version (properties st)) with
  | Ret major => py_eq major (JStr "6")
  | Raise _ => false
  end.

(** The three assignments at the end of a successful [login]. *)
Definition logged_in (u : User) (token : json) (st : Nessus) : Nessus :=
  upd_session (fun s => set_headers (set_x_cookie token (_headers s)) s)
    (upd_session (set_user (Some (set_token token u)))
       (upd_session (set_user (Some u)) st)).

(** A body that [login] takes for a granted session. *)
Definition grants (body : string) (token : json) : Prop :=
  body <> "" /\
  exists o, json_loads body = Some (JObj o) /\
            lookup "error" o = None /\ lookup "status" o = None /\
            lookup "token" o = Some token.

(** The two conditions [_request] recovers from. *)
Definition stale (o : send_outcome) : bool :=
  match o with
  | CannotSendRequest | ImproperConnectionState => true
  | _ => false
  end.

Definition rq_line (rq : Request) : string * string :=
  (rq_method rq, rq_target rq).

(** A request without its headers. *)
Definition rq_sent (rq : Request) : string * string * req_body :=
  (rq_method rq, rq_target rq, rq_body rq).

(** What goes out when a call meets [n] stale conditions in a row: each
    refused attempt is followed by a login, and the last attempt is
    accepted. *)
Fixpoint attempts {A} (n : nat) (attempt relogin : A) : list A :=
  match n with
  | O => [attempt]
  | S n' => attempt :: relogin :: attempts n' attempt relogin
  end.

(** From the [r]-th request and the [g]-th response on, the transport
    refuses [n] attempts in a row as stale, serves the login that follows
    each of them, and accepts the attempt after the last login. *)
Fixpoint stale_run (n : nat) (send : nat -> send_outcome)
    (recv : nat -> recv_outcome) (r g : nat) : Prop :=
  match n with
  | O => send r = Sent
  | S n' =>
      stale (send r) = true /\ send (S r) = Sent /\
      (exists body token, recv g = Response 200 body /\ grants body token) /\
      stale_run n' send recv (S (S r)) (S g)
  end.

Fixpoint map_outcome {A B} (f : A -> outcome B) (l : list A) : outcome (list B) :=
  match l with
  | [] => Ret []
  | x :: l' => y <~ f x ;; ys <~ map_outcome f l' ;; Ret (y :: ys)
  end.

(** The owner the inner loop of [load_scans] leaves in [scan.owner] when
    the users collection holds [us]: the last user whose id equals
    [s["owner_id"]], which is looked up once per user. *)
Fixpoint pick_owner (us : list User) (s : json) (owner : option User)
  : outcome (option User) :=
  match us with
  | [] => Ret owner
  | user :: us' =>
      owner_id <~ getitem s "owner_id" ;;
      pick_owner us' s (if py_eq (user_id user) owner_id then Some user else owner)
  end.

(** [hydrate_scan] when the users collection holds [us]. *)
Definition hydrate_scan_with (us : list User) (s : json) : outcome Scan :=
  status <~ getitem s "status" ;;
  name <~ getitem s "name" ;;
  read <~ getitem s "read" ;;
  last_modification_date <~ getitem s "last_modification_date" ;;
  creation_date <~ getitem s "creation_date" ;;
  user_permissions <~ getitem s "user_permissions" ;;
  shared <~ getitem s "shared" ;;
  id <~ getitem s "id" ;;
  uuid <~ getitem s "uuid" ;;
  folder_id <~ getitem s "folder_id" ;;
  owner <~ pick_owner us s None ;;
  Ret (mkScan status name read last_modification_date creation_date
         user_permissions shared id (set_template_uuid uuid new_Template)
         (set_folder_id folder_id new_Folder) owner).

(** The keys [hydrate_scan] reads from every record. *)
Definition scan_keys : list string :=
  ["status"; "name"; "read"; "last_modification_date"; "creation_date";
   "user_permissions"; "shared"; "id"; "uuid"; "folder_id"].

Definition record_has (keys : list string) (s : json) : Prop :=
  Forall (fun k => exists v, getitem s k = Ret v) keys.

(** The last user of [us] whose id equals [oid], if any. *)
Definition last_match (oid : json) (us : list User) (owner : option User)
  : option User :=
  fold_left (fun o u => if py_eq (user_id u) oid then Some u else o) us owner.

(** The loaders that fetch their collection with a single API call. *)
Inductive single_fetch : Type :=
| FProperties | FTemplates | FScanners | FScans | FFolders | FPolicies | FUsers.

Definition loader (k : single_fetch) : M bool :=
  match k with
  | FProperties => load_properties
  | FTemplates => load_templates
  | FScanners => load_scanners
  | FScans => load_scans
  | FFolders => load_folders
  | FPolicies => load_policies
  | FUsers => load_users
  end.

(** The target and the [params] argument of the loader's call. *)
Definition endpoint (k : single_fetch) : string * json :=
  match k with
  | FProperties => ("/server/properties?json=1", JObj [])
  | FTemplates => ("/editor/scan/templates", JStr "")
  | FScanners => ("/scanners", JNull)
  | FScans => ("/scans", JStr "")
  | FFolders => ("/folders", JNull)
  | FPolicies => ("/policies", JNull)
  | FUsers => ("/users", JNull)
  end.

Definition same_registry (st st' : Nessus) : Prop := registry st' = registry st.

(** Only the agents collection may differ. *)
Definition agents_only (st st' : Nessus) : Prop :=
  exists a, registry st' = set_agents a (registry st).

(** Only the agent groups collection may differ. *)
Definition agentgroups_only (st st' : Nessus) : Prop :=
  exists g, registry st' = set_agentgroups g (registry st).

(** The order in which [load] calls the loaders. *)
Definition load_order : list (M bool) :=
  [load_properties; load_mail; load_proxy; load_scanners; load_agents;
   load_agentgroups; load_policies; load_scans; load_folders; load_templates;
   load_users].

(** [success &= l()] for every loader of the list, each on the client the
    one before left. *)
Fixpoint run_loads (loads : list (M bool)) (success : bool) : M bool :=
  match loads with
  | [] => ret success
  | l :: rest => r <- l ;; run_loads rest (success && r)
  end.

(** Every loader of the list returns [True], from the first state to the
    last. *)
Inductive all_succeed : list (M bool) -> Nessus -> Nessus -> Prop :=
| all_succeed_nil st : all_succeed [] st st
| all_succeed_cons l rest st st1 st2 :
    l st = (Ret true, st1) -> all_succeed rest st1 st2 ->
    all_succeed (l :: rest) st st2.

(** What no operation of the request layer changes in the session: the
    server's address and the verification flag, the two fixed headers, and
    the presence of a token header, of a stored user and of a connection
    once there is one. *)
Definition session_kept (st st' : Nessus) : Prop :=
  _url (session st') = _url (session st) /\
  _port (session st') = _port (session st) /\
  _verify (session st') = _verify (session st) /\
  content_type (_headers (session st')) = content_type (_headers (session st)) /\
  accept (_headers (session st')) = accept (_headers (session st)) /\
  (x_cookie (_headers (session st)) <> None ->
   x_cookie (_headers (session st')) <> None) /\
  (_user (session st) <> None -> _user (session st') <> None) /\
  (_connection (session st) <> None -> _connection (session st') <> None).

(** The connection is one built without an SSL context, as the recovery
    handlers build it. *)
Definition plain_connection (st : Nessus) : Prop :=
  _connection (session st) =
  Some (HTTPSConnection (_url (session st)) (_port (session st)) false).

Definition plain_kept (st st' : Nessus) : Prop :=
  _url (session st') = _url (session st) /\
  _port (session st') = _port (session st) /\
  (plain_connection st -> plain_connection st').

(** The API call of a loader is served and yields [response] ([None] for
    an empty body). *)
Definition fetched (st : Nessus) (response : json) : Prop :=
  exists body, served st body /\ decode body = Ret response.

(** The agents [load_agents] takes from the response for one scanner. *)
Definition agents_of (scanner : Scanner) (response : json) : outcome (list Agent) :=
  has <~ present "agents" response ;;
  if has then
    rs <~ records "agents" response ;;
    map_outcome (hydrate_agent scanner) rs
  else Ret [].

(** The request line of [load_agents] for one scanner. *)
Definition agents_line (scanner : Scanner) : string * string :=
  ("GET",
   match fmt_d (scanner_id scanner) with
   | Ret id => "/scanners/" ++ id ++ "/agents"
   | Raise _ => ""
   end)%string.

(** From the [r]-th request and the [g]-th response on, the transport
    serves one call per scanner of the list, and the response for each
    scanner yields the agents listed for it in [out]. *)
Fixpoint agents_run (scanners : list Scanner) (send : nat -> send_outcome)
    (recv : nat -> recv_outcome) (r g : nat) (out : list (list Agent)) : Prop :=
  match scanners, out with
  | [], [] => True
  | scanner :: scanners', ags :: out' =>
      (exists id, fmt_d (scanner_id scanner) = Ret id) /\
      send r = Sent /\
      (exists body response,
         recv g = Response 200 body /\ decode body = Ret response /\
         agents_of scanner response = Ret ags) /\
      agents_run scanners' send recv (S r) (S g) out'
  | _, _ => False
  end.

(** The first key of [keys], in reading order, that the record lacks. *)
Fixpoint first_missing (keys : list string) (o : list (string * json))
  : option string :=
  match keys with
  | [] => None
  | k :: keys' =>
      match lookup k o with
      | Some _ => first_missing keys' o
      | None => Some k
      end
  end.

(** The keys each hydrator requires, in the order it reads them. *)
Definition scanner_keys : list string :=
  ["id"; "uuid"; "name"; "type"; "status"; "scan_count"; "engine_version";
   "platform"; "loaded_plugin_set"; "registration_code"; "owner"].
Definition agent_keys : list string :=
  ["distros"; "id"; "ip"; "last_scanned"; "name"; "platform"; "token"; "uuid"].
Definition agentgroup_keys : list string :=
  ["id"; "name"; "owner_id"; "owner"; "shared"; "user_permissions";
   "creation_date"; "last_modification_date"].
Definition template_keys : list string :=
  ["uuid"; "title"; "name"; "desc"; "cloud_only"; "subscription_only"].
Definition folder_keys : list string :=
  ["id"; "custom"; "default_tag"; "name"].
Definition policy_keys : list string :=
  ["id"; "template_uuid"; "name"; "owner"; "creation_date"; "visibility";
   "shared"; "user_permissions"; "last_modification_date"].
Definition user_keys : list string :=
  ["lastlogin"; "permissions"; "type"; "name"; "username"; "id"].

(** [record.get(key, default)], as the conditional expressions of the
    hydrators read an optional field. *)
Definition get_or (o : list (string * json)) (key : string) (default : json) : json :=
  match lookup key o with
  | Some v => v
  | None => default
  end.

(** What [hydrate] makes of a record that is a JSON object: it raises
    [KeyError] for the first required key the record lacks and returns
    when it lacks none. *)
Definition needs_keys {A} (hydrate : json -> outcome A) (keys : list string) : Prop :=
  forall o,
    match first_missing keys o with
    | Some k => hydrate (JObj o) = Raise (KeyError k)
    | None => exists x, hydrate (JObj o) = Ret x
    end.

(** The keys [load_properties] reads, in order. *)
Definition property_keys : list string :=
  ["loaded_plugin_set"; "server_uuid"; "expiration"; "nessus_ui_version";
   "nessus_type"; "notifications"; "capabilities"; "plugin_set";
   "idle_timeout"; "scanner_boottime"; "server_version"].

(** The content type [_encode] announces. *)
Definition multipart : string :=
  "multipart/form-data; boundary=----------bundary------".

(** The client once [upload_file] has written ["Content-type"] into the
    session headers. *)
Definition with_content_type (v : string) (st : Nessus) : Nessus :=
  upd_session (fun s => set_headers (set_content_type v (_headers s)) s) st.

(** An optional entry of the parameters of an import. *)
Definition given (key : string) (v : json) : list (string * json) :=
  if is_None v then [] else [(key, v)].

(** The records a per-scanner loader takes from the response for one
    scanner. *)
Definition taken {A} (hyd : json -> outcome A) (key : string) (response : json)
  : outcome (list A) :=
  has <~ present key response ;;
  if has then
    rs <~ records key response ;;
    map_outcome hyd rs
  else Ret [].

(** The agent groups [load_agentgroups] takes from one response. *)
Definition groups_of (_ : Scanner) (response : json) : outcome (list AgentGroup) :=
  taken hydrate_agentgroup "groups" response.

(** From the [r]-th request and the [g]-th response on, the transport
    serves one call per scanner of the list, and the response for each
    scanner yields the records listed for it in [out]. *)
Fixpoint scanners_served {A} (take : Scanner -> json -> outcome (list A))
    (scanners : list Scanner) (send : nat -> send_outcome)
    (recv : nat -> recv_outcome) (r g : nat) (out : list (list A)) : Prop :=
  match scanners, out with
  | [], [] => True
  | scanner :: scanners', xs :: out' =>
      (exists id, fmt_d (scanner_id scanner) = Ret id) /\
      send r = Sent /\
      (exists body response,
         recv g = Response 200 body /\ decode body = Ret response /\
         take scanner response = Ret xs) /\
      scanners_served take scanners' send recv (S r) (S g) out'
  | _, _ => False
  end.

(** The [r]-th request is accepted and answered with a body for which
    [_api_request] raises [e]. *)
Definition call_raises (send : nat -> send_outcome) (recv : nat -> recv_outcome)
    (r g : nat) (e : exn) : Prop :=
  send r = Sent /\
  exists body, recv g = Response 200 body /\ decode body = Raise e.

(** The folders and the templates are as before. *)
Definition folders_kept (st st' : Nessus) : Prop :=
  _folders (registry st') = _folders (registry st) /\
  _templates (registry st') = _templates (registry st).

(* ================================================================= *)
(** ** Fixtures

    Concrete servers for the examples that close the file: a printer that
    writes a JSON value the way [json.dumps] does (strings without escapes),
    a decoder that reads back the texts of a given list of payloads, and
    scripted transports. *)

Definition dq : string := String (ascii_of_nat 34) EmptyString.

Fixpoint join (sep : string) (l : list string) : string :=
  match l with
  | [] => ""
  | [x] => x
  | x :: l' => (x ++ sep ++ join sep l')%string
  end.

Fixpoint json_text (v : json) : string :=
  match v with
  | JNull => "null"
  | JBool true => "true"
  | JBool false => "false"
  | JInt n => string_of_Z n
  | JStr s => (dq ++ s ++ dq)%string
  | JArr l => ("[" ++ join ", " (map json_text l) ++ "]")%string
  | JObj o =>
      ("{" ++ join ", "
         (map (fun kv => let '(k, x) := kv in
                         (dq ++ k ++ dq ++ ": " ++ json_text x)%string) o)
       ++ "}")%string
  end.

(** [json.loads] on the texts of [payloads]; any other text is refused. *)
Definition loads_of (payloads : list json) (raw : string) : option json :=
  find (fun v => String.eqb (json_text v) raw) payloads.

(** A transport that accepts every request. *)
Definition always_sent : nat -> send_outcome := fun _ => Sent.

(** A transport whose calls of [request] end as listed, then are accepted. *)
Definition sends (l : list send_outcome) : nat -> send_outcome :=
  fun n => nth n l Sent.

(** A transport that answers 200 with the listed bodies, in turn. *)
Definition answers (bodies : list string) : nat -> recv_outcome :=
  fun n =>
    match nth_error bodies n with
    | Some body => Response 200 body
    | None => RecvFails "ResponseNotReady"
    end.

Definition a_server (send : nat -> send_outcome) (bodies : list string) : Nessus :=
  __init__ "nessus.example.org" 8834 true send (answers bodies).

Definition error_array : json := JArr [JStr "error"].
Definition invalid_token : json := JObj [("error", JStr "invalid token")].

Definition alice : User :=
  mkUser JNull JNull JNull JNull (JStr "alice") JNull (JStr "secret") JNull.

Definition token_abc : json := JObj [("token", JStr "abc")].
Definition no_scans : json := JObj [("scans", JArr [])].

(** A client that holds a user and a server version already. *)
Definition with_user (u : User) (version : json) (st : Nessus) : Nessus :=
  upd_properties (set_server_version version)
    (upd_session (set_user (Some u)) st).

(** The transport refuses the first two attempts of a request as stale and
    serves the two logins and the third attempt; it has the same answer
    ready each time it is asked for a response after that. *)
Definition twice_stale : Nessus :=
  with_user alice (JStr "6.x")
    (a_server (sends [CannotSendRequest; Sent; CannotSendRequest; Sent; Sent])
       [json_text token_abc; json_text token_abc;
        json_text no_scans; json_text no_scans; json_text no_scans]).

(** A server whose [/nessus6.html] is there: login, logout, one more call. *)
Definition nessus6_server : Nessus :=
  a_server always_sent
    ["<html>Nessus</html>"; json_text token_abc; ""; json_text no_scans].

(** A server whose [/nessus6.html] page reads 404. *)
Definition nessus5_server : Nessus :=
  a_server always_sent
    ["<h1>404 File not found</h1>"; "<html>Nessus 5</html>"; json_text token_abc].

Definition blank_template : Template :=
  mkTemplate JNull JNull JNull JNull JNull JNull JNull.
Definition blank_folder : Folder :=
  mkFolder JNull JNull JNull JNull JNull JNull.
Definition blank_user : User :=
  mkUser JNull JNull JNull JNull JNull JNull JNull JNull.

Definition scanner_record (id : Z) (name : string) : json :=
  JObj [("id", JInt id); ("uuid", JStr "00000000-0000-0000-0000-000000000000");
        ("name", JStr name); ("type", JStr "local"); ("status", JStr "on");
        ("scan_count", JInt 0); ("engine_version", JStr "6.3.3");
        ("platform", JStr "LINUX"); ("loaded_plugin_set", JStr "201503131415");
        ("registration_code", JNull); ("owner", JStr "nessus_ms_agent")].

Definition agent_record (id : Z) (name : string) : json :=
  JObj [("distros", JArr [JStr "es7-x86-64"]); ("id", JInt id);
        ("ip", JStr "10.0.0.5"); ("last_scanned", JNull); ("name", JStr name);
        ("platform", JStr "LINUX"); ("token", JStr "t0"); ("uuid", JStr "u0")].

Definition user_record (id : Z) (username : string) : json :=
  JObj [("lastlogin", JInt 1416140000); ("permissions", JInt 128);
        ("type", JStr "local"); ("name", JStr username);
        ("username", JStr username); ("id", JInt id)].

Definition scan_record (id folder_id owner_id : Z) : json :=
  JObj [("status", JStr "completed"); ("name", JStr "weekly");
        ("read", JBool true); ("last_modification_date", JInt 1416140000);
        ("creation_date", JInt 1416130000); ("user_permissions", JInt 128);
        ("shared", JBool false); ("id", JInt id);
        ("uuid", JStr "template-1"); ("folder_id", JInt folder_id);
        ("owner_id", JInt owner_id)].

Definition scanners_payload (l : list json) : json := JObj [("scanners", JArr l)].
Definition agents_payload (l : list json) : json := JObj [("agents", JArr l)].
Definition users_payload (l : list json) : json := JObj [("users", JArr l)].
Definition scans_payload (l : list json) : json := JObj [("scans", JArr l)].

Definition properties_payload : json :=
  JObj [("loaded_plugin_set", JStr "201503131415"); ("server_uuid", JStr "s0");
        ("expiration", JInt 0); ("nessus_ui_version", JStr "6.3.3");
        ("nessus_type", JStr "Nessus"); ("notifications", JArr []);
        ("capabilities", JObj []); ("plugin_set", JStr "201503131415");
        ("idle_timeout", JInt 30); ("scanner_boottime", JInt 1416130000);
        ("server_version", JStr "6.3.3")].

(** Two fetches of the scanners, with one scanner each. *)
Definition two_scanner_lists : Nessus :=
  a_server always_sent
    [json_text (scanners_payload [scanner_record 1 "local"]);
     json_text (scanners_payload [scanner_record 2 "remote"])].

(** Two fetches of the scans, with one scan each. *)
Definition two_scan_lists : Nessus :=
  a_server always_sent
    [json_text (scans_payload [scan_record 5 3 7]);
     json_text (scans_payload [scan_record 6 3 7])].

(** A server without scanners. *)
Definition no_scanners_server : Nessus :=
  a_server always_sent
    [json_text (scanners_payload []); json_text (scanners_payload [])].

(** The users, then the scans. *)
Definition users_then_scans : Nessus :=
  a_server always_sent
    [json_text (users_payload [user_record 7 "bob"]);
     json_text (scans_payload [scan_record 5 3 7])].

(** Two scanners; the agents of the first are served, the call for the
    second is answered with an error. *)
Definition agents_fail_on_second : Nessus :=
  a_server always_sent
    [json_text (scanners_payload [scanner_record 1 "local";
                                  scanner_record 2 "remote"]);
     json_text (agents_payload [agent_record 10 "agent-10"]);
     json_text invalid_token].

(** Properties and scanners are served, the call for the agents fails. *)
Definition agents_fail_in_load : Nessus :=
  a_server always_sent
    [json_text properties_payload;
     json_text (scanners_payload [scanner_record 1 "local"]);
     json_text invalid_token].

(** A transport that refuses every request as stale; the client holds a
    user and a version. *)
Definition stale_forever : Nessus :=
  with_user alice (JStr "6.x") (a_server (fun _ => CannotSendRequest) []).


(** A client built with [verify=False]. *)
Definition unverified_client (send : nat -> send_outcome) (bodies : list string)
  : Nessus :=
  with_user alice (JStr "6.x")
    (__init__ "nessus.example.org" 8834 false send (answers bodies)).

(** Nothing listens on the port. *)
Definition refusing_server : Nessus :=
  a_server (sends [SocketErr ECONNREFUSED]) [].

(** Every request is answered with status 404. *)
Definition not_found_server : Nessus :=
  __init__ "nessus.example.org" 8834 true always_sent
    (fun _ => Response 404 "Not Found").

(** A server of a supported version that answers with the listed bodies. *)
Definition nessus6_answering (bodies : list string) : Nessus :=
  upd_properties (set_server_version (JStr "6.x")) (a_server always_sent bodies).

Definition folder_record (id : Z) (name : string) : json :=
  JObj [("id", JInt id); ("custom", JInt 0); ("default_tag", JInt 1);
        ("name", JStr name)].

(** One scanner, and one agent behind it. *)
Definition one_scanner_one_agent : Nessus :=
  a_server always_sent
    [json_text (scanners_payload [scanner_record 1 "local"]);
     json_text (agents_payload [agent_record 10 "agent-10"])].

(** The one file of the examples. *)
Definition one_file (name : string) : option string :=
  if String.eqb name "/tmp/policy.nessus" then Some "<NessusClientData_v2/>"
  else None.

Definition uploaded_as (name : string) : json :=
  JObj [("fileuploaded", JStr name)].

Definition ready : json := JObj [("status", JStr "ready")].

(** A server that reported the version 60.1 in its properties. *)
Definition nessus60_server : Nessus :=
  upd_properties (set_server_version (JStr "60.1"))
    (a_server always_sent [json_text token_abc]).

(** The scans are served, then the users. *)
Definition scans_then_users : Nessus :=
  a_server always_sent
    [json_text (scans_payload [scan_record 5 3 7]);
     json_text (users_payload [user_record 7 "bob"])].

(** A client whose users were set to [None] through the [users] setter. *)
Definition users_unset (st : Nessus) : Nessus :=
  upd_registry (set_users None) st.

(** The users, the folders, then the scans. *)
Definition users_folders_scans : Nessus :=
  a_server always_sent
    [json_text (users_payload [user_record 7 "bob"]);
     json_text (JObj [("folders", JArr [folder_record 9 "Trash"])]);
     json_text (scans_payload [scan_record 5 3 7])].

(** The scans are served once; the next call is answered with an error. *)
Definition scans_then_error : Nessus :=
  a_server always_sent
    [json_text (scans_payload [scan_record 5 3 7]); json_text invalid_token].

(* ================================================================= *)
(** ** Frame properties

    [keeps R] is stable under the monad's operations; the request layer
    keeps every relation that the updates of the session, of the server
    properties and of the wire keep. *)

Section Frame.

Variable R : Nessus -> Nessus -> Prop.
Hypothesis R_refl : forall st, R st st.
Hypothesis R_trans : forall a b c, R a b -> R b c -> R a c.

Lemma keeps_ret {A} (a : A) : keeps R (ret a).
Proof. intro st; apply R_refl. Qed.

Lemma keeps_raise {A} (e : exn) : keeps R (@raise A e).
Proof. intro st; apply R_refl. Qed.

Lemma keeps_lift {A} (o : outcome A) : keeps R (lift o).
Proof. intro st; apply R_refl. Qed.

Lemma keeps_gets {A} (f : Nessus -> A) : keeps R (gets f).
Proof. intro st; apply R_refl. Qed.

Lemma keeps_modify (f : Nessus -> Nessus) :
  (forall st, R st (f st)) -> keeps R (modify f).
Proof. intros H st; apply H. Qed.

Lemma keeps_bind {A B} (m : M A) (k : A -> M B) :
  keeps R m -> (forall a, keeps R (k a)) -> keeps R (bind m k).
Proof.
  intros Hm Hk st. unfold bind.
  specialize (Hm st). destruct (m st) as [[a | e] st'] eqn:E; simpl in *.
  - eapply R_trans; [exact Hm | apply Hk].
  - exact Hm.
Qed.

Lemma keeps_if {A} (b : bool) (m1 m2 : M A) :
  keeps R m1 -> keeps R m2 -> keeps R (if b then m1 else m2).
Proof. destruct b; auto. Qed.

Lemma keeps_for_each {A} (xs : list A) (body : A -> M unit) :
  (forall x, keeps R (body x)) -> keeps R (for_each xs body).
Proof.
  intros Hb. induction xs as [| x xs IH]; simpl.
  - apply keeps_ret.
  - apply keeps_bind; auto.
Qed.

Lemma keeps_for_fold {A S} (xs : list A) (body : S -> A -> M S) (s : S) :
  (forall s x, keeps R (body s x)) -> keeps R (for_fold xs body s).
Proof.
  intros Hb. revert s. induction xs as [| x xs IH]; intro s; simpl.
  - apply keeps_ret.
  - apply keeps_bind; auto.
Qed.

(** The request layer touches the session, the server properties and the
    wire, nothing else. *)
Hypothesis R_session : forall f st, R st (upd_session f st).
Hypothesis R_properties : forall f st, R st (upd_properties f st).
Hypothesis R_log : forall rq st, R st (upd_wire (log_request rq) st).
Hypothesis R_count : forall st, R st (upd_wire count_response st).

Lemma keeps_read_response : keeps R read_response.
Proof.
  intro st. unfold read_response.
  destruct (on_getresponse (wire st) (n_getresponse (wire st))) as [status body | what];
    [destruct (Z.eqb status 200) |]; simpl; apply R_count.
Qed.

Lemma R_ensure_connection st : R st (ensure_connection st).
Proof.
  unfold ensure_connection. destruct (_connection (session st)); auto.
Qed.

Section OverRequest.

Variable request : string -> string -> req_body -> option Headers -> M string.
Hypothesis keeps_request : forall m t p h, keeps R (request m t p h).

Lemma keeps_api_request_with m t p : keeps R (_api_request_with request m t p).
Proof.
  unfold _api_request_with.
  apply keeps_bind; [apply keeps_request |]. intro raw.
  apply keeps_if; [| apply keeps_ret].
  apply keeps_bind; [apply keeps_lift |]. intro response.
  apply keeps_lift.
Qed.

Lemma keeps_server_version_with : keeps R (server_version_with request).
Proof.
  unfold server_version_with.
  apply keeps_bind; [apply keeps_gets |]. intro v.
  apply keeps_bind; [| intros _; apply keeps_gets].
  apply keeps_if; [| apply keeps_ret].
  apply keeps_bind; [apply keeps_request |]. intro page.
  apply keeps_if; [apply keeps_modify; intro; apply R_properties |].
  apply keeps_bind; [apply keeps_request |]. intro page5.
  apply keeps_if; apply keeps_modify; intro; apply R_properties.
Qed.

Lemma keeps_login_with user : keeps R (login_with request user).
Proof.
  unfold login_with.
  apply keeps_bind; [apply keeps_server_version_with |]. intro version.
  apply keeps_bind; [apply keeps_lift |]. intro major.
  apply keeps_if; [apply keeps_raise |].
  destruct user as [u |]; [| apply keeps_raise].
  apply keeps_bind; [apply keeps_api_request_with |]. intro response.
  apply keeps_if; [| apply keeps_ret].
  apply keeps_bind; [apply keeps_lift |]. intro has.
  apply keeps_if.
  - apply keeps_bind; [apply keeps_lift |]. intro. apply keeps_raise.
  - apply keeps_bind; [apply keeps_modify; intro; apply R_session |]. intros _.
    apply keeps_bind; [apply keeps_lift |]. intro token.
    apply keeps_bind; [apply keeps_modify; intro; apply R_session |]. intros _.
    apply keeps_bind; [apply keeps_lift |]. intro token'.
    apply keeps_bind; [apply keeps_modify; intro; apply R_session |]. intros _.
    apply keeps_ret.
Qed.

End OverRequest.

Lemma keeps__request d : forall m t p h, keeps R (_request d m t p h).
Proof.
  induction d as [| d IH]; intros m t p h st.
  - simpl. unfold connection_request.
    destruct (on_request _ _); simpl.
    + eapply R_trans; [apply R_ensure_connection |].
      eapply R_trans; [apply R_log | apply keeps_read_response].
    + eapply R_trans; [apply R_ensure_connection |].
      eapply R_trans; [apply R_log | apply R_session].
    + eapply R_trans; [apply R_ensure_connection |].
      eapply R_trans; [apply R_log | apply R_session].
    + destruct (negb _); simpl;
        (eapply R_trans; [apply R_ensure_connection | apply R_log]).
  - simpl. unfold connection_request.
    destruct (on_request _ _); simpl.
    + eapply R_trans; [apply R_ensure_connection |].
      eapply R_trans; [apply R_log | apply keeps_read_response].
    + eapply R_trans; [apply R_ensure_connection |].
      eapply R_trans; [apply R_log |].
      eapply R_trans; [apply R_session |].
      apply keeps_bind; [apply keeps_gets |]. intro user.
      apply keeps_bind; [apply keeps_login_with; apply IH |]. intros _.
      apply keeps_bind; [apply keeps_gets |]. intro hs.
      apply keeps_bind; [apply IH |]. intros _. apply keeps_read_response.
    + eapply R_trans; [apply R_ensure_connection |].
      eapply R_trans; [apply R_log |].
      eapply R_trans; [apply R_session |].
      apply keeps_bind; [apply keeps_gets |]. intro user.
      apply keeps_bind; [apply keeps_login_with; apply IH |]. intros _.
      apply keeps_bind; [apply keeps_gets |]. intro hs.
      apply keeps_bind; [apply IH |]. intros _. apply keeps_read_response.
    + destruct (negb _); simpl;
        (eapply R_trans; [apply R_ensure_connection | apply R_log]).
Qed.

Lemma keeps__api_request m t p : keeps R (_api_request m t p).
Proof. apply keeps_api_request_with, keeps__request. Qed.

End Frame.

(* ================================================================= *)
(** ** One exchange with the server *)

Lemma wire_ensure_connection st : wire (ensure_connection st) = wire st.
Proof. unfold ensure_connection. destruct (_connection (session st)); reflexivity. Qed.

Lemma registry_ensure_connection st : registry (ensure_connection st) = registry st.
Proof. unfold ensure_connection. destruct (_connection (session st)); reflexivity. Qed.

Lemma properties_ensure_connection st :
  properties (ensure_connection st) = properties st.
Proof. unfold ensure_connection. destruct (_connection (session st)); reflexivity. Qed.

Lemma headers_ensure_connection st :
  _headers (session (ensure_connection st)) = _headers (session st).
Proof. unfold ensure_connection. destruct (_connection (session st)); reflexivity. Qed.

Lemma user_ensure_connection st :
  _user (session (ensure_connection st)) = _user (session st).
Proof. unfold ensure_connection. destruct (_connection (session st)); reflexivity. Qed.

Lemma headers_or_default_ensure h st :
  headers_or_default h (ensure_connection st) = headers_or_default h st.
Proof. destruct h; simpl; [reflexivity | apply headers_ensure_connection]. Qed.

Lemma requests_exchange m t p h st :
  requests (wire (exchange m t p h st)) =
  requests (wire st) ++ [mkRequest m t p (headers_or_default h st)].
Proof.
  unfold exchange; simpl.
  rewrite wire_ensure_connection, headers_or_default_ensure. reflexivity.
Qed.

Lemma n_getresponse_exchange m t p h st :
  n_getresponse (wire (exchange m t p h st)) = S (n_getresponse (wire st)).
Proof. unfold exchange; simpl. rewrite wire_ensure_connection. reflexivity. Qed.

Lemma on_request_exchange m t p h st :
  on_request (wire (exchange m t p h st)) = on_request (wire st).
Proof. unfold exchange; simpl. rewrite wire_ensure_connection. reflexivity. Qed.

Lemma on_getresponse_exchange m t p h st :
  on_getresponse (wire (exchange m t p h st)) = on_getresponse (wire st).
Proof. unfold exchange; simpl. rewrite wire_ensure_connection. reflexivity. Qed.

Lemma registry_exchange m t p h st :
  registry (exchange m t p h st) = registry st.
Proof. unfold exchange; simpl. apply registry_ensure_connection. Qed.

Lemma properties_exchange m t p h st :
  properties (exchange m t p h st) = properties st.
Proof. unfold exchange; simpl. apply properties_ensure_connection. Qed.

Lemma headers_exchange m t p h st :
  _headers (session (exchange m t p h st)) = _headers (session st).
Proof. unfold exchange; simpl. apply headers_ensure_connection. Qed.

Lemma user_exchange m t p h st :
  _user (session (exchange m t p h st)) = _user (session st).
Proof. unfold exchange; simpl. apply user_ensure_connection. Qed.

Lemma bind_ret_eq {A B} (m : M A) (k : A -> M B) st a st' :
  m st = (Ret a, st') -> bind m k st = k a st'.
Proof. intro H. unfold bind. rewrite H. reflexivity. Qed.

Lemma bind_raise_eq {A B} (m : M A) (k : A -> M B) st e st' :
  m st = (Raise e, st') -> bind m k st = (Raise e, st').
Proof. intro H. unfold bind. rewrite H. reflexivity. Qed.

(** A request the transport accepts ends in the reading of one response. *)
Lemma request_accepted d m t p h st :
  on_request (wire st) (length (requests (wire st))) = Sent ->
  _request d m t p h st =
  read_response
    (upd_wire (log_request (mkRequest m t p (headers_or_default h st)))
       (ensure_connection st)).
Proof.
  intro Hs.
  destruct d; simpl; unfold connection_request;
    rewrite wire_ensure_connection, Hs, headers_or_default_ensure; reflexivity.
Qed.

Lemma request_served d m t p h st body :
  served st body ->
  _request d m t p h st = (Ret body, exchange m t p h st).
Proof.
  intros [Hs Hr]. rewrite request_accepted by exact Hs.
  unfold read_response; simpl.
  rewrite wire_ensure_connection, Hr. simpl.
  unfold exchange. rewrite headers_or_default_ensure. reflexivity.
Qed.

Lemma api_request_of_request m t params st raw st' :
  _request depth m t (JsonDumps (params_or_empty params)) None st = (Ret raw, st') ->
  _api_request m t params st = (decode raw, st').
Proof.
  intro H. unfold _api_request, _api_request_with.
  rewrite (bind_ret_eq _ _ _ _ _ H). unfold decode.
  destruct (negb (Nat.eqb (String.length raw) 0)); [| reflexivity].
  unfold bind, lift, loads. destruct (json_loads raw); reflexivity.
Qed.

Lemma api_request_served m t params st body :
  served st body ->
  _api_request m t params st =
  (decode body, exchange m t (JsonDumps (params_or_empty params)) None st).
Proof.
  intro H. apply api_request_of_request. apply request_served. exact H.
Qed.

Lemma length_zero_empty (s : string) :
  Nat.eqb (String.length s) 0 = true <-> s = "".
Proof.
  destruct s; simpl; split; intro H; try reflexivity; discriminate.
Qed.

(* ================================================================= *)
(** ** The API envelope *)

(** C8 (as amended): for every non-empty response body that parses to a
    JSON object, [_api_request] raises [NessusAPIError] with the value of
    the ["error"] key when the object has that key and returns the object
    otherwise; a body that parses to [null] and an empty body both give
    [None]. *)
Theorem api_envelope_on_objects :
  forall m t params st raw st',
    _request depth m t (JsonDumps (params_or_empty params)) None st = (Ret raw, st') ->
    (raw = "" -> _api_request m t params st = (Ret JNull, st')) /\
    (raw <> "" -> json_loads raw = Some JNull ->
       _api_request m t params st = (Ret JNull, st')) /\
    (forall o, raw <> "" -> json_loads raw = Some (JObj o) ->
       (forall message, lookup "error" o = Some message ->
          _api_request m t params st = (Raise (NessusAPIError message), st')) /\
       (lookup "error" o = None ->
          _api_request m t params st = (Ret (JObj o), st'))).
Proof.
  intros m t params st raw st' H.
  rewrite (api_request_of_request _ _ _ _ _ _ H). unfold decode.
  split; [| split].
  - intros ->. reflexivity.
  - intros Hne Hl.
    destruct (Nat.eqb (String.length raw) 0) eqn:E.
    + apply length_zero_empty in E. contradiction.
    + simpl. unfold loads. rewrite Hl. reflexivity.
  - intros o Hne Hl.
    destruct (Nat.eqb (String.length raw) 0) eqn:E.
    + apply length_zero_empty in E. contradiction.
    + simpl. unfold loads. rewrite Hl. simpl. split.
      * intros message Hm. unfold unwrap, getitem; simpl. rewrite Hm. reflexivity.
      * intros Hm. unfold unwrap; simpl. rewrite Hm. reflexivity.
Qed.

(* ================================================================= *)
(** ** The session *)

Lemma log_extends_refl st : log_extends st st.
Proof. exists []. symmetry. apply app_nil_r. Qed.

Lemma log_extends_trans a b c :
  log_extends a b -> log_extends b c -> log_extends a c.
Proof.
  intros [l1 H1] [l2 H2]. exists (l1 ++ l2).
  rewrite H2, H1. symmetry. apply app_assoc.
Qed.

Lemma log_extends_session f st : log_extends st (upd_session f st).
Proof. exists []. symmetry. apply app_nil_r. Qed.

Lemma log_extends_properties f st : log_extends st (upd_properties f st).
Proof. exists []. symmetry. apply app_nil_r. Qed.

Lemma log_extends_registry f st : log_extends st (upd_registry f st).
Proof. exists []. symmetry. apply app_nil_r. Qed.

Lemma log_extends_log rq st : log_extends st (upd_wire (log_request rq) st).
Proof. exists [rq]. reflexivity. Qed.

Lemma log_extends_count st : log_extends st (upd_wire count_response st).
Proof. exists []. symmetry. apply app_nil_r. Qed.

Lemma request_log_extends d m t p h : keeps log_extends (_request d m t p h).
Proof.
  apply keeps__request.
  - apply log_extends_refl.
  - apply log_extends_trans.
  - apply log_extends_session.
  - apply log_extends_properties.
  - apply log_extends_log.
  - apply log_extends_count.
Qed.

Lemma login_log_extends d user :
  keeps log_extends (login_with (_request d) user).
Proof.
  apply keeps_login_with.
  - apply log_extends_refl.
  - apply log_extends_trans.
  - apply log_extends_session.
  - apply log_extends_properties.
  - apply request_log_extends.
Qed.

Lemma log_bind {A B} (m : M A) (k : A -> M B) :
  keeps log_extends m -> (forall a, keeps log_extends (k a)) ->
  keeps log_extends (bind m k).
Proof. apply keeps_bind, log_extends_trans. Qed.

Lemma read_response_log_extends : keeps log_extends read_response.
Proof. apply keeps_read_response, log_extends_count. Qed.

Lemma requests_read_response st :
  requests (wire (snd (read_response st))) = requests (wire st).
Proof.
  unfold read_response.
  destruct (on_getresponse (wire st) (n_getresponse (wire st))) as [status body | what];
    [destruct (Z.eqb status 200) |]; reflexivity.
Qed.

Lemma requests_then_read {A} (m : M A) st :
  requests (wire (snd (bind m (fun _ => read_response) st))) =
  requests (wire (snd (m st))).
Proof.
  unfold bind. destruct (m st) as [[a | e] st']; simpl.
  - apply requests_read_response.
  - reflexivity.
Qed.

(** Whatever happens next, [_request] first hands its own request to the
    transport, with the headers it was given or those of the session. *)
Lemma request_logs_first d m t p h st :
  exists rest,
    requests (wire (snd (_request d m t p h st))) =
    requests (wire st) ++ mkRequest m t p (headers_or_default h st) :: rest.
Proof.
  assert (Hlog : requests (wire (upd_wire (log_request
              (mkRequest m t p (headers_or_default h (ensure_connection st))))
              (ensure_connection st))) =
            requests (wire st) ++ [mkRequest m t p (headers_or_default h st)]).
  { simpl. rewrite wire_ensure_connection, headers_or_default_ensure. reflexivity. }
  assert (Hext : forall st',
            log_extends (reconnect (upd_wire (log_request
              (mkRequest m t p (headers_or_default h (ensure_connection st))))
              (ensure_connection st))) st' ->
            exists rest, requests (wire st') =
              requests (wire st) ++ mkRequest m t p (headers_or_default h st) :: rest).
  { intros st' [l Hl]. exists l. rewrite Hl. simpl in *.
    rewrite wire_ensure_connection, headers_or_default_ensure.
    rewrite <- app_assoc. reflexivity. }
  destruct d as [| d]; simpl; unfold connection_request;
    destruct (on_request _ _); simpl.
  1, 5: exists []; rewrite requests_read_response; exact Hlog.
  1, 2: exists []; exact Hlog.
  1, 4: destruct (negb _); exists []; exact Hlog.
  all: apply Hext;
    apply log_bind; [apply keeps_gets, log_extends_refl | intro user];
    apply log_bind; [apply login_log_extends | intros _];
    apply log_bind; [apply keeps_gets, log_extends_refl | intro hs];
    apply log_bind; [apply request_log_extends | intros _];
    apply read_response_log_extends.
Qed.

(** C3 (as amended): [logout] hands a [DELETE /session] request to the
    transport and, when it is served, returns [True] with the session
    headers (the [X-Cookie] token among them) and the stored user as they
    were; the next request goes out with these same headers. *)
Theorem logout_keeps_token :
  forall st body,
    served st body ->
    let st' := exchange "DELETE" "/session" EmptyList None st in
    logout st = (Ret true, st') /\
    requests (wire st') =
      requests (wire st) ++
      [mkRequest "DELETE" "/session" EmptyList (_headers (session st))] /\
    _headers (session st') = _headers (session st) /\
    _user (session st') = _user (session st) /\
    forall m t p, exists rest,
      requests (wire (snd (_request depth m t p None st'))) =
      requests (wire st') ++ mkRequest m t p (_headers (session st)) :: rest.
Proof.
  intros st body H st'. subst st'.
  split; [| split; [| split; [| split]]].
  - unfold logout. rewrite (bind_ret_eq _ _ _ _ _ (request_served _ _ _ _ _ _ _ H)).
    reflexivity.
  - apply requests_exchange.
  - apply headers_exchange.
  - apply user_exchange.
  - intros m t p.
    destruct (request_logs_first depth m t p None
                (exchange "DELETE" "/session" EmptyList None st)) as [rest Hr].
    exists rest. rewrite Hr. simpl. rewrite headers_ensure_connection. reflexivity.
Qed.

(* ================================================================= *)
(** ** Login and the version check *)

(** Unfolds the monad's operations at the head of the goal. *)
Ltac run := unfold bind, gets, modify, lift, ret, raise; cbv beta iota.

Lemma server_version_cached request st :
  version_supported st = true ->
  server_version_with request st = (Ret (_server_version (properties st)), st).
Proof.
  unfold version_supported, server_version_with. intro H.
  unfold bind, gets. cbv beta.
  destruct (_server_version (properties st)) eqn:E; simpl in *;
    try discriminate; rewrite E; reflexivity.
Qed.

Lemma decode_object body o :
  body <> "" -> json_loads body = Some (JObj o) -> lookup "error" o = None ->
  decode body = Ret (JObj o).
Proof.
  intros Hne Hl He. unfold decode.
  destruct (Nat.eqb (String.length body) 0) eqn:E.
  - apply length_zero_empty in E. contradiction.
  - simpl. unfold loads. rewrite Hl. simpl. unfold unwrap. simpl.
    rewrite He. reflexivity.
Qed.

Lemma api_request_with_served d m t params st body :
  served st body ->
  _api_request_with (_request d) m t params st =
  (decode body, exchange m t (JsonDumps (params_or_empty params)) None st).
Proof.
  intro H. unfold _api_request_with.
  rewrite (bind_ret_eq _ _ _ _ _ (request_served d _ _ _ _ _ _ H)).
  unfold decode.
  destruct (negb (Nat.eqb (String.length body) 0)); [| reflexivity].
  unfold bind, lift, loads. destruct (json_loads body); reflexivity.
Qed.

Lemma login_served d u st body token :
  version_supported st = true ->
  served st body -> grants body token ->
  login_with (_request d) (Some u) st =
  (Ret true, logged_in u token (exchange "POST" "/session" (credentials u) None st)).
Proof.
  intros Hv Hs [Hne [o [Hl [He [Hst Htok]]]]].
  unfold login_with.
  rewrite (bind_ret_eq _ _ _ _ _ (server_version_cached _ _ Hv)).
  unfold version_supported in Hv.
  destruct (first_item (_server_version (properties st))) as [major | e] eqn:Hf;
    [| discriminate].
  run. rewrite Hv. cbn [negb].
  rewrite (api_request_with_served d _ _ _ _ _ Hs).
  rewrite (decode_object _ _ Hne Hl He). run.
  cbn [negb is_None py_in getitem]. rewrite Hst. run. rewrite Htok.
  reflexivity.
Qed.

Lemma server_version_probe_6 d st page :
  _server_version (properties st) = JNull ->
  served st page -> contains "404 File not found" page = false ->
  server_version_with (_request d) st =
  (Ret (JStr "6.x"),
   upd_properties (set_server_version (JStr "6.x"))
     (exchange "GET" "/nessus6.html" (Text "") None st)).
Proof.
  intros Hnone Hs H404. unfold server_version_with. run.
  rewrite Hnone. cbn [is_None].
  rewrite (request_served d _ _ _ _ _ _ Hs). run.
  rewrite H404. reflexivity.
Qed.

Lemma server_version_probe_5 d st page page5 :
  _server_version (properties st) = JNull ->
  served st page -> contains "404 File not found" page = true ->
  served (exchange "GET" "/nessus6.html" (Text "") None st) page5 ->
  server_version_with (_request d) st =
  (Ret (JStr "5.x"),
   upd_properties (set_server_version (JStr "5.x"))
     (exchange "GET" "/html5.html" (Text "") None
        (exchange "GET" "/nessus6.html" (Text "") None st))).
Proof.
  intros Hnone Hs H404 Hs5. unfold server_version_with. run.
  rewrite Hnone. cbn [is_None].
  rewrite (request_served d _ _ _ _ _ _ Hs). run.
  rewrite H404. cbn [negb].
  rewrite (request_served d _ _ _ _ _ _ Hs5). reflexivity.
Qed.

Lemma log_prefix_bind {A B} (m : M A) (k : A -> M B) st l :
  (forall a, keeps log_extends (k a)) ->
  (exists rest, requests (wire (snd (m st))) = l ++ rest) ->
  exists rest, requests (wire (snd (bind m k st))) = l ++ rest.
Proof.
  intros Hk [rest Hr]. unfold bind.
  destruct (m st) as [[a | e] st'] eqn:E; simpl in *.
  - destruct (Hk a st') as [l' Hl]. exists (rest ++ l').
    rewrite Hl, Hr. symmetry. apply app_assoc.
  - exists rest. exact Hr.
Qed.

Lemma login_accepted_posts u st version st' major :
  server_version st = (Ret version, st') ->
  first_item version = Ret major ->
  py_eq major (JStr "6") = true ->
  exists rest,
    requests (wire (snd (login (Some u) st))) =
    requests (wire st') ++
    mkRequest "POST" "/session" (credentials u) (_headers (session st')) :: rest.
Proof.
  intros Hv Hf Heq. unfold login, login_with. unfold server_version in Hv.
  rewrite (bind_ret_eq _ _ _ _ _ Hv).
  unfold bind at 1. unfold lift at 1. rewrite Hf, Heq. cbn [negb].
  match goal with
  | |- exists rest, ?lhs = _ =>
      enough (H : exists rest, lhs =
                (requests (wire st') ++
                 [mkRequest "POST" "/session" (credentials u) (_headers (session st'))])
                ++ rest)
        by (destruct H as [rest H]; exists rest; rewrite H;
            rewrite <- app_assoc; reflexivity)
  end.
  apply log_prefix_bind.
  { intro response. apply keeps_if; [| apply keeps_ret, log_extends_refl].
    apply log_bind; [apply keeps_lift, log_extends_refl | intro has].
    apply keeps_if.
    - apply log_bind; [apply keeps_lift, log_extends_refl | intro].
      apply keeps_raise, log_extends_refl.
    - repeat (apply log_bind;
              [first [apply keeps_lift, log_extends_refl
                     | apply keeps_modify; intro; apply log_extends_session] | intro]).
      apply keeps_ret, log_extends_refl. }
  unfold _api_request_with. apply log_prefix_bind.
  { intro raw. apply keeps_if; [| apply keeps_ret, log_extends_refl].
    apply log_bind; [apply keeps_lift, log_extends_refl | intro].
    apply keeps_lift, log_extends_refl. }
  match goal with
  | |- exists rest, requests (wire (snd (_request _ _ _ ?p None ?s))) = _ =>
      destruct (request_logs_first depth "POST" "/session" p None s) as [rest Hr]
  end.
  exists rest. rewrite Hr. cbn [headers_or_default].
  rewrite <- app_assoc. reflexivity.
Qed.

Lemma probe_refused d st status body :
  _server_version (properties st) = JNull ->
  on_request (wire st) (length (requests (wire st))) = Sent ->
  on_getresponse (wire st) (n_getresponse (wire st)) = Response status body ->
  status <> 200%Z ->
  server_version_with (_request d) st =
  (Raise (HTTPStatusError body), exchange "GET" "/nessus6.html" (Text "") None st).
Proof.
  intros Hnone Hs Hr Hne. unfold server_version_with. run.
  rewrite Hnone. cbn [is_None].
  rewrite (request_accepted d _ _ _ _ _ Hs).
  unfold read_response; simpl. rewrite wire_ensure_connection, Hr.
  destruct (Z.eqb status 200) eqn:E.
  - apply Z.eqb_eq in E. contradiction.
  - unfold exchange. rewrite headers_or_default_ensure. reflexivity.
Qed.

(** C9 (as amended): [login] reads [server_version] first and posts the
    credentials only when the first item of the version is ["6"]; the
    [POST /session] is then the first request after the version read, so
    that a version such as ["60.1"] passes too.  In every other case
    [login] raises in the state the version read left, with no request of
    its own: the unsupported-version exception when the first item is
    another one, the error of the subscript ([IndexError] on an empty
    string) when there is none, and the error of the version read when
    that raises, as it does with the body of the response when the probe
    is answered with a status other than 200.  On a server not probed yet
    whose [/nessus6.html] page reads 404, the two probe requests are all
    that goes out; on one whose page is there, the probe goes out before
    the credentials. *)
Theorem login_checks_version_first :
  (forall user st version st' major,
     server_version st = (Ret version, st') ->
     first_item version = Ret major ->
     py_eq major (JStr "6") = false ->
     login user st = (Raise UnsupportedVersion, st')) /\
  (forall user st e st',
     server_version st = (Raise e, st') ->
     login user st = (Raise e, st')) /\
  (forall user st page page5,
     _server_version (properties st) = JNull ->
     served st page -> contains "404 File not found" page = true ->
     served (exchange "GET" "/nessus6.html" (Text "") None st) page5 ->
     exists st',
       login user st = (Raise UnsupportedVersion, st') /\
       requests (wire st') =
         requests (wire st) ++
         [mkRequest "GET" "/nessus6.html" (Text "") (_headers (session st));
          mkRequest "GET" "/html5.html" (Text "") (_headers (session st))]) /\
  (forall u st page,
     _server_version (properties st) = JNull ->
     served st page -> contains "404 File not found" page = false ->
     exists rest,
       requests (wire (snd (login (Some u) st))) =
         requests (wire st) ++
         [mkRequest "GET" "/nessus6.html" (Text "") (_headers (session st));
          mkRequest "POST" "/session" (credentials u) (_headers (session st))]
         ++ rest) /\
  (forall user st version st' e,
     server_version st = (Ret version, st') ->
     first_item version = Raise e ->
     login user st = (Raise e, st')) /\
  (forall u st version st' major,
     server_version st = (Ret version, st') ->
     first_item version = Ret major ->
     py_eq major (JStr "6") = true ->
     exists rest,
       requests (wire (snd (login (Some u) st))) =
       requests (wire st') ++
       mkRequest "POST" "/session" (credentials u) (_headers (session st')) :: rest) /\
  (forall user st status body,
     _server_version (properties st) = JNull ->
     on_request (wire st) (length (requests (wire st))) = Sent ->
     on_getresponse (wire st) (n_getresponse (wire st)) = Response status body ->
     status <> 200%Z ->
     login user st =
     (Raise (HTTPStatusError body),
      exchange "GET" "/nessus6.html" (Text "") None st)).
Proof.
  split; [| split; [| split; [| split; [| split; [| split]]]]].
  - intros user st version st' major Hv Hf Hne.
    unfold login, login_with. unfold server_version in Hv.
    rewrite (bind_ret_eq _ _ _ _ _ Hv).
    run. rewrite Hf. run. rewrite Hne. reflexivity.
  - intros user st e st' Hv.
    unfold login, login_with. unfold server_version in Hv.
    apply (bind_raise_eq _ _ _ _ _ Hv).
  - intros user st page page5 Hnone Hs H404 Hs5.
    eexists. split.
    + unfold login, login_with.
      rewrite (bind_ret_eq _ _ _ _ _
                 (server_version_probe_5 depth _ _ _ Hnone Hs H404 Hs5)).
      reflexivity.
    + cbn [upd_properties wire]. rewrite !requests_exchange.
      cbn [headers_or_default]. rewrite headers_exchange.
      rewrite <- app_assoc. reflexivity.
  - intros u st page Hnone Hs H404.
    destruct (login_accepted_posts u st (JStr "6.x") _ (JStr "6")
                (server_version_probe_6 depth _ _ Hnone Hs H404) eq_refl eq_refl)
      as [rest Hr].
    exists rest. rewrite Hr.
    cbn [upd_properties wire session]. rewrite requests_exchange, headers_exchange.
    cbn [headers_or_default]. rewrite <- app_assoc. reflexivity.
  - intros user st version st' e Hv Hf.
    unfold login, login_with. unfold server_version in Hv.
    rewrite (bind_ret_eq _ _ _ _ _ Hv).
    run. rewrite Hf. reflexivity.
  - intros u st version st' major. apply login_accepted_posts.
  - intros user st status body Hnone Hs Hr Hne.
    unfold login, login_with.
    apply (bind_raise_eq _ _ _ _ _ (probe_refused depth _ _ _ Hnone Hs Hr Hne)).
Qed.

(* ================================================================= *)
(** ** Recovery from a stale connection *)

Lemma request_stale d m t p h st :
  stale (on_request (wire st) (length (requests (wire st)))) = true ->
  _request (S d) m t p h st =
  (user <- gets (fun st => _user (session st)) ;;
   login_with (_request d) user ;;
   hs' <- gets (fun st => _headers (session st)) ;;
   _request d m t p (Some hs') ;;
   read_response)
    (reconnect (upd_wire (log_request (mkRequest m t p (headers_or_default h st)))
                  (ensure_connection st))).
Proof.
  intro H. simpl. unfold connection_request.
  rewrite wire_ensure_connection, headers_or_default_ensure.
  destruct (on_request (wire st) (length (requests (wire st))));
    try discriminate; reflexivity.
Qed.

Lemma request_stale_exhausted m t p h st :
  stale (on_request (wire st) (length (requests (wire st)))) = true ->
  _request 0 m t p h st =
  (Raise RecursionLimit,
   reconnect (upd_wire (log_request (mkRequest m t p (headers_or_default h st)))
                (ensure_connection st))).
Proof.
  intro H. simpl. unfold connection_request.
  rewrite wire_ensure_connection, headers_or_default_ensure.
  destruct (on_request (wire st) (length (requests (wire st))));
    try discriminate; reflexivity.
Qed.

(** C2 (as amended): every stale-connection condition on a request, not
    only the first, makes [_request] replace the connection, log in again
    with the stored user and hand the same request to the transport again.
    When the transport refuses [n] attempts in a row as stale and serves
    the logins in between, the request goes out [n + 1] times, with the
    same method, target and body, and [POST /session] with the stored
    user's credentials [n] times, whatever [n] is, as long as the
    recursion depth allows [n] nested recoveries. *)
Theorem every_stale_condition_is_retried :
  forall n d m t p h st u,
    n <= d ->
    _user (session st) = Some u ->
    version_supported st = true ->
    stale_run n (on_request (wire st)) (on_getresponse (wire st))
      (length (requests (wire st))) (n_getresponse (wire st)) ->
    map rq_sent (requests (wire (snd (_request d m t p h st)))) =
    map rq_sent (requests (wire st)) ++
    attempts n (m, t, p) ("POST", "/session", credentials u).
Proof.
  induction n as [| n IH]; intros d m t p h st u Hd Hu Hv Hrun.
  - simpl in Hrun. rewrite (request_accepted d m t p h st Hrun).
    rewrite requests_read_response. simpl.
    rewrite wire_ensure_connection, map_app. reflexivity.
  - destruct d as [| d]; [lia |].
    destruct Hrun as [Hstale [Hsent [[body [token [Hrecv Hgrant]]] Hrun]]].
    rewrite (request_stale d m t p h st Hstale).
    set (st3 := reconnect (upd_wire (log_request
                  (mkRequest m t p (headers_or_default h st)))
                  (ensure_connection st))).
    assert (Hreq3 : requests (wire st3) =
                    requests (wire st) ++ [mkRequest m t p (headers_or_default h st)]).
    { subst st3. simpl. rewrite wire_ensure_connection. reflexivity. }
    assert (Hserved : served st3 body).
    { split.
      - rewrite Hreq3, length_app. simpl.
        replace (length (requests (wire st)) + 1) with (S (length (requests (wire st))))
          by lia.
        subst st3. simpl. rewrite wire_ensure_connection. exact Hsent.
      - subst st3. simpl. rewrite wire_ensure_connection. exact Hrecv. }
    assert (Hv3 : version_supported st3 = true).
    { unfold version_supported in *. subst st3. simpl.
      rewrite properties_ensure_connection. exact Hv. }
    assert (Hu3 : _user (session st3) = Some u).
    { subst st3. simpl. rewrite user_ensure_connection. exact Hu. }
    unfold bind at 1. unfold gets at 1. rewrite Hu3.
    unfold bind at 1. rewrite (login_served d u st3 body token Hv3 Hserved Hgrant).
    unfold bind at 1. unfold gets at 1.
    rewrite requests_then_read.
    set (st4 := logged_in u token
                  (exchange "POST" "/session" (credentials u) None st3)).
    assert (Hreq4 : requests (wire st4) =
                    requests (wire st) ++
                    [mkRequest m t p (headers_or_default h st);
                     mkRequest "POST" "/session" (credentials u)
                       (_headers (session st3))]).
    { subst st4. unfold logged_in. cbn [upd_session wire].
      rewrite requests_exchange, Hreq3. cbn [headers_or_default].
      rewrite <- app_assoc. reflexivity. }
    rewrite (IH d m t p (Some (_headers (session st4))) st4 (set_token token u)).
    + rewrite Hreq4, map_app, <- app_assoc. reflexivity.
    + lia.
    + reflexivity.
    + unfold version_supported in *. subst st4. unfold logged_in.
      cbn [upd_session properties]. rewrite properties_exchange. exact Hv3.
    + rewrite Hreq4, length_app. simpl.
      replace (length (requests (wire st)) + 2)
        with (S (S (length (requests (wire st))))) by lia.
      rewrite wire_ensure_connection. exact Hrun.
Qed.

(* ================================================================= *)
(** ** What the loaders store *)

Lemma users_loaded st us :
  _users (registry st) = Some us -> users st = (Ret (Some us), st).
Proof.
  intro H. unfold users. run. rewrite H. run. rewrite H. reflexivity.
Qed.

Lemma for_fold_owner s us : forall owner st,
  for_fold us (fun owner user =>
      owner_id <- lift (getitem s "owner_id") ;;
      ret (if py_eq (user_id user) owner_id then Some user else owner))
    owner st =
  (pick_owner us s owner, st).
Proof.
  induction us as [| user us IH]; intros owner st; simpl.
  - reflexivity.
  - run. destruct (getitem s "owner_id") as [oid | e]; simpl.
    + apply IH.
    + reflexivity.
Qed.

Lemma resolve_owner_loaded s st us :
  _users (registry st) = Some us ->
  resolve_owner s st = (pick_owner us s None, st).
Proof.
  intro H. unfold resolve_owner.
  rewrite (bind_ret_eq _ _ _ _ _ (users_loaded _ _ H)).
  apply for_fold_owner.
Qed.

Lemma hydrate_scan_loaded s st us :
  _users (registry st) = Some us ->
  hydrate_scan s st = (hydrate_scan_with us s, st).
Proof.
  intro H. unfold hydrate_scan, hydrate_scan_with.
  repeat (unfold bind at 1; unfold lift at 1;
          match goal with
          | |- context [getitem s ?k] =>
              destruct (getitem s k); simpl obind; [| reflexivity]
          end).
  unfold bind. rewrite (resolve_owner_loaded _ _ _ H).
  destruct (pick_owner us s None); reflexivity.
Qed.

(** Record extensionality for the registry part of the state. *)
Lemma upd_registry_same st r :
  registry st = r -> upd_registry (fun _ => r) st = st.
Proof. intros <-. destruct st; reflexivity. Qed.

Lemma set_scans_same r v : _scans r = v -> set_scans v r = r.
Proof. intros <-. destruct r; reflexivity. Qed.

Lemma set_scanners_same r v : _scanners r = v -> set_scanners v r = r.
Proof. intros <-. destruct r; reflexivity. Qed.

Lemma scans_loop us ss : forall scans acc st,
  _users (registry st) = Some us ->
  _scans (registry st) = Some acc ->
  map_outcome (hydrate_scan_with us) ss = Ret scans ->
  for_each ss (fun s => scan <- hydrate_scan s ;; append_to _scans set_scans scan) st =
  (Ret tt, upd_registry (set_scans (Some (acc ++ scans))) st).
Proof.
  induction ss as [| s ss IH]; intros scans acc st Hu Hacc Hmap; simpl in *.
  - inversion Hmap; subst. rewrite app_nil_r.
    unfold ret. f_equal. destruct st as [se pr rg w]; simpl in *.
    unfold upd_registry; simpl. rewrite (set_scans_same _ _ Hacc). reflexivity.
  - destruct (hydrate_scan_with us s) as [scan | e] eqn:Hs; simpl in Hmap;
      [| discriminate].
    destruct (map_outcome (hydrate_scan_with us) ss) as [scans' | e] eqn:Hss;
      simpl in Hmap; [| discriminate].
    inversion Hmap; subst.
    unfold bind at 1. unfold bind at 1.
    rewrite (hydrate_scan_loaded _ _ _ Hu), Hs.
    unfold append_to. rewrite Hacc.
    rewrite (IH scans' (acc ++ [scan])); try reflexivity; try assumption.
    rewrite <- app_assoc. reflexivity.
Qed.

Lemma scanners_loop ss : forall scanners st,
  map_outcome hydrate_scanner ss = Ret scanners ->
  for_each ss (fun s =>
      scanner <- lift (hydrate_scanner s) ;;
      modify (upd_registry (fun r => set_scanners (_scanners r ++ [scanner]) r))) st =
  (Ret tt, upd_registry (fun r => set_scanners (_scanners r ++ scanners) r) st).
Proof.
  induction ss as [| s ss IH]; intros scanners st Hmap; simpl in *.
  - inversion Hmap; subst.
    unfold ret. f_equal. destruct st as [se pr rg w]; simpl.
    unfold upd_registry; simpl. rewrite app_nil_r.
    rewrite set_scanners_same; reflexivity.
  - destruct (hydrate_scanner s) as [scanner | e] eqn:Hs; simpl in Hmap;
      [| discriminate].
    destruct (map_outcome hydrate_scanner ss) as [scanners' | e] eqn:Hss;
      simpl in Hmap; [| discriminate].
    inversion Hmap; subst.
    run. rewrite (IH scanners' _ eq_refl).
    unfold upd_registry; simpl. rewrite <- app_assoc. reflexivity.
Qed.

Lemma api_request_fetched m t params st body response :
  served st body -> decode body = Ret response ->
  _api_request m t params st =
  (Ret response, exchange m t (JsonDumps (params_or_empty params)) None st).
Proof.
  intros Hs Hd. rewrite (api_request_served _ _ _ _ _ Hs), Hd. reflexivity.
Qed.

(** A served [load_scanners] appends the hydrated records to whatever the
    collection held before. *)
Lemma load_scanners_appends st body response ss scanners :
  served st body -> decode body = Ret response ->
  py_in "scanners" response = Ret true ->
  records "scanners" response = Ret ss ->
  map_outcome hydrate_scanner ss = Ret scanners ->
  load_scanners st =
  (Ret true,
   upd_registry (fun r => set_scanners (_scanners r ++ scanners) r)
     (exchange "GET" "/scanners" (JsonDumps (JObj [])) None st)).
Proof.
  intros Hs Hd Hin Hrec Hmap. unfold load_scanners.
  rewrite (bind_ret_eq _ _ _ _ _ (api_request_fetched _ _ _ _ _ _ Hs Hd)).
  run. rewrite Hin. run. rewrite Hrec. run.
  rewrite (scanners_loop _ _ _ Hmap). reflexivity.
Qed.

(** A served [load_scans] stores the hydrated records of this response and
    nothing else. *)
Lemma load_scans_replaces st body response ss us scans :
  served st body -> decode body = Ret response ->
  present "scans" response = Ret true ->
  records "scans" response = Ret ss ->
  _users (registry st) = Some us ->
  map_outcome (hydrate_scan_with us) ss = Ret scans ->
  load_scans st =
  (Ret true,
   upd_registry (set_scans (Some scans))
     (exchange "GET" "/scans" (JsonDumps (JObj [])) None st)).
Proof.
  intros Hs Hd Hin Hrec Hu Hmap. unfold load_scans.
  rewrite (bind_ret_eq _ _ _ _ _ (api_request_fetched _ _ _ _ _ _ Hs Hd)).
  run. rewrite Hin. run. rewrite Hrec. run.
  rewrite (scans_loop us ss scans []); try assumption; try reflexivity.
  cbn [upd_registry registry set_scans _users].
  rewrite registry_exchange. exact Hu.
Qed.

(* ================================================================= *)
(** ** Cross-references *)

Lemma pick_owner_last_match s oid us : forall owner,
  getitem s "owner_id" = Ret oid ->
  pick_owner us s owner = Ret (last_match oid us owner).
Proof.
  induction us as [| u us IH]; intros owner H; simpl.
  - reflexivity.
  - rewrite H. simpl. apply IH. exact H.
Qed.

Lemma last_match_sound oid us : forall owner u,
  last_match oid us owner = Some u ->
  (In u us /\ py_eq (user_id u) oid = true) \/ owner = Some u.
Proof.
  induction us as [| x us IH]; intros owner u H; simpl in *.
  - right. exact H.
  - destruct (IH _ _ H) as [[Hin Heq] | Ho].
    + left. split; [right; exact Hin | exact Heq].
    + destruct (py_eq (user_id x) oid) eqn:E.
      * inversion Ho; subst. left. split; [left; reflexivity | exact E].
      * right. exact Ho.
Qed.

Lemma last_match_keeps oid us : forall owner,
  owner <> None -> last_match oid us owner <> None.
Proof.
  induction us as [| x us IH]; intros owner H; simpl.
  - exact H.
  - apply IH. destruct (py_eq (user_id x) oid); [discriminate | exact H].
Qed.

Lemma last_match_complete oid us : forall owner,
  (exists u, In u us /\ py_eq (user_id u) oid = true) ->
  last_match oid us owner <> None.
Proof.
  induction us as [| x us IH]; intros owner [u [Hin Heq]]; simpl in *.
  - contradiction.
  - destruct Hin as [-> | Hin].
    + rewrite Heq. apply last_match_keeps. discriminate.
    + apply IH. exists u. split; assumption.
Qed.

Lemma hydrate_scan_with_total us s owner :
  record_has scan_keys s ->
  pick_owner us s None = Ret owner ->
  exists scan, hydrate_scan_with us s = Ret scan /\ scan_owner scan = owner.
Proof.
  intros Hk Ho. unfold record_has, scan_keys in Hk.
  repeat match goal with
         | H : Forall _ (_ :: _) |- _ => inversion H; subst; clear H
         end.
  repeat match goal with
         | H : exists v, getitem s _ = Ret v |- _ => destruct H
         end.
  unfold hydrate_scan_with.
  repeat match goal with
         | H : getitem s _ = Ret _ |- _ => rewrite H; clear H
         end.
  simpl. rewrite Ho. simpl. eexists. split; reflexivity.
Qed.

Lemma users_result st r st' :
  users st = (Ret r, st') -> _users (registry st') = r.
Proof.
  unfold users. run. destruct (_users (registry st)) as [us |] eqn:E.
  - intro H. inversion H; subst. reflexivity.
  - destruct (load_users st) as [[b | e] st1]; intro H; inversion H; subst.
    reflexivity.
Qed.

Lemma resolve_owner_result s st owner st' :
  resolve_owner s st = (Ret owner, st') ->
  exists us, _users (registry st') = Some us /\ pick_owner us s None = Ret owner.
Proof.
  unfold resolve_owner. unfold bind at 1.
  destruct (users st) as [[r | e] st1] eqn:E; [| discriminate].
  apply users_result in E. destruct r as [us |]; [| discriminate].
  rewrite for_fold_owner. intro H. inversion H; subst.
  exists us. split; [exact E | reflexivity].
Qed.

Lemma pick_owner_sound s us : forall owner u,
  pick_owner us s owner = Ret (Some u) ->
  (exists oid, getitem s "owner_id" = Ret oid /\
               In u us /\ py_eq (user_id u) oid = true) \/
  owner = Some u.
Proof.
  induction us as [| x us IH]; intros owner u H; simpl in *.
  - right. inversion H. reflexivity.
  - destruct (getitem s "owner_id") as [oid | e] eqn:E; simpl in H;
      [| discriminate].
    destruct (IH _ _ H) as [[oid' [Hoid [Hin Heq]]] | Ho].
    + left. exists oid'. repeat split; [exact Hoid | right; exact Hin | exact Heq].
    + destruct (py_eq (user_id x) oid) eqn:Eq.
      * inversion Ho; subst. left. exists oid.
        repeat split; [left; reflexivity | exact Eq].
      * right. exact Ho.
Qed.

(* ================================================================= *)
(** ** A failed fetch *)

Lemma api_request_same_registry m t p : keeps same_registry (_api_request m t p).
Proof.
  apply keeps__api_request; unfold same_registry; intros; try reflexivity.
  etransitivity; eassumption.
Qed.

Lemma agents_only_refl st : agents_only st st.
Proof. exists (_agents (registry st)). destruct (registry st); reflexivity. Qed.

Lemma agents_only_trans a b c : agents_only a b -> agents_only b c -> agents_only a c.
Proof.
  intros [x Hx] [y Hy]. exists y. rewrite Hy, Hx. reflexivity.
Qed.

Lemma agents_only_frame st st' :
  registry st' = registry st -> agents_only st st'.
Proof. intro H. exists (_agents (registry st)). rewrite H. destruct (registry st); reflexivity. Qed.

Lemma agentgroups_only_refl st : agentgroups_only st st.
Proof. exists (_agentgroups (registry st)). destruct (registry st); reflexivity. Qed.

Lemma agentgroups_only_trans a b c :
  agentgroups_only a b -> agentgroups_only b c -> agentgroups_only a c.
Proof.
  intros [x Hx] [y Hy]. exists y. rewrite Hy, Hx. reflexivity.
Qed.

Lemma agentgroups_only_frame st st' :
  registry st' = registry st -> agentgroups_only st st'.
Proof.
  intro H. exists (_agentgroups (registry st)). rewrite H.
  destruct (registry st); reflexivity.
Qed.

Lemma load_agents_agents_only : keeps agents_only load_agents.
Proof.
  assert (Hb : forall A B (m : M A) (k : A -> M B),
             keeps agents_only m -> (forall a, keeps agents_only (k a)) ->
             keeps agents_only (bind m k)).
  { intros. apply keeps_bind; [apply agents_only_trans | |]; assumption. }
  unfold load_agents.
  apply Hb; [apply keeps_gets, agents_only_refl | intro scanners].
  apply Hb; [| intros _; apply keeps_ret, agents_only_refl].
  apply keeps_for_each; [apply agents_only_refl | apply agents_only_trans |].
  intro scanner.
  apply Hb; [apply keeps_lift, agents_only_refl | intro id].
  apply Hb.
  { apply keeps__api_request;
      [apply agents_only_refl | apply agents_only_trans | | | |];
      intros; apply agents_only_frame; reflexivity. }
  intro response.
  apply Hb; [apply keeps_lift, agents_only_refl | intro has].
  apply keeps_if; [| apply keeps_ret, agents_only_refl].
  apply Hb; [apply keeps_lift, agents_only_refl | intro agents].
  apply keeps_for_each; [apply agents_only_refl | apply agents_only_trans |].
  intro a.
  apply Hb; [apply keeps_lift, agents_only_refl | intro agent].
  intro st. unfold append_to.
  destruct (_agents (registry st)) as [l |]; simpl.
  - eexists. reflexivity.
  - apply agents_only_refl.
Qed.

Lemma load_agentgroups_agentgroups_only : keeps agentgroups_only load_agentgroups.
Proof.
  assert (Hb : forall A B (m : M A) (k : A -> M B),
             keeps agentgroups_only m -> (forall a, keeps agentgroups_only (k a)) ->
             keeps agentgroups_only (bind m k)).
  { intros. apply keeps_bind; [apply agentgroups_only_trans | |]; assumption. }
  unfold load_agentgroups.
  apply Hb; [apply keeps_gets, agentgroups_only_refl | intro scanners].
  apply Hb; [| intros _; apply keeps_ret, agentgroups_only_refl].
  apply keeps_for_each; [apply agentgroups_only_refl | apply agentgroups_only_trans |].
  intro scanner.
  apply Hb; [apply keeps_lift, agentgroups_only_refl | intro id].
  apply Hb.
  { apply keeps__api_request;
      [apply agentgroups_only_refl | apply agentgroups_only_trans | | | |];
      intros; apply agentgroups_only_frame; reflexivity. }
  intro response.
  apply Hb; [apply keeps_lift, agentgroups_only_refl | intro has].
  apply keeps_if; [| apply keeps_ret, agentgroups_only_refl].
  apply Hb; [apply keeps_lift, agentgroups_only_refl | intro groups].
  apply keeps_for_each; [apply agentgroups_only_refl | apply agentgroups_only_trans |].
  intro g.
  apply Hb; [apply keeps_lift, agentgroups_only_refl | intro group].
  intro st. unfold append_to.
  destruct (_agentgroups (registry st)) as [l |]; simpl.
  - eexists. reflexivity.
  - apply agentgroups_only_refl.
Qed.

(* ================================================================= *)
(** ** The lazy getters *)

(** Closes goals [keeps log_extends m] for code built from the monad's
    operations, the request layer and registry updates. *)
Ltac log_auto :=
  repeat first
    [ apply keeps__api_request;
      [apply log_extends_refl | apply log_extends_trans | apply log_extends_session
      | apply log_extends_properties | apply log_extends_log | apply log_extends_count]
    | apply log_bind; [| intro]
    | apply keeps_if
    | apply keeps_ret, log_extends_refl
    | apply keeps_raise, log_extends_refl
    | apply keeps_lift, log_extends_refl
    | apply keeps_gets, log_extends_refl
    | apply keeps_modify; intro; apply log_extends_registry
    | apply keeps_modify; intro; apply log_extends_properties
    | apply keeps_modify; intro; apply log_extends_session
    | apply keeps_for_each; [apply log_extends_refl | apply log_extends_trans | intro]
    | apply keeps_for_fold; [apply log_extends_refl | apply log_extends_trans | intros] ].

Lemma api_request_logs_first m t params st :
  exists rest,
    requests (wire (snd (_api_request m t params st))) =
    (requests (wire st) ++
     [mkRequest m t (JsonDumps (params_or_empty params)) (_headers (session st))])
    ++ rest.
Proof.
  unfold _api_request, _api_request_with. apply log_prefix_bind.
  - intro raw. log_auto.
  - destruct (request_logs_first depth m t (JsonDumps (params_or_empty params))
                None st) as [rest Hr].
    exists rest. rewrite Hr. simpl. rewrite <- app_assoc. reflexivity.
Qed.

Lemma load_scanners_fetches st :
  exists rest,
    requests (wire (snd (load_scanners st))) =
    (requests (wire st) ++
     [mkRequest "GET" "/scanners" (JsonDumps (JObj [])) (_headers (session st))])
    ++ rest.
Proof.
  unfold load_scanners. apply log_prefix_bind.
  - intro response. log_auto.
  - apply api_request_logs_first.
Qed.

Lemma load_templates_fetches st :
  exists rest,
    requests (wire (snd (load_templates st))) =
    (requests (wire st) ++
     [mkRequest "GET" "/editor/scan/templates" (JsonDumps (JObj []))
        (_headers (session st))])
    ++ rest.
Proof.
  unfold load_templates. apply log_prefix_bind.
  - intro response. log_auto.
  - apply api_request_logs_first.
Qed.

Lemma load_folders_fetches st :
  exists rest,
    requests (wire (snd (load_folders st))) =
    (requests (wire st) ++
     [mkRequest "GET" "/folders" (JsonDumps (JObj [])) (_headers (session st))])
    ++ rest.
Proof.
  unfold load_folders. apply log_prefix_bind.
  - intro response. log_auto.
  - apply api_request_logs_first.
Qed.

Lemma getter_fetches (loadx : M bool) (l : list Request) st :
  (exists rest, requests (wire (snd (loadx st))) = l ++ rest) ->
  forall A (f : Nessus -> A),
  exists rest,
    requests (wire (snd (((loadx ;; ret tt) ;; gets f) st))) = l ++ rest.
Proof.
  intros H A f. apply log_prefix_bind; [intro; log_auto |].
  apply log_prefix_bind; [intro; log_auto | exact H].
Qed.

(** C4 (as amended): the getters of the scanners, templates and folders
    collections test the stored list for emptiness.  A read access fetches
    the collection exactly when the stored list is empty: a non-empty list
    is returned as it is, with no request and no other change, and an
    empty one, whether never loaded or loaded from an empty response,
    makes the getter hand the collection's [GET] request to the
    transport. *)
Theorem getters_fetch_when_empty :
  (forall st, _scanners (registry st) <> [] ->
     scanners st = (Ret (_scanners (registry st)), st)) /\
  (forall st, _scanners (registry st) = [] ->
     exists rest,
       requests (wire (snd (scanners st))) =
       (requests (wire st) ++
        [mkRequest "GET" "/scanners" (JsonDumps (JObj [])) (_headers (session st))])
       ++ rest) /\
  (forall st, _templates (registry st) <> [] ->
     templates st = (Ret (_templates (registry st)), st)) /\
  (forall st, _templates (registry st) = [] ->
     exists rest,
       requests (wire (snd (templates st))) =
       (requests (wire st) ++
        [mkRequest "GET" "/editor/scan/templates" (JsonDumps (JObj []))
           (_headers (session st))])
       ++ rest) /\
  (forall st, _folders (registry st) <> [] ->
     folders st = (Ret (_folders (registry st)), st)) /\
  (forall st, _folders (registry st) = [] ->
     exists rest,
       requests (wire (snd (folders st))) =
       (requests (wire st) ++
        [mkRequest "GET" "/folders" (JsonDumps (JObj [])) (_headers (session st))])
       ++ rest).
Proof.
  repeat split.
  - intros st H. unfold scanners. run.
    destruct (_scanners (registry st)) eqn:E; [contradiction |].
    simpl. rewrite E. reflexivity.
  - intros st H. unfold scanners.
    unfold bind at 1. unfold gets at 1. rewrite H. simpl Nat.eqb. cbv iota.
    apply getter_fetches, load_scanners_fetches.
  - intros st H. unfold templates. run.
    destruct (_templates (registry st)) eqn:E; [contradiction |].
    simpl. rewrite E. reflexivity.
  - intros st H. unfold templates.
    unfold bind at 1. unfold gets at 1. rewrite H. simpl Nat.eqb. cbv iota.
    apply getter_fetches, load_templates_fetches.
  - intros st H. unfold folders. run.
    destruct (_folders (registry st)) eqn:E; [contradiction |].
    simpl. rewrite E. reflexivity.
  - intros st H. unfold folders.
    unfold bind at 1. unfold gets at 1. rewrite H. simpl Nat.eqb. cbv iota.
    apply getter_fetches, load_folders_fetches.
Qed.

(** The getters that test [is None] do not fetch a collection that holds a
    list, loaded or not. *)
Lemma none_guarded_getters st :
  (forall l, _scans (registry st) = Some l -> scans st = (Ret (Some l), st)) /\
  (forall l, _users (registry st) = Some l -> users st = (Ret (Some l), st)) /\
  (forall l, _policies (registry st) = Some l -> policies st = (Ret (Some l), st)) /\
  (forall l, _agents (registry st) = Some l -> agents st = (Ret (Some l), st)) /\
  (forall l, _agentgroups (registry st) = Some l ->
             agentgroups st = (Ret (Some l), st)).
Proof.
  repeat split; intros l H;
    [unfold scans | unfold users | unfold policies | unfold agents
    | unfold agentgroups];
    run; rewrite H; run; rewrite H; reflexivity.
Qed.

(* ================================================================= *)
(** ** The bulk load *)

Lemma run_loads_true loads : forall b st st',
  run_loads loads b st = (Ret true, st') <-> b = true /\ all_succeed loads st st'.
Proof.
  induction loads as [| l rest IH]; intros b st st'; simpl.
  - unfold ret. split.
    + intro H. inversion H; subst. split; [reflexivity | constructor].
    + intros [-> H]. inversion H; subst. reflexivity.
  - unfold bind. destruct (l st) as [[r | e] st1] eqn:E.
    + rewrite IH. split.
      * intros [Hb H]. apply andb_true_iff in Hb. destruct Hb as [-> ->].
        split; [reflexivity |]. econstructor; eassumption.
      * intros [-> H]. inversion H; subst.
        match goal with
        | H1 : l st = _ |- _ => rewrite E in H1; inversion H1; subst
        end.
        split; [reflexivity | assumption].
    + split; [discriminate |].
      intros [_ H]. inversion H; subst.
      match goal with
      | H1 : l st = _ |- _ => rewrite E in H1; discriminate
      end.
Qed.

Lemma run_loads_app l1 l2 : forall b st,
  run_loads (l1 ++ l2) b st =
  match run_loads l1 b st with
  | (Ret b', st') => run_loads l2 b' st'
  | (Raise e, st') => (Raise e, st')
  end.
Proof.
  induction l1 as [| l l1 IH]; intros b st; simpl.
  - reflexivity.
  - unfold bind. destruct (l st) as [[r | e] st1]; [apply IH | reflexivity].
Qed.

Lemma run_loads_false loads : forall st,
  fst (run_loads loads false st) <> Ret true.
Proof.
  intros st H.
  destruct (run_loads loads false st) as [o st'] eqn:E. simpl in H. subst.
  apply run_loads_true in E. destruct E; discriminate.
Qed.

(** C10: [load] runs the loaders in the order properties, mail, proxy,
    scanners, agents, agent groups, policies, scans, folders, templates,
    users, each on the client the previous one left.  It returns [True]
    exactly when every one of them returned [True].  When a loader fails
    after others have run, nothing is undone: if it raises, [load] raises
    in the very state the loader left; if it returns [False], the loaders
    after it run from the state it left and [load] does not return
    [True]. *)
Theorem load_runs_in_order :
  (forall st, load st = run_loads load_order true st) /\
  (forall st st', load st = (Ret true, st') <-> all_succeed load_order st st') /\
  (forall pre f post st b s_k,
     load_order = pre ++ f :: post ->
     run_loads pre true st = (Ret b, s_k) ->
     (forall e s', f s_k = (Raise e, s') -> load st = (Raise e, s')) /\
     (forall s', f s_k = (Ret false, s') ->
        load st = run_loads post false s' /\ fst (load st) <> Ret true)).
Proof.
  assert (Heq : forall st, load st = run_loads load_order true st)
    by (intro st; reflexivity).
  split; [exact Heq | split].
  - intros st st'. rewrite Heq, run_loads_true. intuition.
  - intros pre f post st b s_k Hord Hpre. split.
    + intros e s' Hf. rewrite Heq, Hord, run_loads_app, Hpre. simpl.
      unfold bind. rewrite Hf. reflexivity.
    + intros s' Hf.
      assert (Hrun : run_loads load_order true st = run_loads post false s').
      { rewrite Hord, run_loads_app, Hpre. simpl. unfold bind. rewrite Hf.
        rewrite andb_false_r. reflexivity. }
      rewrite Heq, Hrun. split; [reflexivity | apply run_loads_false].
Qed.

(* ================================================================= *)
(** ** What the request layer keeps of the session *)

Section SessionSteps.

(** A relation kept by each update of the session that the request layer
    performs, rather than by every update. *)
Variable R : Nessus -> Nessus -> Prop.
Hypothesis S_refl : forall st, R st st.
Hypothesis S_trans : forall a b c, R a b -> R b c -> R a c.
Hypothesis S_ensure : forall st, R st (ensure_connection st).
Hypothesis S_reconnect : forall st, R st (reconnect st).
Hypothesis S_user : forall u st, R st (upd_session (set_user (Some u)) st).
Hypothesis S_cookie : forall t st,
  R st (upd_session (fun s => set_headers (set_x_cookie t (_headers s)) s) st).
Hypothesis S_properties : forall f st, R st (upd_properties f st).
Hypothesis S_log : forall rq st, R st (upd_wire (log_request rq) st).
Hypothesis S_count : forall st, R st (upd_wire count_response st).

Lemma steps_bind {A B} (m : M A) (k : A -> M B) :
  keeps R m -> (forall a, keeps R (k a)) -> keeps R (bind m k).
Proof. apply keeps_bind, S_trans. Qed.

Lemma steps_login_with request user :
  (forall m t p h, keeps R (request m t p h)) ->
  keeps R (login_with request user).
Proof.
  intro Hreq. unfold login_with.
  apply steps_bind;
    [apply keeps_server_version_with; assumption | intro version].
  apply steps_bind; [apply keeps_lift, S_refl | intro major].
  apply keeps_if; [apply keeps_raise, S_refl |].
  destruct user as [u |]; [| apply keeps_raise, S_refl].
  apply steps_bind;
    [apply keeps_api_request_with; assumption | intro response].
  apply keeps_if; [| apply keeps_ret, S_refl].
  apply steps_bind; [apply keeps_lift, S_refl | intro has].
  apply keeps_if.
  - apply steps_bind; [apply keeps_lift, S_refl | intro].
    apply keeps_raise, S_refl.
  - apply steps_bind; [apply keeps_modify; intro; apply S_user | intros _].
    apply steps_bind; [apply keeps_lift, S_refl | intro token].
    apply steps_bind; [apply keeps_modify; intro; apply S_user | intros _].
    apply steps_bind; [apply keeps_lift, S_refl | intro token'].
    apply steps_bind; [apply keeps_modify; intro; apply S_cookie | intros _].
    apply keeps_ret, S_refl.
Qed.

Lemma steps__request d : forall m t p h, keeps R (_request d m t p h).
Proof.
  assert (Hread : keeps R read_response) by (apply keeps_read_response, S_count).
  induction d as [| d IH]; intros m t p h st;
    simpl; unfold connection_request; destruct (on_request _ _); simpl.
  1, 5: eapply S_trans; [apply S_ensure |];
        eapply S_trans; [apply S_log | apply Hread].
  1, 2: eapply S_trans; [apply S_ensure |];
        eapply S_trans; [apply S_log | apply S_reconnect].
  1, 4: destruct (negb _); simpl;
        (eapply S_trans; [apply S_ensure | apply S_log]).
  all: eapply S_trans; [apply S_ensure |];
    eapply S_trans; [apply S_log |];
    eapply S_trans; [apply S_reconnect |];
    apply steps_bind; [apply keeps_gets, S_refl | intro user];
    apply steps_bind; [apply steps_login_with; apply IH | intros _];
    apply steps_bind; [apply keeps_gets, S_refl | intro hs];
    apply steps_bind; [apply IH | intros _]; apply Hread.
Qed.

Lemma steps__api_request m t p : keeps R (_api_request m t p).
Proof.
  apply keeps_api_request_with; [apply S_refl | apply S_trans |].
  apply steps__request.
Qed.

Lemma steps_login user : keeps R (login user).
Proof. apply steps_login_with, steps__request. Qed.

Lemma steps_server_version : keeps R server_version.
Proof.
  apply keeps_server_version_with;
    [apply S_refl | apply S_trans | apply S_properties | apply steps__request].
Qed.

Lemma steps_logout : keeps R logout.
Proof.
  unfold logout. apply steps_bind; [apply steps__request | intros _].
  apply keeps_ret, S_refl.
Qed.

End SessionSteps.

Lemma session_kept_refl st : session_kept st st.
Proof. unfold session_kept. tauto. Qed.

Lemma session_kept_trans a b c :
  session_kept a b -> session_kept b c -> session_kept a c.
Proof.
  unfold session_kept.
  intros [H1 [H2 [H3 [H4 [H5 [H6 [H7 H8]]]]]]] [G1 [G2 [G3 [G4 [G5 [G6 [G7 G8]]]]]]].
  repeat split; try (etransitivity; eassumption); auto.
Qed.

Lemma session_kept_ensure st : session_kept st (ensure_connection st).
Proof.
  unfold session_kept, ensure_connection.
  destruct (_connection (session st)) eqn:E; simpl; rewrite ?E;
    intuition congruence.
Qed.

(** The request layer keeps [session_kept], whatever the transport does. *)
Lemma session_kept_steps :
  (forall d m t p h, keeps session_kept (_request d m t p h)) /\
  (forall m t p, keeps session_kept (_api_request m t p)) /\
  (forall user, keeps session_kept (login user)) /\
  keeps session_kept logout /\
  keeps session_kept server_version.
Proof.
  assert (H1 : forall st, session_kept st (reconnect st))
    by (intro; unfold session_kept; simpl; intuition congruence).
  assert (H2 : forall u st, session_kept st (upd_session (set_user (Some u)) st))
    by (intros; unfold session_kept; simpl; intuition congruence).
  assert (H3 : forall t st, session_kept st
             (upd_session (fun s => set_headers (set_x_cookie t (_headers s)) s) st))
    by (intros; unfold session_kept; simpl; intuition congruence).
  assert (H4 : forall f st, session_kept st (upd_properties f st))
    by (intros; unfold session_kept; simpl; tauto).
  assert (H5 : forall rq st, session_kept st (upd_wire (log_request rq) st))
    by (intros; unfold session_kept; simpl; tauto).
  assert (H6 : forall st, session_kept st (upd_wire count_response st))
    by (intros; unfold session_kept; simpl; tauto).
  split; [| split; [| split; [| split]]]; intros;
    [apply steps__request | apply steps__api_request | apply steps_login
    | apply steps_logout | apply steps_server_version];
    first [exact session_kept_refl | exact session_kept_trans
          | exact session_kept_ensure | exact H1 | exact H2 | exact H3
          | exact H4 | exact H5 | exact H6].
Qed.

(** X1: no operation of the request layer, whatever the transport
    answers and whether it returns or raises, changes the server address,
    the verification flag or the [Content-type] and [Accept] headers, and
    none drops a token header, a stored user or a connection that the
    client holds. *)
Theorem request_layer_keeps_session :
  forall st,
    (forall d m t p h, session_kept st (snd (_request d m t p h st))) /\
    (forall m t p, session_kept st (snd (_api_request m t p st))) /\
    (forall user, session_kept st (snd (login user st))) /\
    session_kept st (snd (logout st)) /\
    session_kept st (snd (server_version st)).
Proof.
  intro st. destruct session_kept_steps as [H1 [H2 [H3 [H4 H5]]]].
  split; [| split; [| split; [| split]]]; intros;
    first [apply H1 | apply H2 | apply H3 | apply H4 | apply H5].
Qed.

(** X2: the request layer never touches the Registry: after [_request],
    [_api_request], [login], [logout] or the version probe, every
    collection is what it was, whatever the transport did. *)
Theorem request_layer_leaves_registry :
  forall st,
    (forall d m t p h, registry (snd (_request d m t p h st)) = registry st) /\
    (forall m t p, registry (snd (_api_request m t p st)) = registry st) /\
    (forall user, registry (snd (login user st)) = registry st) /\
    registry (snd (logout st)) = registry st /\
    registry (snd (server_version st)) = registry st.
Proof.
  assert (Ht : forall a b c, same_registry a b -> same_registry b c -> same_registry a c)
    by (unfold same_registry; intros; etransitivity; eassumption).
  assert (Hr : forall d m t p h, keeps same_registry (_request d m t p h))
    by (intros; apply keeps__request; unfold same_registry; intros;
        try reflexivity; eapply Ht; eassumption).
  assert (Hl : forall user, keeps same_registry (login user)).
  { intro user. unfold login. apply keeps_login_with; unfold same_registry;
      intros; try reflexivity; [eapply Ht; eassumption | apply Hr]. }
  assert (Ho : keeps same_registry logout).
  { unfold logout. apply keeps_bind; [exact Ht | apply Hr |].
    intros _. apply keeps_ret. reflexivity. }
  assert (Hv : keeps same_registry server_version).
  { unfold server_version. apply keeps_server_version_with;
      unfold same_registry; intros; try reflexivity;
      [eapply Ht; eassumption | apply Hr]. }
  intro st. split; [| split; [| split; [| split]]]; intros.
  - apply Hr.
  - apply api_request_same_registry.
  - apply Hl.
  - apply Ho.
  - apply Hv.
Qed.

Lemma ensure_connection_idempotent st :
  ensure_connection (ensure_connection st) = ensure_connection st.
Proof.
  unfold ensure_connection.
  destruct (_connection (session st)) eqn:E; simpl; [rewrite E |]; reflexivity.
Qed.

Lemma request_from_connected d m t p h st :
  _request d m t p h st = _request d m t p h (ensure_connection st).
Proof.
  destruct d; simpl;
    rewrite ensure_connection_idempotent, headers_or_default_ensure; reflexivity.
Qed.

(** X3: after any call of [_request] the client holds a connection, and
    so it does after [_api_request] and [logout]: the handle is created on
    first use and replaced, never dropped. *)
Theorem request_leaves_a_connection :
  forall st,
    (forall d m t p h, _connection (session (snd (_request d m t p h st))) <> None) /\
    (forall m t p, _connection (session (snd (_api_request m t p st))) <> None) /\
    _connection (session (snd (logout st))) <> None.
Proof.
  intro st.
  assert (Hc : _connection (session (ensure_connection st)) <> None).
  { unfold ensure_connection.
    destruct (_connection (session st)) eqn:E; simpl; [rewrite E |]; discriminate. }
  assert (Hr : forall d m t p h,
             _connection (session (snd (_request d m t p h st))) <> None).
  { intros. rewrite request_from_connected.
    destruct session_kept_steps as [H _].
    apply (H d m t p h (ensure_connection st)). exact Hc. }
  split; [exact Hr | split].
  - intros m t p. unfold _api_request, _api_request_with, bind.
    specialize (Hr depth m t (JsonDumps (params_or_empty p)) None).
    destruct (_request depth m t _ None st) as [[raw | e] st1]; simpl in *;
      [| exact Hr].
    destruct (negb _); simpl; [| exact Hr].
    unfold lift. destruct (loads raw); simpl; exact Hr.
  - unfold logout, bind.
    specialize (Hr depth "DELETE" "/session" EmptyList None).
    destruct (_request depth _ _ _ None st) as [[raw | e] st1]; simpl in *; exact Hr.
Qed.

Lemma plain_kept_steps d m t p h : keeps plain_kept (_request d m t p h).
Proof.
  apply steps__request; unfold plain_kept, plain_connection.
  - tauto.
  - intros a b c [H1 [H2 H3]] [G1 [G2 G3]].
    repeat split; try (etransitivity; eassumption). auto.
  - intro st. unfold ensure_connection.
    destruct (_connection (session st)) eqn:E; simpl; rewrite ?E;
      intuition congruence.
  - intro st. simpl. tauto.
  - intros u st. simpl. tauto.
  - intros t0 st. simpl. tauto.
  - intros f st. simpl. tauto.
  - intros rq st. simpl. tauto.
  - intro st. simpl. tauto.
Qed.

(** X4: the certificate policy survives no recovery.  A client built with
    [verify=False] opens its first connection with an unverified SSL
    context; once a request has met a stale-connection condition, the
    connection the client is left with is one built without that context,
    whatever [verify] says and however the call ends. *)
Theorem recovery_forgets_unverified_context :
  forall d m t p h st,
    (stale (on_request (wire st) (length (requests (wire st)))) = true ->
     _connection (session (snd (_request d m t p h st))) =
     Some (HTTPSConnection (_url (session st)) (_port (session st)) false)) /\
    (on_request (wire st) (length (requests (wire st))) = Sent ->
     _connection (session st) = None ->
     _connection (session (snd (_request d m t p h st))) =
     Some (HTTPSConnection (_url (session st)) (_port (session st))
             (negb (_verify (session st))))).
Proof.
  intros d m t p h st. split.
  - intro Hs.
    set (st3 := reconnect (upd_wire (log_request
                  (mkRequest m t p (headers_or_default h st)))
                  (ensure_connection st))).
    assert (Hu : _url (session st3) = _url (session st) /\
                 _port (session st3) = _port (session st)).
    { subst st3. unfold ensure_connection.
      destruct (_connection (session st)); simpl; auto. }
    assert (Hp : plain_connection st3) by reflexivity.
    destruct Hu as [Hu1 Hu2].
    destruct d as [| d].
    + rewrite (request_stale_exhausted _ _ _ _ _ Hs).
      cbn [snd]. fold st3. unfold plain_connection in Hp.
      rewrite Hp, Hu1, Hu2. reflexivity.
    + rewrite (request_stale d _ _ _ _ _ Hs). fold st3.
      assert (Hk : plain_kept st3
                (snd ((user <- gets (fun st => _user (session st)) ;;
                       login_with (_request d) user ;;
                       hs' <- gets (fun st => _headers (session st)) ;;
                       _request d m t p (Some hs') ;;
                       read_response) st3))).
      { assert (Ht : forall a b c, plain_kept a b -> plain_kept b c -> plain_kept a c).
        { unfold plain_kept. intros a b c [H1 [H2 H3]] [G1 [G2 G3]].
          repeat split; try (etransitivity; eassumption). auto. }
        assert (Hrf : forall s, plain_kept s s) by (unfold plain_kept; tauto).
        apply keeps_bind; [exact Ht | apply keeps_gets, Hrf | intro user].
        apply keeps_bind; [exact Ht | | intros _].
        { apply steps_login_with; try (intros; apply plain_kept_steps);
            try exact Ht; unfold plain_kept, plain_connection; simpl; tauto. }
        apply keeps_bind; [exact Ht | apply keeps_gets, Hrf | intro hs].
        apply keeps_bind; [exact Ht | apply plain_kept_steps | intros _].
        apply keeps_read_response. intro s. unfold plain_kept, plain_connection.
        simpl. tauto. }
      destruct Hk as [K1 [K2 K3]]. specialize (K3 Hp).
      unfold plain_connection in K3. rewrite K3, K1, K2, Hu1, Hu2. reflexivity.
  - intros Hs Hn. rewrite (request_accepted d m t p h st Hs).
    unfold read_response, ensure_connection. rewrite Hn.
    destruct (on_getresponse _ _) as [status body | what];
      [destruct (Z.eqb status 200) |]; reflexivity.
Qed.

(* ================================================================= *)
(** ** Errors of the request layer and of login *)

(** X5: how [_request] ends when the transport fails outside the two
    recovered conditions.  A refused connection is reported with the
    server's address, any other socket error is passed on; in both cases
    the request was handed over once, no response is read and nothing is
    retried.  An accepted request answered with a status other than 200
    raises with the response body, after that one exchange. *)
Theorem request_failures :
  forall d m t p h st,
    (forall errno,
       on_request (wire st) (length (requests (wire st))) = SocketErr errno ->
       let st' := upd_wire (log_request (mkRequest m t p (headers_or_default h st)))
                    (ensure_connection st) in
       _request d m t p h st =
         (Raise (if Z.eqb errno ECONNREFUSED
                 then CannotConnect (_url (session st)) (_port (session st))
                 else SocketError errno), st') /\
       n_getresponse (wire st') = n_getresponse (wire st)) /\
    (forall status body,
       on_request (wire st) (length (requests (wire st))) = Sent ->
       on_getresponse (wire st) (n_getresponse (wire st)) = Response status body ->
       status <> 200%Z ->
       _request d m t p h st =
         (Raise (HTTPStatusError body), exchange m t p h st)).
Proof.
  intros d m t p h st. split.
  - intros errno Hs st'. split.
    + subst st'. destruct d; simpl; unfold connection_request;
        rewrite wire_ensure_connection, Hs, headers_or_default_ensure;
        destruct (Z.eqb errno ECONNREFUSED); simpl;
        unfold ensure_connection; destruct (_connection (session st)); reflexivity.
    + subst st'. simpl. rewrite wire_ensure_connection. reflexivity.
  - intros status body Hs Hr Hne.
    rewrite (request_accepted d m t p h st Hs).
    unfold read_response; simpl. rewrite wire_ensure_connection, Hr.
    destruct (Z.eqb status 200) eqn:E.
    + apply Z.eqb_eq in E. contradiction.
    + unfold exchange. rewrite headers_or_default_ensure. reflexivity.
Qed.

Lemma login_raises d u st e st' :
  version_supported st = true ->
  _request d "POST" "/session" (credentials u) None st = (Raise e, st') ->
  login_with (_request d) (Some u) st = (Raise e, st').
Proof.
  intros Hv Hr. unfold login_with.
  rewrite (bind_ret_eq _ _ _ _ _ (server_version_cached _ _ Hv)).
  unfold version_supported in Hv.
  destruct (first_item (_server_version (properties st))) as [major | e0] eqn:Hf;
    [| discriminate].
  unfold bind at 1. unfold lift at 1. rewrite Hv. cbn [negb].
  apply bind_raise_eq. unfold _api_request_with.
  apply bind_raise_eq. exact Hr.
Qed.

(** X6: against a transport that refuses every request as stale, a call
    of [_request] on a logged-in client never returns: it nests one
    recovery per unit of depth and ends in the recursion limit, having
    handed over its request once and [POST /session] once per level,
    without reading any response. *)
Theorem always_stale_exhausts_recursion :
  forall d m t p h st u,
    (forall n, stale (on_request (wire st) n) = true) ->
    version_supported st = true ->
    _user (session st) = Some u ->
    fst (_request d m t p h st) = Raise RecursionLimit /\
    map rq_sent (requests (wire (snd (_request d m t p h st)))) =
      map rq_sent (requests (wire st)) ++
      (m, t, p) :: repeat ("POST", "/session", credentials u) d /\
    n_getresponse (wire (snd (_request d m t p h st))) = n_getresponse (wire st).
Proof.
  induction d as [| d IH]; intros m t p h st u Hall Hv Hu.
  - rewrite (request_stale_exhausted _ _ _ _ _ (Hall _)). simpl.
    rewrite wire_ensure_connection, map_app. repeat split; reflexivity.
  - rewrite (request_stale d _ _ _ _ _ (Hall _)).
    set (st3 := reconnect (upd_wire (log_request
                  (mkRequest m t p (headers_or_default h st)))
                  (ensure_connection st))).
    assert (Hw : on_request (wire st3) = on_request (wire st))
      by (subst st3; simpl; rewrite wire_ensure_connection; reflexivity).
    assert (Hv3 : version_supported st3 = true).
    { unfold version_supported in *. subst st3. simpl.
      rewrite properties_ensure_connection. exact Hv. }
    assert (Hu3 : _user (session st3) = Some u).
    { subst st3. simpl. rewrite user_ensure_connection. exact Hu. }
    destruct (IH "POST" "/session" (credentials u) None st3 u) as [I1 [I2 I3]];
      [intro n; rewrite Hw; apply Hall | exact Hv3 | exact Hu3 |].
    destruct (_request d "POST" "/session" (credentials u) None st3)
      as [o st4] eqn:E.
    simpl in I1, I2, I3. subst o.
    assert (Hres : (user <- gets (fun st => _user (session st)) ;;
                    login_with (_request d) user ;;
                    hs' <- gets (fun st => _headers (session st)) ;;
                    _request d m t p (Some hs') ;;
                    read_response) st3 = (Raise RecursionLimit, st4)).
    { unfold bind at 1. unfold gets at 1. rewrite Hu3.
      apply bind_raise_eq. apply login_raises; assumption. }
    rewrite Hres. cbn [fst snd]. split; [reflexivity | split].
    + rewrite I2. subst st3. simpl. rewrite wire_ensure_connection, map_app.
      rewrite <- app_assoc. reflexivity.
    + rewrite I3. subst st3. simpl. rewrite wire_ensure_connection. reflexivity.
Qed.


(** X8: a served login.  With a supported version stored and a response
    that carries a token and neither ["error"] nor ["status"], [login]
    returns [True], stores the user with that token, sets the [X-Cookie]
    header and leaves the other headers alone.  The login request itself
    still went out with the headers as they were; the next request
    carries the new token. *)
Theorem login_stores_token :
  forall u st body token,
    version_supported st = true ->
    served st body -> grants body token ->
    exists st',
      login (Some u) st = (Ret true, st') /\
      _user (session st') = Some (set_token token u) /\
      _headers (session st') = set_x_cookie token (_headers (session st)) /\
      requests (wire st') =
        requests (wire st) ++
        [mkRequest "POST" "/session" (credentials u) (_headers (session st))] /\
      forall m t p, exists rest,
        requests (wire (snd (_request depth m t p None st'))) =
        requests (wire st') ++
        mkRequest m t p (set_x_cookie token (_headers (session st))) :: rest.
Proof.
  intros u st body token Hv Hs Hg.
  eexists. split; [apply (login_served depth u st body token Hv Hs Hg) |].
  unfold logged_in. cbn [upd_session session wire _user _headers set_user set_headers].
  split; [reflexivity |].
  split; [rewrite headers_exchange; reflexivity |].
  split; [apply requests_exchange |].
  intros m t p.
  destruct (request_logs_first depth m t p None
              (logged_in u token
                 (exchange "POST" "/session" (credentials u) None st)))
    as [rest Hr].
  exists rest. unfold logged_in in Hr.
  cbn [upd_session session wire _user _headers set_user set_headers
       headers_or_default] in Hr.
  rewrite headers_exchange in Hr. exact Hr.
Qed.

(** X9: a login that is not granted.  On an empty body [login] returns
    [False]; on a response with a ["status"] key it raises with that
    status; in both cases the stored user and the headers are what they
    were.  On a non-empty object with neither ["status"] nor ["token"] it
    raises [KeyError]: the user is stored by then, without a token, and
    the headers are unchanged. *)
Theorem login_not_granted :
  forall u st body,
    version_supported st = true ->
    served st body ->
    let st' := exchange "POST" "/session" (credentials u) None st in
    (body = "" -> login (Some u) st = (Ret false, st')) /\
    (forall o status,
       body <> "" -> json_loads body = Some (JObj o) ->
       lookup "error" o = None -> lookup "status" o = Some status ->
       login (Some u) st = (Raise (LoginRefused status), st')) /\
    (forall o,
       body <> "" -> json_loads body = Some (JObj o) ->
       lookup "error" o = None -> lookup "status" o = None ->
       lookup "token" o = None ->
       login (Some u) st =
         (Raise (KeyError "token"), upd_session (set_user (Some u)) st')) /\
    _user (session st') = _user (session st) /\
    _headers (session st') = _headers (session st).
Proof.
  intros u st body Hv Hs st'.
  assert (Hlogin : login (Some u) st =
            match decode body with
            | Ret response =>
                (if negb (is_None response) then
                   has_status <- lift (py_in "status" response) ;;
                   if has_status then
                     status <- lift (getitem response "status") ;;
                     raise (LoginRefused status)
                   else
                     modify (upd_session (set_user (Some u))) ;;
                     token <- lift (getitem response "token") ;;
                     modify (upd_session (set_user (Some (set_token token u)))) ;;
                     token' <- lift (getitem response "token") ;;
                     modify (upd_session (fun s =>
                               set_headers (set_x_cookie token' (_headers s)) s)) ;;
                     ret true
                 else ret false) st'
            | Raise e => (Raise e, st')
            end).
  { unfold login, login_with.
    rewrite (bind_ret_eq _ _ _ _ _ (server_version_cached _ _ Hv)).
    unfold version_supported in Hv.
    destruct (first_item (_server_version (properties st))) as [major | e0] eqn:Hf;
      [| discriminate].
    unfold bind at 1. unfold lift at 1. rewrite Hv. cbn [negb].
    unfold bind at 1. rewrite (api_request_with_served depth _ _ _ _ _ Hs).
    destruct (decode body); reflexivity. }
  split; [| split; [| split; [| split]]].
  - intros ->. rewrite Hlogin. reflexivity.
  - intros o status Hne Hl He Hst. rewrite Hlogin.
    rewrite (decode_object _ _ Hne Hl He). run.
    cbn [negb is_None py_in getitem]. rewrite Hst. reflexivity.
  - intros o Hne Hl He Hst Htok. rewrite Hlogin.
    rewrite (decode_object _ _ Hne Hl He). run.
    cbn [negb is_None py_in getitem]. rewrite Hst. run. rewrite Htok. reflexivity.
  - apply user_exchange.
  - apply headers_exchange.
Qed.

(** X10: the version probe runs at most once.  Whenever [server_version]
    returns, the version it returns is not [None] and is stored, and
    evaluating the property again returns the same version without any
    request or other change. *)
Theorem server_version_is_cached :
  forall st v st',
    server_version st = (Ret v, st') ->
    is_None v = false /\
    _server_version (properties st') = v /\
    server_version st' = (Ret v, st').
Proof.
  intros st v st' H.
  assert (Hcached : forall s, is_None (_server_version (properties s)) = false ->
            server_version s = (Ret (_server_version (properties s)), s)).
  { intros s Hs. unfold server_version, server_version_with. run.
    rewrite Hs. reflexivity. }
  assert (Hgoal : is_None v = false /\ _server_version (properties st') = v).
  { unfold server_version, server_version_with in H. revert H. run.
    destruct (is_None (_server_version (properties st))) eqn:En.
    - destruct (_request depth "GET" "/nessus6.html" (Text "") None st)
        as [[page | e] st1]; [| discriminate].
      destruct (negb (contains "404 File not found" page)).
      + intro H. inversion H; subst. split; reflexivity.
      + destruct (_request depth "GET" "/html5.html" (Text "") None st1)
          as [[page5 | e] st2]; [| discriminate].
        simpl. intro H. inversion H; subst. split; reflexivity.
    - intro H. inversion H; subst. split; [exact En | reflexivity]. }
  destruct Hgoal as [G1 G2]. split; [exact G1 | split; [exact G2 |]].
  rewrite <- G2. apply Hcached. rewrite G2. exact G1.
Qed.

(* ================================================================= *)
(** ** What the other loaders store *)

Lemma api_request_yields m t params st response :
  fetched st response ->
  _api_request m t params st =
  (Ret response, exchange m t (JsonDumps (params_or_empty params)) None st).
Proof. intros [body [Hs Hd]]. apply (api_request_fetched _ _ _ _ _ _ Hs Hd). Qed.

Section AppendLoops.

Variable A : Type.
Variable hyd : json -> outcome A.

(** Loops that append to a collection held as a list. *)
Section OnLists.

Variable get : Registry -> list A.
Variable set : list A -> Registry -> Registry.
Hypothesis get_set : forall v r, get (set v r) = v.
Hypothesis set_set : forall v w r, set v (set w r) = set v r.
Hypothesis set_same : forall r, set (get r) r = r.

Let body : json -> M unit := fun s =>
  x <- lift (hyd s) ;;
  modify (upd_registry (fun r => set (get r ++ [x]) r)).

Lemma upd_registry_twice f g st :
  upd_registry f (upd_registry g st) = upd_registry (fun r => f (g r)) st.
Proof. reflexivity. Qed.

Lemma list_loop_ok ss : forall xs st,
  map_outcome hyd ss = Ret xs ->
  for_each ss body st =
  (Ret tt, upd_registry (fun r => set (get r ++ xs) r) st).
Proof.
  induction ss as [| s ss IH]; intros xs st Hmap; simpl in *.
  - inversion Hmap; subst. unfold ret. f_equal.
    destruct st as [se pr rg w]. unfold upd_registry; simpl.
    rewrite app_nil_r, set_same. reflexivity.
  - destruct (hyd s) as [x | e] eqn:Hs; simpl in Hmap; [| discriminate].
    destruct (map_outcome hyd ss) as [xs' | e] eqn:Hss; simpl in Hmap;
      [| discriminate].
    inversion Hmap; subst.
    unfold body at 1. unfold bind at 1. unfold bind at 1. unfold lift at 1.
    rewrite Hs. unfold modify at 1.
    rewrite (IH xs' _ eq_refl). f_equal.
    unfold upd_registry; simpl. rewrite get_set, set_set, <- app_assoc.
    reflexivity.
Qed.

Lemma list_loop_fails good : forall bad rest xs e st,
  map_outcome hyd good = Ret xs -> hyd bad = Raise e ->
  for_each (good ++ bad :: rest) body st =
  (Raise e, upd_registry (fun r => set (get r ++ xs) r) st).
Proof.
  induction good as [| s good IH]; intros bad rest xs e st Hmap Hbad; simpl in *.
  - inversion Hmap; subst.
    unfold body at 1. unfold bind at 1. unfold bind at 1. unfold lift at 1.
    rewrite Hbad. f_equal.
    destruct st as [se pr rg w]. unfold upd_registry; simpl.
    rewrite app_nil_r, set_same. reflexivity.
  - destruct (hyd s) as [x | e0] eqn:Hs; simpl in Hmap; [| discriminate].
    destruct (map_outcome hyd good) as [xs' | e0] eqn:Hss; simpl in Hmap;
      [| discriminate].
    inversion Hmap; subst.
    unfold body at 1. unfold bind at 1. unfold bind at 1. unfold lift at 1.
    rewrite Hs. unfold modify at 1.
    rewrite (IH bad rest xs' e _ eq_refl Hbad). f_equal.
    unfold upd_registry; simpl. rewrite get_set, set_set, <- app_assoc.
    reflexivity.
Qed.

End OnLists.

(** Loops that append, with [append_to], to a collection that may hold
    [None]. *)
Section OnOptions.

Variable get : Registry -> option (list A).
Variable set : option (list A) -> Registry -> Registry.
Hypothesis get_set : forall v r, get (set v r) = v.
Hypothesis set_set : forall v w r, set v (set w r) = set v r.
Hypothesis set_same : forall r, set (get r) r = r.

Let body : json -> M unit := fun s =>
  x <- lift (hyd s) ;; append_to get set x.

Lemma option_loop_ok ss : forall xs acc st,
  get (registry st) = Some acc ->
  map_outcome hyd ss = Ret xs ->
  for_each ss body st =
  (Ret tt, upd_registry (set (Some (acc ++ xs))) st).
Proof.
  induction ss as [| s ss IH]; intros xs acc st Hacc Hmap; simpl in *.
  - inversion Hmap; subst. unfold ret. f_equal.
    destruct st as [se pr rg w]. unfold upd_registry; simpl in *.
    rewrite app_nil_r, <- Hacc, set_same. reflexivity.
  - destruct (hyd s) as [x | e] eqn:Hs; simpl in Hmap; [| discriminate].
    destruct (map_outcome hyd ss) as [xs' | e] eqn:Hss; simpl in Hmap;
      [| discriminate].
    inversion Hmap; subst.
    unfold body at 1. unfold bind at 1. unfold bind at 1. unfold lift at 1.
    rewrite Hs. unfold append_to at 1. rewrite Hacc.
    rewrite (IH xs' (acc ++ [x])); [| simpl; apply get_set | reflexivity].
    f_equal. unfold upd_registry; simpl. rewrite set_set, <- app_assoc.
    reflexivity.
Qed.

End OnOptions.

End AppendLoops.

Lemma users_fold rs : forall acc st,
  for_fold rs (fun users result =>
      user <- lift (hydrate_user result) ;;
      ret (users ++ [user])) acc st =
  (match map_outcome hydrate_user rs with
   | Ret us => Ret (acc ++ us)
   | Raise e => Raise e
   end, st).
Proof.
  induction rs as [| r rs IH]; intros acc st; simpl.
  - rewrite app_nil_r. reflexivity.
  - run. destruct (hydrate_user r) as [u | e]; simpl; [| reflexivity].
    rewrite IH. destruct (map_outcome hydrate_user rs); simpl;
      [rewrite <- app_assoc |]; reflexivity.
Qed.

(** X11: a served load of the folders, the templates, the policies or the
    users whose records all hydrate stores exactly the hydrated records of
    this response, in order, in place of whatever the collection held;
    nothing else in the Registry changes. *)
Theorem loads_replace_their_collection :
  forall st response rs,
    fetched st response ->
    (forall fs,
       py_in "folders" response = Ret true ->
       records "folders" response = Ret rs ->
       map_outcome hydrate_folder rs = Ret fs ->
       load_folders st =
       (Ret true, upd_registry (set_folders fs)
                    (exchange "GET" "/folders" (JsonDumps (JObj [])) None st))) /\
    (forall ts,
       py_in "templates" response = Ret true ->
       records "templates" response = Ret rs ->
       map_outcome hydrate_template rs = Ret ts ->
       load_templates st =
       (Ret true, upd_registry (set_templates ts)
                    (exchange "GET" "/editor/scan/templates"
                       (JsonDumps (JObj [])) None st))) /\
    (forall ps,
       present "policies" response = Ret true ->
       records "policies" response = Ret rs ->
       map_outcome hydrate_policy rs = Ret ps ->
       load_policies st =
       (Ret true, upd_registry (set_policies (Some ps))
                    (exchange "GET" "/policies" (JsonDumps (JObj [])) None st))) /\
    (forall us,
       py_in "users" response = Ret true ->
       records "users" response = Ret rs ->
       map_outcome hydrate_user rs = Ret us ->
       load_users st =
       (Ret true, upd_registry (set_users (Some us))
                    (exchange "GET" "/users" (JsonDumps (JObj [])) None st))).
Proof.
  intros st response rs Hf. split; [| split; [| split]].
  - intros fs Hin Hrec Hmap. unfold load_folders.
    rewrite (bind_ret_eq _ _ _ _ _ (api_request_yields _ _ _ _ _ Hf)).
    run. rewrite Hin. run. rewrite Hrec. run.
    rewrite (list_loop_ok Folder hydrate_folder _folders set_folders
               (fun v r => eq_refl) (fun v w r => eq_refl)
               (fun r => match r with mkRegistry _ _ _ _ _ _ _ _ _ _ _ => eq_refl end)
               rs fs _ Hmap).
    reflexivity.
  - intros ts Hin Hrec Hmap. unfold load_templates.
    rewrite (bind_ret_eq _ _ _ _ _ (api_request_yields _ _ _ _ _ Hf)).
    run. rewrite Hin. run. rewrite Hrec. run.
    rewrite (list_loop_ok Template hydrate_template _templates set_templates
               (fun v r => eq_refl) (fun v w r => eq_refl)
               (fun r => match r with mkRegistry _ _ _ _ _ _ _ _ _ _ _ => eq_refl end)
               rs ts _ Hmap).
    reflexivity.
  - intros ps Hin Hrec Hmap. unfold load_policies.
    rewrite (bind_ret_eq _ _ _ _ _ (api_request_yields _ _ _ _ _ Hf)).
    run. rewrite Hin. run. rewrite Hrec. run.
    erewrite (option_loop_ok Policy hydrate_policy _policies set_policies
                (fun v r => eq_refl) (fun v w r => eq_refl)
                (fun r => match r with mkRegistry _ _ _ _ _ _ _ _ _ _ _ => eq_refl end)
                rs ps []); [reflexivity | reflexivity | exact Hmap].
  - intros us Hin Hrec Hmap. unfold load_users.
    rewrite (bind_ret_eq _ _ _ _ _ (api_request_yields _ _ _ _ _ Hf)).
    run. rewrite Hin. run. rewrite Hrec. run.
    rewrite users_fold, Hmap. reflexivity.
Qed.

Lemma map_outcome_fails {A B} (f : A -> outcome B) good : forall bad rest xs e,
  map_outcome f good = Ret xs -> f bad = Raise e ->
  map_outcome f (good ++ bad :: rest) = Raise e.
Proof.
  induction good as [| x good IH]; intros bad rest xs e Hg Hb; simpl in *.
  - rewrite Hb. reflexivity.
  - destruct (f x); simpl in *; [| discriminate].
    destruct (map_outcome f good) eqn:E; simpl in *; [| discriminate].
    rewrite (IH bad rest _ e eq_refl Hb). reflexivity.
Qed.

(** X12: a response object that lacks the collection's key.  The loaders
    disagree on what that means: [load_folders] and [load_users] return
    [False] and leave the Registry alone; [load_scanners] and
    [load_policies] return [True] and leave it alone (the policies also
    when the key holds [null]), so the old policies stay; [load_templates]
    and [load_scans] return [True] and leave their collection empty. *)
Theorem missing_collection_key :
  forall st o,
    fetched st (JObj o) ->
    (lookup "folders" o = None ->
     load_folders st =
     (Ret false, exchange "GET" "/folders" (JsonDumps (JObj [])) None st)) /\
    (lookup "users" o = None ->
     load_users st =
     (Ret false, exchange "GET" "/users" (JsonDumps (JObj [])) None st)) /\
    (lookup "scanners" o = None ->
     load_scanners st =
     (Ret true, exchange "GET" "/scanners" (JsonDumps (JObj [])) None st)) /\
    (lookup "policies" o = None \/ lookup "policies" o = Some JNull ->
     load_policies st =
     (Ret true, exchange "GET" "/policies" (JsonDumps (JObj [])) None st)) /\
    (lookup "templates" o = None ->
     load_templates st =
     (Ret true, upd_registry (set_templates [])
                  (exchange "GET" "/editor/scan/templates"
                     (JsonDumps (JObj [])) None st))) /\
    (lookup "scans" o = None \/ lookup "scans" o = Some JNull ->
     load_scans st =
     (Ret true, upd_registry (set_scans (Some []))
                  (exchange "GET" "/scans" (JsonDumps (JObj [])) None st))).
Proof.
  intros st o Hf. repeat split.
  - intro H. unfold load_folders.
    rewrite (bind_ret_eq _ _ _ _ _ (api_request_yields _ _ _ _ _ Hf)).
    run. cbn [py_in]. rewrite H. reflexivity.
  - intro H. unfold load_users.
    rewrite (bind_ret_eq _ _ _ _ _ (api_request_yields _ _ _ _ _ Hf)).
    run. cbn [py_in]. rewrite H. reflexivity.
  - intro H. unfold load_scanners.
    rewrite (bind_ret_eq _ _ _ _ _ (api_request_yields _ _ _ _ _ Hf)).
    run. cbn [py_in]. rewrite H. reflexivity.
  - intro H. unfold load_policies.
    rewrite (bind_ret_eq _ _ _ _ _ (api_request_yields _ _ _ _ _ Hf)).
    run. unfold present. cbn [py_in getitem obind].
    destruct H as [H | H]; rewrite H; reflexivity.
  - intro H. unfold load_templates.
    rewrite (bind_ret_eq _ _ _ _ _ (api_request_yields _ _ _ _ _ Hf)).
    run. cbn [py_in]. rewrite H. reflexivity.
  - intro H. unfold load_scans.
    rewrite (bind_ret_eq _ _ _ _ _ (api_request_yields _ _ _ _ _ Hf)).
    run. unfold present. cbn [py_in getitem obind].
    destruct H as [H | H]; rewrite H; reflexivity.
Qed.

(** X13: a call answered with an empty body, for which [_api_request]
    returns [None].  [load_properties] returns [False].  The other
    loaders test [key in response] on [None] and raise [TypeError]:
    [load_scanners], [load_folders], [load_policies] and [load_users]
    before they touched anything, [load_templates] and [load_scans] after
    they emptied their collection. *)
Theorem empty_response :
  forall st,
    fetched st JNull ->
    load_properties st =
      (Ret false,
       exchange "GET" "/server/properties?json=1" (JsonDumps (JObj [])) None st) /\
    load_scanners st =
      (Raise TypeError, exchange "GET" "/scanners" (JsonDumps (JObj [])) None st) /\
    load_folders st =
      (Raise TypeError, exchange "GET" "/folders" (JsonDumps (JObj [])) None st) /\
    load_policies st =
      (Raise TypeError, exchange "GET" "/policies" (JsonDumps (JObj [])) None st) /\
    load_users st =
      (Raise TypeError, exchange "GET" "/users" (JsonDumps (JObj [])) None st) /\
    load_templates st =
      (Raise TypeError,
       upd_registry (set_templates [])
         (exchange "GET" "/editor/scan/templates" (JsonDumps (JObj [])) None st)) /\
    load_scans st =
      (Raise TypeError,
       upd_registry (set_scans (Some []))
         (exchange "GET" "/scans" (JsonDumps (JObj [])) None st)).
Proof.
  intros st Hf.
  repeat split;
    [unfold load_properties | unfold load_scanners | unfold load_folders
    | unfold load_policies | unfold load_users | unfold load_templates
    | unfold load_scans];
    rewrite (bind_ret_eq _ _ _ _ _ (api_request_yields _ _ _ _ _ Hf));
    reflexivity.
Qed.

(** X14: a record that does not hydrate, after records that do.
    [load_scanners] raises and keeps the scanners appended so far;
    [load_folders] raises with the collection holding only the folders
    hydrated so far; [load_users], which fills a local list first, raises
    and leaves the users as they were. *)
Theorem record_that_fails :
  forall st response good bad rest e,
    fetched st response ->
    (forall xs,
       py_in "scanners" response = Ret true ->
       records "scanners" response = Ret (good ++ bad :: rest) ->
       map_outcome hydrate_scanner good = Ret xs ->
       hydrate_scanner bad = Raise e ->
       load_scanners st =
       (Raise e,
        upd_registry (fun r => set_scanners (_scanners r ++ xs) r)
          (exchange "GET" "/scanners" (JsonDumps (JObj [])) None st))) /\
    (forall xs,
       py_in "folders" response = Ret true ->
       records "folders" response = Ret (good ++ bad :: rest) ->
       map_outcome hydrate_folder good = Ret xs ->
       hydrate_folder bad = Raise e ->
       load_folders st =
       (Raise e,
        upd_registry (set_folders xs)
          (exchange "GET" "/folders" (JsonDumps (JObj [])) None st))) /\
    (forall xs,
       py_in "users" response = Ret true ->
       records "users" response = Ret (good ++ bad :: rest) ->
       map_outcome hydrate_user good = Ret xs ->
       hydrate_user bad = Raise e ->
       load_users st =
       (Raise e, exchange "GET" "/users" (JsonDumps (JObj [])) None st)).
Proof.
  intros st response good bad rest e Hf. split; [| split].
  - intros xs Hin Hrec Hmap Hbad. unfold load_scanners.
    rewrite (bind_ret_eq _ _ _ _ _ (api_request_yields _ _ _ _ _ Hf)).
    run. rewrite Hin. run. rewrite Hrec. run.
    rewrite (list_loop_fails Scanner hydrate_scanner _scanners set_scanners
               (fun v r => eq_refl) (fun v w r => eq_refl)
               (fun r => match r with mkRegistry _ _ _ _ _ _ _ _ _ _ _ => eq_refl end)
               good bad rest xs e _ Hmap Hbad).
    reflexivity.
  - intros xs Hin Hrec Hmap Hbad. unfold load_folders.
    rewrite (bind_ret_eq _ _ _ _ _ (api_request_yields _ _ _ _ _ Hf)).
    run. rewrite Hin. run. rewrite Hrec. run.
    rewrite (list_loop_fails Folder hydrate_folder _folders set_folders
               (fun v r => eq_refl) (fun v w r => eq_refl)
               (fun r => match r with mkRegistry _ _ _ _ _ _ _ _ _ _ _ => eq_refl end)
               good bad rest xs e _ Hmap Hbad).
    reflexivity.
  - intros xs Hin Hrec Hmap Hbad. unfold load_users.
    rewrite (bind_ret_eq _ _ _ _ _ (api_request_yields _ _ _ _ _ Hf)).
    run. rewrite Hin. run. rewrite Hrec. run.
    rewrite users_fold, (map_outcome_fails _ _ _ _ _ _ Hmap Hbad). reflexivity.
Qed.

(** X15: [load_users] is all or nothing, whatever the transport and the
    response are: when it returns [True] the users collection is replaced
    and no other collection changes; in every other case, a [False] or an
    exception, the whole Registry is what it was. *)
Theorem load_users_all_or_nothing :
  forall st,
    (fst (load_users st) = Ret true ->
     exists us, registry (snd (load_users st)) = set_users (Some us) (registry st)) /\
    (fst (load_users st) <> Ret true ->
     registry (snd (load_users st)) = registry st).
Proof.
  intro st.
  pose proof (api_request_same_registry "GET" "/users" JNull st) as Hr.
  unfold same_registry in Hr.
  destruct (load_users st) as [o st'] eqn:E. cbn [fst snd].
  revert E. unfold load_users. unfold bind at 1.
  destruct (_api_request "GET" "/users" JNull st) as [[response | e] st1];
    simpl in Hr;
    [| intro E; inversion E; subst; split; [discriminate | intros _; exact Hr]].
  run. destruct (py_in "users" response) as [[|] | e];
    [| intro E; inversion E; subst; split; [discriminate | intros _; exact Hr]
     | intro E; inversion E; subst; split; [discriminate | intros _; exact Hr]].
  destruct (records "users" response) as [rs | e];
    [| intro E; inversion E; subst; split; [discriminate | intros _; exact Hr]].
  rewrite users_fold.
  destruct (map_outcome hydrate_user rs) as [us | e];
    [| intro E; inversion E; subst; split; [discriminate | intros _; exact Hr]].
  simpl. intro E. inversion E; subst. split.
  - intros _. exists us. simpl. rewrite Hr. reflexivity.
  - intro H. contradiction H. reflexivity.
Qed.

(* ================================================================= *)
(** ** Agents, scanner by scanner *)

Lemma hydrate_agent_scanner_id scanner a agent :
  hydrate_agent scanner a = Ret agent ->
  agent_scanner_id agent = scanner_id scanner.
Proof.
  unfold hydrate_agent.
  repeat match goal with
         | |- context [getitem a ?k] =>
             destruct (getitem a k); simpl obind; [| discriminate]
         end.
  intro H. inversion H. reflexivity.
Qed.

Lemma agents_of_scanner_id scanner response ags :
  agents_of scanner response = Ret ags ->
  Forall (fun a => agent_scanner_id a = scanner_id scanner) ags.
Proof.
  unfold agents_of.
  destruct (present "agents" response) as [[|] | e]; simpl;
    [| intro H; inversion H; constructor | discriminate].
  destruct (records "agents" response) as [rs | e]; simpl; [| discriminate].
  revert ags. induction rs as [| a rs IH]; intros ags H; simpl in H.
  - inversion H. constructor.
  - destruct (hydrate_agent scanner a) as [ag | e] eqn:Ha; simpl in H;
      [| discriminate].
    destruct (map_outcome (hydrate_agent scanner) rs) as [ags' | e] eqn:Hm;
      simpl in H; [| discriminate].
    inversion H; subst. constructor; [| apply IH; reflexivity].
    apply (hydrate_agent_scanner_id _ _ _ Ha).
Qed.

Lemma agents_step scanner st acc ags id body response :
  fmt_d (scanner_id scanner) = Ret id ->
  served st body -> decode body = Ret response ->
  agents_of scanner response = Ret ags ->
  _agents (registry st) = Some acc ->
  exists st1,
    (id <- lift (fmt_d (scanner_id scanner)) ;;
     response <- _api_request "GET" ("/scanners/" ++ id ++ "/agents") JNull ;;
     has <- lift (present "agents" response) ;;
     if has then
       agents <- lift (records "agents" response) ;;
       for_each agents (fun a =>
         agent <- lift (hydrate_agent scanner a) ;;
         append_to _agents set_agents agent)
     else ret tt) st = (Ret tt, st1) /\
    _agents (registry st1) = Some (acc ++ ags) /\
    wire st1 =
    wire (exchange "GET" ("/scanners/" ++ id ++ "/agents")
            (JsonDumps (JObj [])) None st).
Proof.
  intros Hid Hs Hd Hags Hacc.
  unfold bind at 1. unfold lift at 1. rewrite Hid.
  rewrite (bind_ret_eq _ _ _ _ _ (api_request_fetched _ _ _ _ _ _ Hs Hd)).
  unfold agents_of in Hags. run.
  destruct (present "agents" response) as [[|] | e]; simpl in Hags;
    [| | discriminate].
  - destruct (records "agents" response) as [rs | e]; simpl in Hags;
      [| discriminate].
    erewrite (option_loop_ok Agent (hydrate_agent scanner) _agents set_agents
                (fun v r => eq_refl) (fun v w r => eq_refl)
                (fun r => match r with mkRegistry _ _ _ _ _ _ _ _ _ _ _ => eq_refl end)
                rs ags acc);
      [| rewrite registry_exchange; exact Hacc | exact Hags].
    eexists. split; [reflexivity |]. split; reflexivity.
  - inversion Hags; subst. eexists. split; [reflexivity |].
    split; [rewrite app_nil_r, registry_exchange; exact Hacc | reflexivity].
Qed.

Lemma agents_loop scanners : forall st acc out,
  _agents (registry st) = Some acc ->
  agents_run scanners (on_request (wire st)) (on_getresponse (wire st))
    (length (requests (wire st))) (n_getresponse (wire st)) out ->
  exists st',
    for_each scanners (fun scanner =>
      id <- lift (fmt_d (scanner_id scanner)) ;;
      response <- _api_request "GET" ("/scanners/" ++ id ++ "/agents") JNull ;;
      has <- lift (present "agents" response) ;;
      if has then
        agents <- lift (records "agents" response) ;;
        for_each agents (fun a =>
          agent <- lift (hydrate_agent scanner a) ;;
          append_to _agents set_agents agent)
      else ret tt) st = (Ret tt, st') /\
    _agents (registry st') = Some (acc ++ concat out) /\
    map rq_line (requests (wire st')) =
    map rq_line (requests (wire st)) ++ map agents_line scanners.
Proof.
  induction scanners as [| scanner scanners IH]; intros st acc out Hacc Hrun.
  - destruct out; [| contradiction]. exists st. simpl.
    rewrite !app_nil_r. repeat split. exact Hacc.
  - destruct out as [| ags out]; [contradiction |].
    destruct Hrun as [[id Hid] [Hsent [[body [response [Hrecv [Hd Hags]]]] Hrun]]].
    destruct (agents_step scanner st acc ags id body response Hid
                (conj Hsent Hrecv) Hd Hags Hacc) as [st1 [Hstep [Hacc1 Hw]]].
    destruct (IH st1 (acc ++ ags) out Hacc1) as [st' [Hloop [Hfinal Hlog]]].
    { rewrite Hw, on_request_exchange, on_getresponse_exchange,
        n_getresponse_exchange, requests_exchange, length_app. simpl.
      replace (length (requests (wire st)) + 1)
        with (S (length (requests (wire st)))) by lia.
      exact Hrun. }
    exists st'. split; [| split].
    + cbn [for_each]. rewrite (bind_ret_eq _ _ _ _ _ Hstep). exact Hloop.
    + rewrite Hfinal. simpl. rewrite app_assoc. reflexivity.
    + rewrite Hlog, Hw, requests_exchange, map_app. simpl.
      unfold agents_line at 2. rewrite Hid. rewrite <- app_assoc. reflexivity.
Qed.

(** X16: [load_agents] visits the loaded scanners in order.  When the
    transport serves one call per scanner, it hands over exactly one
    [GET /scanners/<id>/agents] per scanner, appends the agents of all
    responses, scanner after scanner, to the agents the collection held,
    gives every agent the id of the scanner it was fetched for, and
    returns [True].  With no scanner loaded it does nothing at all. *)
Theorem load_agents_collects :
  forall st acc out,
    _agents (registry st) = Some acc ->
    agents_run (_scanners (registry st)) (on_request (wire st))
      (on_getresponse (wire st)) (length (requests (wire st)))
      (n_getresponse (wire st)) out ->
    fst (load_agents st) = Ret true /\
    _agents (registry (snd (load_agents st))) = Some (acc ++ concat out) /\
    map rq_line (requests (wire (snd (load_agents st)))) =
      map rq_line (requests (wire st)) ++
      map agents_line (_scanners (registry st)) /\
    Forall2 (fun scanner ags =>
               Forall (fun a => agent_scanner_id a = scanner_id scanner) ags)
      (_scanners (registry st)) out /\
    (_scanners (registry st) = [] -> load_agents st = (Ret true, st)).
Proof.
  intros st acc out Hacc Hrun.
  assert (Hempty : _scanners (registry st) = [] -> load_agents st = (Ret true, st)).
  { intro Hnil. unfold load_agents. unfold bind at 1. unfold gets at 1.
    rewrite Hnil. reflexivity. }
  split; [| split; [| split; [| split; [| exact Hempty]]]]; clear Hempty.
  4: { clear Hacc.
       revert Hrun. generalize (length (requests (wire st))).
       generalize (n_getresponse (wire st)). revert out.
       induction (_scanners (registry st)) as [| sc scs IH]; intros out g r Hrun.
       - destruct out; [constructor | contradiction].
       - destruct out as [| ags out]; [contradiction |].
         destruct Hrun as [_ [_ [[body [response [_ [_ Hags]]]] Hrun]]].
         constructor;
           [apply (agents_of_scanner_id _ _ _ Hags) | apply (IH _ _ _ Hrun)]. }
  all: destruct (agents_loop _ st acc out Hacc Hrun) as [st' [Hloop [Hfinal Hlog]]];
    assert (Hload : load_agents st = (Ret true, st'))
      by (unfold load_agents; unfold bind at 1; unfold gets at 1;
          rewrite (bind_ret_eq _ _ _ _ _ Hloop); reflexivity);
    rewrite Hload; cbn [fst snd]; first [reflexivity | exact Hfinal | exact Hlog].
Qed.

(* ================================================================= *)
(** ** Hydrators and server properties *)

(** Reads the keys of a record in the order given: a missing key ends the
    case, a present one goes on. *)
Ltac read_keys o keys :=
  match keys with
  | nil => idtac
  | cons ?k ?keys' =>
      let E := fresh "E" in
      destruct (lookup k o) eqn:E; cbn [obind];
      [read_keys o keys' | try reflexivity]
  end.

(** X17: a hydrator fails on a JSON object only for want of a key, and
    names the first one missing in the order it reads them; with all
    required keys present it returns.  Optional fields ([more_info],
    [type], [unread_count], [no_target]) are not required. *)
Theorem hydrators_need_their_keys :
  needs_keys hydrate_scanner scanner_keys /\
  (forall scanner, needs_keys (hydrate_agent scanner) agent_keys) /\
  needs_keys hydrate_agentgroup agentgroup_keys /\
  needs_keys hydrate_template template_keys /\
  needs_keys hydrate_folder folder_keys /\
  needs_keys hydrate_policy policy_keys /\
  needs_keys hydrate_user user_keys.
Proof.
  unfold needs_keys.
  split; [| split; [| split; [| split; [| split; [| split]]]]]; intros.
  - unfold hydrate_scanner, scanner_keys, getitem. cbn [first_missing].
    let l := eval unfold scanner_keys in scanner_keys in read_keys o l. eexists. reflexivity.
  - unfold hydrate_agent, agent_keys, getitem. cbn [first_missing].
    let l := eval unfold agent_keys in agent_keys in read_keys o l. eexists. reflexivity.
  - unfold hydrate_agentgroup, agentgroup_keys, getitem. cbn [first_missing].
    let l := eval unfold agentgroup_keys in agentgroup_keys in read_keys o l. eexists. reflexivity.
  - unfold hydrate_template, template_keys, getitem, py_in. cbn [first_missing].
    read_keys o ["uuid"; "title"; "name"; "desc"].
    destruct (lookup "more_info" o); cbn [obind];
      read_keys o ["cloud_only"; "subscription_only"]; eexists; reflexivity.
  - unfold hydrate_folder, folder_keys, getitem, py_in. cbn [first_missing].
    read_keys o ["id"].
    destruct (lookup "type" o); cbn [obind];
      read_keys o ["custom"; "default_tag"; "name"];
      destruct (lookup "unread_count" o); cbn [obind]; eexists; reflexivity.
  - unfold hydrate_policy, policy_keys, getitem, py_in. cbn [first_missing].
    read_keys o ["id"; "template_uuid"; "name"; "owner"; "creation_date"].
    destruct (lookup "no_target" o); cbn [obind];
      read_keys o ["visibility"; "shared"; "user_permissions";
                   "last_modification_date"]; eexists; reflexivity.
  - unfold hydrate_user, user_keys, getitem. cbn [first_missing].
    let l := eval unfold user_keys in user_keys in read_keys o l. eexists. reflexivity.
Qed.

(** X18: the optional fields default rather than fail.  A folder record
    with its four required keys hydrates with [type] ["local"] and
    [unread_count] [0] where it lacks them; a template record with
    [more_info] [None]; a policy record with [no_target] [False].  A key
    that is present is taken as it is. *)
Theorem optional_fields_default :
  forall o,
    (first_missing folder_keys o = None ->
     exists f, hydrate_folder (JObj o) = Ret f /\
       folder_type f = get_or o "type" (JStr "local") /\
       folder_unread_count f = get_or o "unread_count" (JInt 0)) /\
    (first_missing template_keys o = None ->
     exists t, hydrate_template (JObj o) = Ret t /\
       template_more_info t = get_or o "more_info" JNull) /\
    (first_missing policy_keys o = None ->
     exists p, hydrate_policy (JObj o) = Ret p /\
       policy_no_target p = get_or o "no_target" (JBool false)).
Proof.
  intro o. unfold get_or. split; [| split].
  - unfold hydrate_folder, folder_keys, getitem, py_in. cbn [first_missing].
    read_keys o ["id"]; [| discriminate].
    read_keys o ["custom"; "default_tag"; "name"]; try discriminate.
    intros _.
    destruct (lookup "type" o); destruct (lookup "unread_count" o);
      cbn [obind]; eexists; repeat split; reflexivity.
  - unfold hydrate_template, template_keys, getitem, py_in. cbn [first_missing].
    read_keys o ["uuid"; "title"; "name"; "desc"; "cloud_only";
                 "subscription_only"]; try discriminate.
    intros _. destruct (lookup "more_info" o); cbn [obind];
      eexists; split; reflexivity.
  - unfold hydrate_policy, policy_keys, getitem, py_in. cbn [first_missing].
    read_keys o ["id"; "template_uuid"; "name"; "owner"; "creation_date";
                 "visibility"; "shared"; "user_permissions";
                 "last_modification_date"]; try discriminate.
    intros _. destruct (lookup "no_target" o); cbn [obind];
      eexists; split; reflexivity.
Qed.

Lemma notifications_loop ns : forall st,
  for_each ns (fun notification =>
      modify (upd_registry (fun r =>
        set_notifications (_notifications r ++ [notification]) r))) st =
  (Ret tt, upd_registry (fun r => set_notifications (_notifications r ++ ns) r) st).
Proof.
  induction ns as [| n ns IH]; intro st; simpl.
  - unfold ret. f_equal. destruct st as [se pr rg w]. unfold upd_registry; simpl.
    rewrite app_nil_r. destruct rg; reflexivity.
  - unfold bind at 1. unfold modify at 1. rewrite IH. f_equal.
    unfold upd_registry; simpl. rewrite <- app_assoc. reflexivity.
Qed.

(** X19: a served [load_properties] on a response with all the keys it
    reads returns [True], stores the ten server properties under the
    attribute each key is mapped to ([server_uuid] goes to [_uuid]),
    replaces the notifications by those of the response and changes no
    other collection.  The version string of the response takes the place
    of a probed version: as long as it is not [None], [server_version]
    returns it from then on without any probe. *)
Theorem load_properties_stores :
  forall st o ns,
    fetched st (JObj o) ->
    first_missing property_keys o = None ->
    py_iter (get_or o "notifications" JNull) = Ret ns ->
    exists st',
      load_properties st = (Ret true, st') /\
      properties st' =
        mkProperties (get_or o "loaded_plugin_set" JNull)
          (get_or o "server_uuid" JNull) (get_or o "expiration" JNull)
          (get_or o "nessus_ui_version" JNull) (get_or o "nessus_type" JNull)
          (get_or o "capabilities" JNull) (get_or o "plugin_set" JNull)
          (get_or o "idle_timeout" JNull) (get_or o "scanner_boottime" JNull)
          (get_or o "server_version" JNull) /\
      registry st' = set_notifications ns (registry st) /\
      (is_None (get_or o "server_version" JNull) = false ->
       server_version st' = (Ret (get_or o "server_version" JNull), st')).
Proof.
  intros st o ns Hf Hkeys Hns. unfold get_or in *.
  unfold property_keys in Hkeys. cbn [first_missing] in Hkeys.
  let l := eval unfold property_keys in property_keys in read_keys o l;
    try discriminate.
  unfold load_properties.
  rewrite (bind_ret_eq _ _ _ _ _ (api_request_yields _ _ _ _ _ Hf)).
  cbn [is_None negb]. unfold assign_property, records.
  run. cbn [getitem obind].
  repeat match goal with
         | H : lookup _ o = Some _ |- _ => rewrite H; clear H
         end.
  cbn [obind]. rewrite Hns.
  match goal with
  | |- context [for_each ?a ?f ?s] =>
      rewrite (notifications_loop a s : for_each a f s = _)
  end.
  cbv beta iota. eexists. split; [reflexivity |].
  split; [reflexivity |].
  split.
  - cbn [upd_properties upd_registry registry]. rewrite registry_exchange.
    destruct (registry st); reflexivity.
  - intro Hv. unfold server_version, server_version_with. run.
    cbn [upd_properties upd_registry properties set_server_version _server_version].
    rewrite Hv. reflexivity.
Qed.

(* ================================================================= *)
(** ** Upload and imports *)






Section UploadProperties.

Variable read_file : string -> option string.

Lemma upload_file_read filename content st :
  read_file filename = Some content ->
  upload_file read_file filename st =
  (raw <-- of_M (_request depth "POST" "/file/upload"
                   (Text (snd (_encode filename content)))
                   (Some (_headers (session (with_content_type multipart st))))) ;;
   response <-- of_M (lift (loads raw)) ;;
   has <-- of_M (lift (py_in "fileuploaded" response)) ;;
   if has then of_M (lift (getitem response "fileuploaded"))
   else uret (JBool false)) (with_content_type multipart st).
Proof. intro H. unfold upload_file. rewrite H. reflexivity. Qed.

Lemma upload_file_state filename content st :
  read_file filename = Some content ->
  snd (upload_file read_file filename st) =
  snd (_request depth "POST" "/file/upload"
         (Text (snd (_encode filename content)))
         (Some (_headers (session (with_content_type multipart st))))
         (with_content_type multipart st)).
Proof.
  intro H. rewrite (upload_file_read _ _ _ H).
  unfold ubind, of_M at 1.
  destruct (_request _ _ _ _ _ _) as [[raw | e] st2]; [| reflexivity].
  unfold of_M, lift, uret. cbn [snd].
  destruct (loads raw) as [response | e]; [| reflexivity].
  destruct (py_in "fileuploaded" response) as [[|] | e]; try reflexivity.
  destruct (getitem response "fileuploaded"); reflexivity.
Qed.

Lemma api_request_state m t p st :
  snd (_api_request m t p st) =
  snd (_request depth m t (JsonDumps (params_or_empty p)) None st).
Proof.
  unfold _api_request, _api_request_with, bind.
  destruct (_request _ _ _ _ _ _) as [[raw | e] st2]; [| reflexivity].
  destruct (negb _); [| reflexivity].
  unfold lift. destruct (loads raw) as [response | e]; [| reflexivity].
  destruct (unwrap response); reflexivity.
Qed.

(** X21: without the file nothing is sent: [upload_file], [import_policy]
    and [import_scan] raise "This file does not exist." and leave the
    client, its headers and its log of requests as they were. *)
Theorem missing_file_sends_nothing filename st :
  read_file filename = None ->
  upload_file read_file filename st = (URaise (Message "This file does not exist."), st) /\
  import_policy read_file filename st = (URaise (Message "This file does not exist."), st) /\
  forall folder_id password,
    import_scan read_file filename folder_id password st =
    (URaise (Message "This file does not exist."), st).
Proof.
  intro H.
  assert (Hu : upload_file read_file filename st =
               (URaise (Message "This file does not exist."), st))
    by (unfold upload_file; rewrite H; reflexivity).
  split; [exact Hu |]. split.
  - unfold import_policy, ubind. rewrite Hu. reflexivity.
  - intros. unfold import_scan, ubind. rewrite Hu. reflexivity.
Qed.

(** X22: [upload_file] writes the multipart content type into the
    session's own headers and nothing puts the former one back: whatever
    the transport does with the upload, the session announces
    multipart/form-data afterwards, every later [_api_request] goes out
    (with its JSON body) under that content type, and leaves it in
    place. *)
Theorem upload_leaves_multipart_content_type filename content st :
  read_file filename = Some content ->
  let st' := snd (upload_file read_file filename st) in
  content_type (_headers (session st')) = multipart /\
  forall m t p,
    (exists h rest,
        requests (wire (snd (_api_request m t p st'))) =
        requests (wire st') ++
          mkRequest m t (JsonDumps (params_or_empty p)) h :: rest /\
        content_type h = multipart) /\
    content_type (_headers (session (snd (_api_request m t p st')))) = multipart.
Proof.
  intros H st'.
  destruct session_kept_steps as [Hr [Ha _]].
  assert (Hc : content_type (_headers (session st')) = multipart).
  { subst st'. rewrite (upload_file_state _ _ _ H).
    destruct (Hr depth "POST" "/file/upload"
                (Text (snd (_encode filename content)))
                (Some (_headers (session (with_content_type multipart st))))
                (with_content_type multipart st)) as [_ [_ [_ [E _]]]].
    rewrite E. reflexivity. }
  split; [exact Hc |]. intros m t p. split.
  - rewrite api_request_state.
    destruct (request_logs_first depth m t (JsonDumps (params_or_empty p)) None st')
      as [rest E].
    exists (_headers (session st')), rest. split; [exact E | exact Hc].
  - destruct (Ha m t p st') as [_ [_ [_ [E _]]]]. rewrite E. exact Hc.
Qed.

(** X23: what [upload_file] returns once the upload is answered with
    status 200.  The body is decoded without a look at its length: a JSON
    object gives its ["fileuploaded"] entry, or [False] when it has none;
    a body that [json.loads] rejects raises [ValueError] and the body
    [null] raises [TypeError].  The one request that went out is the
    [POST /file/upload] with the encoded file as its body, under the
    session headers with the multipart content type. *)
Theorem upload_file_result filename content st raw :
  read_file filename = Some content ->
  served st raw ->
  let st1 := with_content_type multipart st in
  let st2 := exchange "POST" "/file/upload"
               (Text (snd (_encode filename content)))
               (Some (_headers (session st1))) st1 in
  (forall o, json_loads raw = Some (JObj o) ->
     upload_file read_file filename st =
     (URet (get_or o "fileuploaded" (JBool false)), st2)) /\
  (json_loads raw = None ->
     upload_file read_file filename st = (URaise (Exn ValueError), st2)) /\
  (json_loads raw = Some JNull ->
     upload_file read_file filename st = (URaise (Exn TypeError), st2)).
Proof.
  intros H Hs st1 st2.
  assert (Hs1 : served st1 raw) by exact Hs.
  assert (Hu : upload_file read_file filename st =
               (response <-- of_M (lift (loads raw)) ;;
                has <-- of_M (lift (py_in "fileuploaded" response)) ;;
                if has then of_M (lift (getitem response "fileuploaded"))
                else uret (JBool false)) st2).
  { rewrite (upload_file_read _ _ _ H). unfold ubind at 1, of_M at 1.
    fold st1. rewrite (request_served depth _ _ _ _ _ _ Hs1). reflexivity. }
  rewrite Hu. unfold ubind, of_M, lift, uret, loads.
  split; [| split].
  - intros o E. rewrite E. cbn [py_in getitem]. unfold get_or.
    destruct (lookup "fileuploaded" o); reflexivity.
  - intro E. rewrite E. reflexivity.
  - intro E. rewrite E. reflexivity.
Qed.

(** X24: how the imports go on from the result of [upload_file].  On a
    falsy result ([False], an empty string, ...) [import_policy] raises
    "An error occured while uploading <filename>." while [import_scan]
    returns [None]; neither sends anything more.  On a truthy result the
    import is posted with the uploaded name under ["file"], followed for a
    scan by the folder and the password that were given, and the call
    returns [True] exactly when the answer is empty. *)
Theorem imports_after_upload filename st uploaded st1 :
  upload_file read_file filename st = (URet uploaded, st1) ->
  (py_truthy uploaded = false ->
     import_policy read_file filename st =
       (URaise (Message ("An error occured while uploading " ++ filename ++ ".")), st1) /\
     forall folder_id password,
       import_scan read_file filename folder_id password st = (URet JNull, st1)) /\
  (py_truthy uploaded = true ->
     forall response, fetched st1 response ->
       import_policy read_file filename st =
         (URet (is_None response),
          exchange "POST" "/policies/import"
            (JsonDumps (JObj [("file", uploaded)])) None st1) /\
       forall folder_id password,
         import_scan read_file filename folder_id password st =
           (URet (JBool (is_None response)),
            exchange "POST" "/scans/import"
              (JsonDumps (JObj (("file", uploaded) :: given "folder_id" folder_id
                                  ++ given "password" password))) None st1)).
Proof.
  intro Hu. split.
  - intro Hf. split.
    + unfold import_policy, ubind. rewrite Hu, Hf. reflexivity.
    + intros. unfold import_scan, ubind. rewrite Hu, Hf. reflexivity.
  - intros Ht response [body [Hs Hd]]. split.
    + unfold import_policy, ubind. rewrite Hu, Ht. unfold of_M.
      rewrite (api_request_fetched _ _ _ _ _ _ Hs Hd). reflexivity.
    + intros folder_id password. unfold import_scan, ubind.
      rewrite Hu, Ht. unfold of_M.
      rewrite (api_request_fetched _ _ _ _ _ _ Hs Hd). unfold uret, given.
      destruct (is_None folder_id), (is_None password); reflexivity.
Qed.

End UploadProperties.

(* ================================================================= *)
(** ** The status and the getters of the optional collections *)

(** X25: [status], from the answer of the server.  An empty body gives
    ["unknown"]; a JSON object without an ["error"] entry gives its
    ["status"] entry and raises [KeyError] when it has none; an object
    with an ["error"] entry raises [NessusAPIError] with that entry. *)
Theorem status_of_answer st body :
  served st body ->
  let st' := exchange "GET" "/server/status" (JsonDumps (JObj [])) None st in
  (body = "" -> status st = (Ret (JStr "unknown"), st')) /\
  (forall o, body <> "" -> json_loads body = Some (JObj o) ->
     status st =
     (match lookup "error" o, lookup "status" o with
      | Some message, _ => Raise (NessusAPIError message)
      | None, Some v => Ret v
      | None, None => Raise (KeyError "status")
      end, st')).
Proof.
  intros Hs st'. unfold status, bind.
  rewrite (api_request_served "GET" "/server/status" (JStr "") st body Hs).
  change (params_or_empty (JStr "")) with (JObj []). fold st'.
  split.
  - intros ->. reflexivity.
  - intros o Hne E. unfold decode, loads.
    destruct body as [| c body]; [contradiction Hne; reflexivity |].
    cbn [String.length Nat.eqb negb]. rewrite E.
    unfold obind, unwrap. cbn [is_None negb py_in getitem].
    destruct (lookup "error" o) as [message |]; [reflexivity |].
    unfold lift. simpl.
    destruct (lookup "status" o); reflexivity.
Qed.

(** X26: the getters that test [is None].  On a collection that holds a
    list, empty or not, they return it and send nothing.  On [None],
    [agentgroups] raises [AttributeError] (it calls [load_agentgrous], a
    method the class does not have), [agents] returns [None] when no
    scanner is loaded and raises [AttributeError] at the first agent the
    server reports (the loader appends to [None]), while [users] returns
    the users of a served response. *)
Theorem getters_of_optional_collections st :
  ((forall l, _scans (registry st) = Some l -> scans st = (Ret (Some l), st)) /\
   (forall l, _users (registry st) = Some l -> users st = (Ret (Some l), st)) /\
   (forall l, _policies (registry st) = Some l -> policies st = (Ret (Some l), st)) /\
   (forall l, _agents (registry st) = Some l -> agents st = (Ret (Some l), st)) /\
   (forall l, _agentgroups (registry st) = Some l ->
              agentgroups st = (Ret (Some l), st))) /\
  (_agentgroups (registry st) = None ->
     agentgroups st = (Raise AttributeError, st)) /\
  (_agents (registry st) = None -> _scanners (registry st) = [] ->
     agents st = (Ret None, st)) /\
  (forall scanner rest id response a others agent,
     _agents (registry st) = None ->
     _scanners (registry st) = scanner :: rest ->
     fmt_d (scanner_id scanner) = Ret id ->
     fetched st response ->
     present "agents" response = Ret true ->
     records "agents" response = Ret (a :: others) ->
     hydrate_agent scanner a = Ret agent ->
     agents st =
     (Raise AttributeError,
      exchange "GET" ("/scanners/" ++ id ++ "/agents") (JsonDumps (JObj [])) None st)) /\
  (forall response rs us,
     _users (registry st) = None ->
     fetched st response ->
     py_in "users" response = Ret true ->
     records "users" response = Ret rs ->
     map_outcome hydrate_user rs = Ret us ->
     users st =
     (Ret (Some us),
      upd_registry (set_users (Some us))
        (exchange "GET" "/users" (JsonDumps (JObj [])) None st))).
Proof.
  split; [exact (none_guarded_getters st) |].
  split; [| split; [| split]].
  - intro H. unfold agentgroups. run. rewrite H. reflexivity.
  - intros Ha Hs. unfold agents, load_agents. run. rewrite Ha. run.
    rewrite Hs. simpl. rewrite Ha. reflexivity.
  - intros scanner rest id response a others agent Ha Hs Hid Hf Hp Hr Hh.
    unfold agents, load_agents. run. rewrite Ha. run. rewrite Hs.
    cbn [for_each]. run. rewrite Hid. cbn [obind].
    rewrite (api_request_yields _ _ _ _ _ Hf).
    change (params_or_empty JNull) with (JObj []).
    rewrite Hp. rewrite Hr. cbn [for_each]. run. rewrite Hh.
    unfold append_to. rewrite registry_exchange, Ha. reflexivity.
  - intros response rs us Hu Hf Hin Hrec Hmap.
    unfold users, load_users. run. rewrite Hu. run.
    rewrite (api_request_yields _ _ _ _ _ Hf).
    change (params_or_empty JNull) with (JObj []).
    rewrite Hin. rewrite Hrec. run.
    rewrite users_fold, Hmap. reflexivity.
Qed.

(* ================================================================= *)
(** ** The per-scanner loaders, call by call *)

Lemma for_each_app {A} (f : A -> M unit) l1 : forall l2 st,
  for_each (l1 ++ l2) f st =
  match for_each l1 f st with
  | (Ret _, st1) => for_each l2 f st1
  | (Raise e, st1) => (Raise e, st1)
  end.
Proof.
  induction l1 as [| x l1 IH]; intros l2 st; simpl.
  - reflexivity.
  - unfold bind. destruct (f x st) as [[[] | e] st1]; [apply IH | reflexivity].
Qed.

Section PerScanner.

Variable A : Type.
Variable hyd : Scanner -> json -> outcome A.
Variables key suffix : string.
Variable get : Registry -> option (list A).
Variable set : option (list A) -> Registry -> Registry.
Hypothesis get_set : forall v r, get (set v r) = v.
Hypothesis set_set : forall v w r, set v (set w r) = set v r.
Hypothesis set_same : forall r, set (get r) r = r.

Let take (scanner : Scanner) : json -> outcome (list A) :=
  taken (hyd scanner) key.

Let step (scanner : Scanner) : M unit :=
  id <- lift (fmt_d (scanner_id scanner)) ;;
  response <- _api_request "GET" ("/scanners/" ++ id ++ suffix) JNull ;;
  has <- lift (present key response) ;;
  if has then
    rs <- lift (records key response) ;;
    for_each rs (fun a =>
      x <- lift (hyd scanner a) ;;
      append_to get set x)
  else ret tt.

Lemma per_scanner_step scanner st acc xs id body response :
  fmt_d (scanner_id scanner) = Ret id ->
  served st body -> decode body = Ret response ->
  take scanner response = Ret xs ->
  get (registry st) = Some acc ->
  exists st1,
    step scanner st = (Ret tt, st1) /\
    get (registry st1) = Some (acc ++ xs) /\
    wire st1 =
    wire (exchange "GET" ("/scanners/" ++ id ++ suffix)
            (JsonDumps (JObj [])) None st).
Proof.
  intros Hid Hs Hd Hxs Hacc. unfold step.
  unfold bind at 1. unfold lift at 1. rewrite Hid.
  rewrite (bind_ret_eq _ _ _ _ _ (api_request_fetched _ _ _ _ _ _ Hs Hd)).
  unfold take, taken in Hxs. run.
  destruct (present key response) as [[|] | e]; simpl in Hxs;
    [| | discriminate].
  - destruct (records key response) as [rs | e]; simpl in Hxs;
      [| discriminate].
    erewrite (option_loop_ok A (hyd scanner) get set get_set set_set set_same
                rs xs acc);
      [| rewrite registry_exchange; exact Hacc | exact Hxs].
    eexists. split; [reflexivity |]. split; [| reflexivity].
    cbn [upd_registry registry]. apply get_set.
  - inversion Hxs; subst. eexists. split; [reflexivity |].
    split; [rewrite app_nil_r, registry_exchange; exact Hacc | reflexivity].
Qed.

Lemma per_scanner_loop scanners : forall st acc out,
  get (registry st) = Some acc ->
  scanners_served take scanners (on_request (wire st)) (on_getresponse (wire st))
    (length (requests (wire st))) (n_getresponse (wire st)) out ->
  exists st',
    for_each scanners step st = (Ret tt, st') /\
    get (registry st') = Some (acc ++ concat out) /\
    on_request (wire st') = on_request (wire st) /\
    on_getresponse (wire st') = on_getresponse (wire st) /\
    length (requests (wire st')) = length (requests (wire st)) + length scanners /\
    n_getresponse (wire st') = n_getresponse (wire st) + length scanners.
Proof.
  induction scanners as [| scanner scanners IH]; intros st acc out Hacc Hrun.
  - destruct out; [| contradiction]. exists st. simpl.
    rewrite !app_nil_r, !Nat.add_0_r. repeat split. exact Hacc.
  - destruct out as [| xs out]; [contradiction |].
    destruct Hrun as [[id Hid] [Hsent [[body [response [Hrecv [Hd Hxs]]]] Hrun]]].
    destruct (per_scanner_step scanner st acc xs id body response Hid
                (conj Hsent Hrecv) Hd Hxs Hacc) as [st1 [Hstep [Hacc1 Hw]]].
    assert (Hw1 : on_request (wire st1) = on_request (wire st) /\
                  on_getresponse (wire st1) = on_getresponse (wire st) /\
                  length (requests (wire st1)) = S (length (requests (wire st))) /\
                  n_getresponse (wire st1) = S (n_getresponse (wire st))).
    { rewrite Hw, on_request_exchange, on_getresponse_exchange,
        n_getresponse_exchange, requests_exchange, length_app. simpl.
      repeat split. lia. }
    destruct Hw1 as [W1 [W2 [W3 W4]]].
    destruct (IH st1 (acc ++ xs) out Hacc1) as [st' [Hloop [Hfinal [L1 [L2 [L3 L4]]]]]].
    { rewrite W1, W2, W3, W4. exact Hrun. }
    exists st'. split; [| split; [| split; [| split; [| split]]]].
    + cbn [for_each]. rewrite (bind_ret_eq _ _ _ _ _ Hstep). exact Hloop.
    + rewrite Hfinal. simpl. rewrite app_assoc. reflexivity.
    + rewrite L1. exact W1.
    + rewrite L2. exact W2.
    + rewrite L3, W3. simpl. lia.
    + rewrite L4, W4. simpl. lia.
Qed.

Lemma per_scanner_raises scanner st id e :
  fmt_d (scanner_id scanner) = Ret id ->
  call_raises (on_request (wire st)) (on_getresponse (wire st))
    (length (requests (wire st))) (n_getresponse (wire st)) e ->
  step scanner st =
  (Raise e,
   exchange "GET" ("/scanners/" ++ id ++ suffix) (JsonDumps (JObj [])) None st).
Proof.
  intros Hid [Hs [body [Hr Hd]]]. unfold step.
  unfold bind at 1. unfold lift at 1. rewrite Hid.
  apply bind_raise_eq.
  rewrite (api_request_served _ _ _ _ _ (conj Hs Hr)), Hd. reflexivity.
Qed.

(** The calls for the scanners of [before] are served, the call for the
    next scanner raises: the loop raises, and the collection holds what
    the served calls added. *)
Lemma per_scanner_fails before failing after st acc out id e :
  get (registry st) = Some acc ->
  scanners_served take before (on_request (wire st)) (on_getresponse (wire st))
    (length (requests (wire st))) (n_getresponse (wire st)) out ->
  fmt_d (scanner_id failing) = Ret id ->
  call_raises (on_request (wire st)) (on_getresponse (wire st))
    (length (requests (wire st)) + length before)
    (n_getresponse (wire st) + length before) e ->
  exists st',
    for_each (before ++ failing :: after) step st = (Raise e, st') /\
    get (registry st') = Some (acc ++ concat out).
Proof.
  intros Hacc Hrun Hid Hcall.
  destruct (per_scanner_loop before st acc out Hacc Hrun)
    as [st1 [Hloop [Hfinal [L1 [L2 [L3 L4]]]]]].
  rewrite for_each_app, Hloop. cbn [for_each].
  rewrite <- L1, <- L2, <- L3, <- L4 in Hcall.
  eexists. split.
  - apply bind_raise_eq. apply (per_scanner_raises failing st1 id e Hid Hcall).
  - rewrite registry_exchange. exact Hfinal.
Qed.

End PerScanner.

(* ================================================================= *)
(** ** Scans and the users getter *)

Lemma load_users_served st response rs us :
  fetched st response ->
  py_in "users" response = Ret true ->
  records "users" response = Ret rs ->
  map_outcome hydrate_user rs = Ret us ->
  load_users st =
  (Ret true,
   upd_registry (set_users (Some us))
     (exchange "GET" "/users" (JsonDumps (JObj [])) None st)).
Proof.
  intros Hf Hin Hrec Hmap. unfold load_users.
  rewrite (bind_ret_eq _ _ _ _ _ (api_request_yields _ _ _ _ _ Hf)).
  run. rewrite Hin. run. rewrite Hrec. run.
  rewrite users_fold, Hmap. reflexivity.
Qed.

Lemma resolve_owner_unloaded s st b st1 :
  _users (registry st) = None ->
  load_users st = (Ret b, st1) ->
  resolve_owner s st =
  match _users (registry st1) with
  | Some us => (pick_owner us s None, st1)
  | None => (Raise TypeError, st1)
  end.
Proof.
  intros Hnone Hload. unfold resolve_owner, users.
  unfold bind at 1. unfold bind at 1. unfold gets at 1. rewrite Hnone.
  unfold bind at 1. unfold bind at 1. rewrite Hload.
  unfold ret at 1. unfold gets at 1.
  destruct (_users (registry st1)) as [us |].
  - apply for_fold_owner.
  - reflexivity.
Qed.

Lemma hydrate_scan_resolves s st :
  record_has scan_keys s ->
  hydrate_scan s st =
  match resolve_owner s st with
  | (Ret owner, st1) =>
      (status <~ getitem s "status" ;;
       name <~ getitem s "name" ;;
       read <~ getitem s "read" ;;
       last_modification_date <~ getitem s "last_modification_date" ;;
       creation_date <~ getitem s "creation_date" ;;
       user_permissions <~ getitem s "user_permissions" ;;
       shared <~ getitem s "shared" ;;
       id <~ getitem s "id" ;;
       uuid <~ getitem s "uuid" ;;
       folder_id <~ getitem s "folder_id" ;;
       Ret (mkScan status name read last_modification_date creation_date
              user_permissions shared id (set_template_uuid uuid new_Template)
              (set_folder_id folder_id new_Folder) owner), st1)
  | (Raise e, st1) => (Raise e, st1)
  end.
Proof.
  intro Hk. unfold record_has, scan_keys in Hk.
  repeat match goal with
         | H : Forall _ (_ :: _) |- _ => inversion H; subst; clear H
         end.
  repeat match goal with
         | H : exists v, getitem s _ = Ret v |- _ => destruct H
         end.
  unfold hydrate_scan.
  repeat (unfold bind at 1; unfold lift at 1;
          match goal with
          | H : getitem s ?k = Ret _ |- context [getitem s ?k] => rewrite H
          end).
  unfold bind. cbn [obind].
  destruct (resolve_owner s st) as [[owner | e] st1]; reflexivity.
Qed.

Lemma hydrate_scan_keeps_folders s : keeps folders_kept (hydrate_scan s).
Proof.
  assert (Hr : forall st, folders_kept st st) by (intro; split; reflexivity).
  assert (Ht : forall a b c, folders_kept a b -> folders_kept b c -> folders_kept a c).
  { intros a b c [H1 H2] [G1 G2]. split; etransitivity; eassumption. }
  assert (Hb : forall A B (m : M A) (k : A -> M B),
             keeps folders_kept m -> (forall a, keeps folders_kept (k a)) ->
             keeps folders_kept (bind m k))
    by (intros; apply keeps_bind; assumption).
  assert (Hload : keeps folders_kept load_users).
  { unfold load_users. apply Hb.
    { apply keeps__api_request; try assumption; intros; split; reflexivity. }
    intro response. apply Hb; [apply keeps_lift, Hr | intro has].
    apply keeps_if; [| apply keeps_ret, Hr].
    apply Hb; [apply keeps_lift, Hr | intro results].
    apply Hb.
    { apply keeps_for_fold; try assumption. intros us result.
      apply Hb; [apply keeps_lift, Hr | intro]. apply keeps_ret, Hr. }
    intro us. apply Hb; [| intros; apply keeps_ret, Hr].
    apply keeps_modify. intro st. split; reflexivity. }
  unfold hydrate_scan.
  repeat (apply Hb; [apply keeps_lift, Hr | intro]).
  apply Hb; [| intro; apply keeps_ret, Hr].
  unfold resolve_owner. apply Hb.
  - unfold users. apply Hb; [apply keeps_gets, Hr | intro u].
    apply Hb; [| intro; apply keeps_gets, Hr].
    destruct u; [apply keeps_ret, Hr |].
    apply Hb; [exact Hload | intro; apply keeps_ret, Hr].
  - intros [us |]; [| apply keeps_raise, Hr].
    apply keeps_for_fold; try assumption. intros owner user.
    apply Hb; [apply keeps_lift, Hr | intro]. apply keeps_ret, Hr.
Qed.

Lemma hydrate_scan_unloaded s st b st1 us :
  record_has scan_keys s ->
  _users (registry st) = None ->
  load_users st = (Ret b, st1) ->
  _users (registry st1) = Some us ->
  hydrate_scan s st = (hydrate_scan_with us s, st1).
Proof.
  intros Hk Hnone Hload Hus.
  rewrite (hydrate_scan_resolves _ _ Hk),
    (resolve_owner_unloaded _ _ _ _ Hnone Hload), Hus.
  unfold record_has, scan_keys in Hk.
  repeat match goal with
         | H : Forall _ (_ :: _) |- _ => inversion H; subst; clear H
         end.
  repeat match goal with
         | H : exists v, getitem s _ = Ret v |- _ => destruct H
         end.
  unfold hydrate_scan_with.
  repeat match goal with
         | H : getitem s _ = Ret _ |- _ => rewrite H; clear H
         end.
  cbn [obind]. destruct (pick_owner us s None); reflexivity.
Qed.

Lemma resolve_owner_raises s st e st1 :
  _users (registry st) = None ->
  load_users st = (Raise e, st1) ->
  resolve_owner s st = (Raise e, st1).
Proof.
  intros Hnone Hload. unfold resolve_owner, users.
  unfold bind at 1. unfold bind at 1. unfold gets at 1. rewrite Hnone.
  unfold bind at 1. unfold bind at 1. rewrite Hload. reflexivity.
Qed.

(** C6 (as amended): the owner of a scan is resolved against the users
    collection as the [users] getter hands it over while the record is
    hydrated.  With the collection holding a list [us], the hydration of a
    record that has the scan keys and carries [owner_id] returns, sends
    nothing, and sets [scan.owner] exactly when [us] holds a user whose id
    equals that [owner_id], to such a user of [us]; on the empty list the
    constructor leaves (users never loaded) [scan.owner] stays unset and
    nothing is raised, neither for one record nor for the whole
    [load_scans].  With the collection [None], the getter loads the users
    in the middle of the hydration: when that load is served with users
    [us], they are stored and [scan.owner] is resolved against them,
    though no load of the users came before; when the response has no
    [users] entry the collection stays [None] and the hydration raises
    [TypeError]. *)
Theorem scan_owner_follows_loaded_users :
  (forall st us,
     _users (registry st) = Some us ->
     (forall s oid,
        record_has scan_keys s ->
        getitem s "owner_id" = Ret oid ->
        exists scan,
          hydrate_scan s st = (Ret scan, st) /\
          (forall u, scan_owner scan = Some u ->
                     In u us /\ py_eq (user_id u) oid = true) /\
          ((exists u, In u us /\ py_eq (user_id u) oid = true) <->
           scan_owner scan <> None)) /\
     (us = [] ->
      (forall s, record_has scan_keys s ->
         exists scan, hydrate_scan s st = (Ret scan, st) /\ scan_owner scan = None) /\
      (forall body response ss,
         served st body -> decode body = Ret response ->
         present "scans" response = Ret true ->
         records "scans" response = Ret ss ->
         Forall (record_has scan_keys) ss ->
         exists st' scans,
           load_scans st = (Ret true, st') /\
           _scans (registry st') = Some scans /\
           length scans = length ss /\
           Forall (fun scan => scan_owner scan = None) scans))) /\
  (forall st s oid response rs us,
     _users (registry st) = None ->
     record_has scan_keys s ->
     getitem s "owner_id" = Ret oid ->
     fetched st response ->
     py_in "users" response = Ret true ->
     records "users" response = Ret rs ->
     map_outcome hydrate_user rs = Ret us ->
     exists scan,
       hydrate_scan s st =
         (Ret scan,
          upd_registry (set_users (Some us))
            (exchange "GET" "/users" (JsonDumps (JObj [])) None st)) /\
       (forall u, scan_owner scan = Some u ->
                  In u us /\ py_eq (user_id u) oid = true) /\
       ((exists u, In u us /\ py_eq (user_id u) oid = true) <->
        scan_owner scan <> None)) /\
  (forall st s o,
     _users (registry st) = None ->
     record_has scan_keys s ->
     fetched st (JObj o) ->
     lookup "users" o = None ->
     hydrate_scan s st =
       (Raise TypeError,
        exchange "GET" "/users" (JsonDumps (JObj [])) None st)).
Proof.
  assert (Howner : forall us s oid scan,
            getitem s "owner_id" = Ret oid ->
            scan_owner scan = last_match oid us None ->
            (forall u, scan_owner scan = Some u ->
                       In u us /\ py_eq (user_id u) oid = true) /\
            ((exists u, In u us /\ py_eq (user_id u) oid = true) <->
             scan_owner scan <> None)).
  { intros us s oid scan Hoid Ho. split.
    - intros u Hsome. rewrite Ho in Hsome.
      destruct (last_match_sound _ _ _ _ Hsome) as [H | H];
        [exact H | discriminate].
    - rewrite Ho. split.
      + apply last_match_complete.
      + intro Hne. destruct (last_match oid us None) as [u |] eqn:E;
          [| contradiction].
        destruct (last_match_sound _ _ _ _ E) as [H | H]; [| discriminate].
        exists u. exact H. }
  split; [| split].
  - intros st us Hu. split.
    + intros s oid Hk Hoid.
      destruct (hydrate_scan_with_total us s _ Hk
                  (pick_owner_last_match s oid us None Hoid)) as [scan [Hs Ho]].
      exists scan. rewrite (hydrate_scan_loaded _ _ _ Hu), Hs.
      split; [reflexivity |]. apply (Howner us s oid scan Hoid Ho).
    + intros ->. split.
      * intros s Hk.
        destruct (hydrate_scan_with_total [] s None Hk eq_refl) as [scan [Hs Ho]].
        exists scan. rewrite (hydrate_scan_loaded _ _ _ Hu), Hs.
        split; [reflexivity | exact Ho].
      * intros body response ss Hs Hd Hp Hr Hall.
        assert (Hmap : exists scans,
                   map_outcome (hydrate_scan_with []) ss = Ret scans /\
                   length scans = length ss /\
                   Forall (fun scan => scan_owner scan = None) scans).
        { clear Hr. induction Hall as [| s ss Hk _ IH].
          - exists []. repeat split. constructor.
          - destruct IH as [scans [Hm [Hl Hf]]].
            destruct (hydrate_scan_with_total [] s None Hk eq_refl)
              as [scan [Hsc Ho]].
            exists (scan :: scans). simpl. rewrite Hsc, Hm. simpl.
            repeat split; [lia | constructor; assumption]. }
        destruct Hmap as [scans [Hm [Hl Hf]]].
        eexists. exists scans.
        rewrite (load_scans_replaces _ _ _ _ _ _ Hs Hd Hp Hr Hu Hm).
        repeat split; assumption.
  - intros st s oid response rs us Hnone Hk Hoid Hf Hin Hrec Hmap.
    destruct (hydrate_scan_with_total us s _ Hk
                (pick_owner_last_match s oid us None Hoid)) as [scan [Hs Ho]].
    exists scan.
    rewrite (hydrate_scan_unloaded s st true _ us Hk Hnone
               (load_users_served _ _ _ _ Hf Hin Hrec Hmap) eq_refl), Hs.
    split; [reflexivity |]. apply (Howner us s oid scan Hoid Ho).
  - intros st s o Hnone Hk Hf Hl.
    assert (Hload : load_users st =
                    (Ret false,
                     exchange "GET" "/users" (JsonDumps (JObj [])) None st)).
    { unfold load_users.
      rewrite (bind_ret_eq _ _ _ _ _ (api_request_yields _ _ _ _ _ Hf)).
      run. cbn [py_in]. rewrite Hl. reflexivity. }
    rewrite (hydrate_scan_resolves _ _ Hk),
      (resolve_owner_unloaded _ _ _ _ Hnone Hload).
    rewrite registry_exchange, Hnone. reflexivity.
Qed.

(** C5 (as amended): of the reference fields set while a scan is
    hydrated, [scan.owner] alone is resolved against the Registry: when
    set, it is a user of the users collection as it stands at that moment,
    with the id the record names.  [scan.folder] and [scan.template] are
    not looked up: they are always set, to a newly made [Folder()] and
    [Template()] that carry the record's [folder_id] and [uuid], and the
    hydration leaves the folders and the templates of the Registry as
    they were; whenever these hold no folder with that id, or no template
    with that uuid, the reference is to an instance the Registry does not
    hold.  An agent's [scanner_id] is the id of the scanner whose agents
    are being fetched. *)
Theorem references_set_by_hydration :
  (forall s st scan st',
     hydrate_scan s st = (Ret scan, st') ->
     (forall u, scan_owner scan = Some u ->
        exists us oid,
          _users (registry st') = Some us /\ In u us /\
          getitem s "owner_id" = Ret oid /\ py_eq (user_id u) oid = true) /\
     (exists fid,
        getitem s "folder_id" = Ret fid /\
        scan_folder scan = set_folder_id fid new_Folder /\
        ((forall f, In f (_folders (registry st')) -> folder_id f <> fid) ->
         ~ In (scan_folder scan) (_folders (registry st')))) /\
     (exists uuid,
        getitem s "uuid" = Ret uuid /\
        scan_template scan = set_template_uuid uuid new_Template /\
        ((forall t, In t (_templates (registry st')) -> template_uuid t <> uuid) ->
         ~ In (scan_template scan) (_templates (registry st')))) /\
     _folders (registry st') = _folders (registry st) /\
     _templates (registry st') = _templates (registry st)) /\
  (forall scanner a agent,
     hydrate_agent scanner a = Ret agent ->
     agent_scanner_id agent = scanner_id scanner).
Proof.
  split.
  - intros s st scan st' H0.
    pose proof (hydrate_scan_keeps_folders s st) as Hkept.
    rewrite H0 in Hkept. destruct Hkept as [Hfo Hte]. cbn [snd] in Hfo, Hte.
    revert H0. unfold hydrate_scan.
    repeat (unfold bind at 1; unfold lift at 1;
            match goal with
            | |- context [getitem s ?k] =>
                destruct (getitem s k) eqn:?; [| discriminate]
            end).
    unfold bind.
    destruct (resolve_owner s st) as [[owner | e] st1] eqn:E; [| discriminate].
    unfold ret. intro H. inversion H; subst. simpl.
    apply resolve_owner_result in E. destruct E as [us [Hus Hpick]].
    split; [| split; [| split; [| split]]].
    + intros u ->.
      destruct (pick_owner_sound _ _ _ _ Hpick) as [[oid [Hoid [Hin Heq]]] | Hn];
        [| discriminate].
      exists us, oid. repeat split; assumption.
    + eexists. split; [reflexivity |]. split; [reflexivity |].
      intros Hno Hin. apply (Hno _ Hin). reflexivity.
    + eexists. split; [reflexivity |]. split; [reflexivity |].
      intros Hno Hin. apply (Hno _ Hin). reflexivity.
    + exact Hfo.
    + exact Hte.
  - intros scanner a agent. unfold hydrate_agent.
    repeat match goal with
           | |- context [getitem a ?k] =>
               destruct (getitem a k); simpl obind; [| discriminate]
           end.
    intro H. inversion H. reflexivity.
Qed.

(** C7 (as amended): when the call with which a loader fetches its
    collection in one go (properties, templates, scanners, scans, folders,
    policies, users) raises, be it [NessusAPIError] or anything else, the
    loader raises the same exception and every collection of the Registry
    is as before.  When [load_agents] or [load_agentgroups] has its call
    served for the scanners of [before] and the call for the next scanner
    raises, the loader raises that exception, its own collection holds
    what it held plus the records of the served calls, and every other
    collection is as before; whatever happens, the two change no
    collection but their own.  An error of the users load that the
    [users] getter starts inside [load_scans] (users set to [None])
    arrives after the scans were emptied. *)
Theorem failed_fetch_leaves_registry :
  (forall k st e st',
     _api_request "GET" (fst (endpoint k)) (snd (endpoint k)) st = (Raise e, st') ->
     loader k st = (Raise e, st') /\ registry st' = registry st) /\
  (forall st before failing after acc out id e,
     _scanners (registry st) = before ++ failing :: after ->
     _agents (registry st) = Some acc ->
     scanners_served agents_of before (on_request (wire st))
       (on_getresponse (wire st)) (length (requests (wire st)))
       (n_getresponse (wire st)) out ->
     fmt_d (scanner_id failing) = Ret id ->
     call_raises (on_request (wire st)) (on_getresponse (wire st))
       (length (requests (wire st)) + length before)
       (n_getresponse (wire st) + length before) e ->
     fst (load_agents st) = Raise e /\
     registry (snd (load_agents st)) =
       set_agents (Some (acc ++ concat out)) (registry st)) /\
  (forall st before failing after acc out id e,
     _scanners (registry st) = before ++ failing :: after ->
     _agentgroups (registry st) = Some acc ->
     scanners_served groups_of before (on_request (wire st))
       (on_getresponse (wire st)) (length (requests (wire st)))
       (n_getresponse (wire st)) out ->
     fmt_d (scanner_id failing) = Ret id ->
     call_raises (on_request (wire st)) (on_getresponse (wire st))
       (length (requests (wire st)) + length before)
       (n_getresponse (wire st) + length before) e ->
     fst (load_agentgroups st) = Raise e /\
     registry (snd (load_agentgroups st)) =
       set_agentgroups (Some (acc ++ concat out)) (registry st)) /\
  (forall st,
     (exists a, registry (snd (load_agents st)) = set_agents a (registry st)) /\
     (exists g, registry (snd (load_agentgroups st)) =
                set_agentgroups g (registry st))) /\
  (forall st body response s ss e st2,
     served st body -> decode body = Ret response ->
     present "scans" response = Ret true ->
     records "scans" response = Ret (s :: ss) ->
     record_has scan_keys s ->
     _users (registry st) = None ->
     _api_request "GET" "/users" JNull
       (upd_registry (set_scans (Some []))
          (exchange "GET" "/scans" (JsonDumps (JObj [])) None st)) = (Raise e, st2) ->
     load_scans st = (Raise e, st2) /\
     registry st2 = set_scans (Some []) (registry st)).
Proof.
  split; [| split; [| split; [| split]]].
  - intros k st e st' H. split.
    + destruct k; simpl in *;
        [unfold load_properties | unfold load_templates | unfold load_scanners
        | unfold load_scans | unfold load_folders | unfold load_policies
        | unfold load_users];
        apply (bind_raise_eq _ _ _ _ _ H).
    + pose proof (api_request_same_registry "GET" (fst (endpoint k))
                    (snd (endpoint k)) st) as Hr.
      rewrite H in Hr. exact Hr.
  - intros st before failing after acc out id e Hsc Hacc Hrun Hid Hcall.
    destruct (per_scanner_fails Agent hydrate_agent "agents" "/agents"
                _agents set_agents
                (fun v r => eq_refl) (fun v w r => eq_refl)
                (fun r => match r with
                          | mkRegistry _ _ _ _ _ _ _ _ _ _ _ => eq_refl
                          end)
                before failing after st acc out id e Hacc Hrun Hid Hcall)
      as [st' [Hloop Hfinal]].
    assert (Hload : load_agents st = (Raise e, st')).
    { unfold load_agents. unfold bind at 1. unfold gets at 1. rewrite Hsc.
      exact (bind_raise_eq _ _ _ _ _ Hloop). }
    destruct (load_agents_agents_only st) as [a Ha].
    rewrite Hload in *. cbn [fst snd] in *. split; [reflexivity |].
    rewrite Ha in Hfinal. cbn [_agents set_agents] in Hfinal.
    rewrite Ha, Hfinal. reflexivity.
  - intros st before failing after acc out id e Hsc Hacc Hrun Hid Hcall.
    destruct (per_scanner_fails AgentGroup (fun _ => hydrate_agentgroup)
                "groups" "/agent-groups" _agentgroups set_agentgroups
                (fun v r => eq_refl) (fun v w r => eq_refl)
                (fun r => match r with
                          | mkRegistry _ _ _ _ _ _ _ _ _ _ _ => eq_refl
                          end)
                before failing after st acc out id e Hacc Hrun Hid Hcall)
      as [st' [Hloop Hfinal]].
    assert (Hload : load_agentgroups st = (Raise e, st')).
    { unfold load_agentgroups. unfold bind at 1. unfold gets at 1. rewrite Hsc.
      exact (bind_raise_eq _ _ _ _ _ Hloop). }
    destruct (load_agentgroups_agentgroups_only st) as [g Hg].
    rewrite Hload in *. cbn [fst snd] in *. split; [reflexivity |].
    rewrite Hg in Hfinal. cbn [_agentgroups set_agentgroups] in Hfinal.
    rewrite Hg, Hfinal. reflexivity.
  - intro st. split;
      [apply load_agents_agents_only | apply load_agentgroups_agentgroups_only].
  - intros st body response s ss e st2 Hs Hd Hp Hrec Hk Hnone Hcall.
    assert (Hload : load_users
                      (upd_registry (set_scans (Some []))
                         (exchange "GET" "/scans" (JsonDumps (JObj [])) None st)) =
                    (Raise e, st2))
      by (unfold load_users; apply (bind_raise_eq _ _ _ _ _ Hcall)).
    split.
    + unfold load_scans.
      rewrite (bind_ret_eq _ _ _ _ _ (api_request_fetched _ _ _ _ _ _ Hs Hd)).
      change (params_or_empty (JStr "")) with (JObj []).
      run. rewrite Hp. run. rewrite Hrec. cbn [for_each]. run.
      rewrite (hydrate_scan_resolves _ _ Hk).
      assert (Hn1 : _users (registry
                  (upd_registry (set_scans (Some []))
                     (exchange "GET" "/scans" (JsonDumps (JObj [])) None st))) = None)
        by (cbn [upd_registry registry set_scans _users];
            rewrite registry_exchange; exact Hnone).
      rewrite (resolve_owner_raises _ _ _ _ Hn1 Hload).
      reflexivity.
    + pose proof (api_request_same_registry "GET" "/users" JNull
                    (upd_registry (set_scans (Some []))
                       (exchange "GET" "/scans" (JsonDumps (JObj [])) None st)))
        as Hr.
      rewrite Hcall in Hr. unfold same_registry in Hr. cbn [snd] in Hr.
      rewrite Hr. cbn [upd_registry registry]. rewrite registry_exchange.
      reflexivity.
Qed.

End Client.

(* ================================================================= *)
(** ** Examples on concrete servers *)

(** C8, counterexample: the body [["error"]] is not empty and parses to a
    list without any field, yet [_api_request] does not return it: the
    membership test holds on the list and the subscript raises
    [TypeError]. *)
Lemma api_envelope_array_counterexample :
  json_text error_array <> "" /\
  loads_of [error_array] (json_text error_array) = Some error_array /\
  fst (_api_request (loads_of [error_array]) 0 "GET" "/scans" (JStr "")
         (a_server always_sent [json_text error_array])) = Raise TypeError.
Proof.
  split; [discriminate |]. split; reflexivity.
Qed.

(** C8, witness: the body [{"error": "invalid token"}]. *)
Lemma api_envelope_on_objects_witness :
  _api_request (loads_of [invalid_token]) 0 "GET" "/scans" (JStr "")
    (a_server always_sent [json_text invalid_token]) =
  (Raise (NessusAPIError (JStr "invalid token")),
   exchange "GET" "/scans" (JsonDumps (JObj [])) None
     (a_server always_sent [json_text invalid_token])).
Proof.
  destruct (api_envelope_on_objects (loads_of [invalid_token]) 0
              "GET" "/scans" (JStr "") (a_server always_sent [json_text invalid_token])
              (json_text invalid_token)
              (exchange "GET" "/scans" (JsonDumps (JObj [])) None
                 (a_server always_sent [json_text invalid_token]))
              eq_refl) as [_ [_ H]].
  destruct (H [("error", JStr "invalid token")]) as [H1 _].
  - discriminate.
  - reflexivity.
  - apply H1. reflexivity.
Defined.

(** C2, counterexample: the transport refuses the first two attempts of
    [GET /scans] as stale.  The second condition does not reach the caller:
    the client logs in a second time, sends the request a third time, and
    the call returns a body. *)
Lemma second_stale_condition_counterexample :
  let r := _request (loads_of [token_abc; no_scans]) 2
             "GET" "/scans" (Text "") None twice_stale in
  on_request (wire twice_stale) 0 = CannotSendRequest /\
  on_request (wire twice_stale) 2 = CannotSendRequest /\
  map rq_line (requests (wire (snd r))) =
    [("GET", "/scans"); ("POST", "/session");
     ("GET", "/scans"); ("POST", "/session");
     ("GET", "/scans")] /\
  fst r = Ret (json_text no_scans).
Proof.
  repeat split; reflexivity.
Qed.

(** C2, witness: two stale conditions in a row, depth 2. *)
Lemma every_stale_condition_is_retried_witness :
  map rq_sent
    (requests (wire (snd (_request (loads_of [token_abc; no_scans]) 2
                            "GET" "/scans" (Text "") None twice_stale)))) =
  map rq_sent (requests (wire twice_stale)) ++
  attempts 2 ("GET", "/scans", Text "") ("POST", "/session", credentials alice).
Proof.
  apply (every_stale_condition_is_retried (loads_of [token_abc; no_scans])
           2 2 "GET" "/scans" (Text "") None twice_stale alice).
  - lia.
  - reflexivity.
  - reflexivity.
  - simpl. repeat split; try reflexivity.
    + exists (json_text token_abc), (JStr "abc"). split; [reflexivity |].
      split; [discriminate |].
      exists [("token", JStr "abc")]. repeat split; reflexivity.
    + exists (json_text token_abc), (JStr "abc"). split; [reflexivity |].
      split; [discriminate |].
      exists [("token", JStr "abc")]. repeat split; reflexivity.
Defined.

(** C3, counterexample: after a login and a logout the token is still in
    the session headers, and the next call goes out with it and is
    answered; nothing fails with a not-authenticated error. *)
Lemma logout_counterexample :
  let js := loads_of [token_abc; no_scans] in
  let st1 := snd (login js 0 (Some alice) nessus6_server) in
  let st2 := snd (logout js 0 st1) in
  let st3 := snd (_api_request js 0 "GET" "/scans" (JStr "") st2) in
  fst (login js 0 (Some alice) nessus6_server) = Ret true /\
  fst (logout js 0 st1) = Ret true /\
  x_cookie (_headers (session st2)) = Some (JStr "abc") /\
  option_map user_token (_user (session st2)) = Some (JStr "abc") /\
  fst (_api_request js 0 "GET" "/scans" (JStr "") st2) = Ret no_scans /\
  map (fun rq => (rq_method rq, rq_target rq, x_cookie (rq_headers rq)))
    (requests (wire st3)) =
  [("GET", "/nessus6.html", None);
   ("POST", "/session", None);
   ("DELETE", "/session", Some (JStr "abc"));
   ("GET", "/scans", Some (JStr "abc"))].
Proof.
  repeat split; reflexivity.
Qed.

(** C3, witness: the logout of the session above. *)
Lemma logout_keeps_token_witness :
  let js := loads_of [token_abc; no_scans] in
  let st1 := snd (login js 0 (Some alice) nessus6_server) in
  logout js 0 st1 =
    (Ret true, exchange "DELETE" "/session" EmptyList None st1) /\
  _headers (session (exchange "DELETE" "/session" EmptyList None st1)) =
    _headers (session st1).
Proof.
  intros js st1.
  assert (H : served st1 "") by (split; reflexivity).
  destruct (logout_keeps_token js 0 st1 "" H) as [H1 [_ [H3 _]]].
  split; [exact H1 | exact H3].
Defined.

(** C9, counterexample: a server that answers every request with status
    404 does not identify as a 6.x server, and [login] does not fail with
    the unsupported-version error: it raises the exception that carries
    the body of the response.  A server that reported the version 60.1 is
    not turned away at all: the credentials are posted and the login
    succeeds. *)
Lemma probe_refused_counterexample :
  let js := loads_of [token_abc] in
  let r := login js 0 (Some alice) not_found_server in
  let r60 := login js 0 (Some alice) nessus60_server in
  fst r = Raise (HTTPStatusError "Not Found") /\
  fst r <> Raise UnsupportedVersion /\
  map rq_line (requests (wire (snd r))) = [("GET", "/nessus6.html")] /\
  _server_version (properties nessus60_server) = JStr "60.1" /\
  fst r60 = Ret true /\
  map rq_line (requests (wire (snd r60))) = [("POST", "/session")].
Proof.
  repeat split; try reflexivity. discriminate.
Qed.

(** C9, witness: a server whose [/nessus6.html] reads 404 is taken for a
    5.x server and [login] raises after the two probes; a stored version
    60.1 lets the credentials through; a probe answered with status 404
    makes [login] raise with the body of the response. *)
Lemma login_checks_version_first_witness :
  (exists st',
     login (loads_of [token_abc]) 0 (Some alice) nessus5_server =
       (Raise UnsupportedVersion, st') /\
     requests (wire st') =
       requests (wire nessus5_server) ++
       [mkRequest "GET" "/nessus6.html" (Text "")
          (_headers (session nessus5_server));
        mkRequest "GET" "/html5.html" (Text "")
          (_headers (session nessus5_server))]) /\
  (exists rest,
     requests (wire (snd (login (loads_of [token_abc]) 0 (Some alice)
                            nessus60_server))) =
     mkRequest "POST" "/session" (credentials alice)
       (_headers (session nessus60_server)) :: rest) /\
  login (loads_of [token_abc]) 0 (Some alice) not_found_server =
    (Raise (HTTPStatusError "Not Found"),
     exchange "GET" "/nessus6.html" (Text "") None not_found_server).
Proof.
  destruct (login_checks_version_first (loads_of [token_abc]) 0)
    as [_ [_ [H3 [_ [_ [H6 H7]]]]]].
  split; [| split].
  - apply (H3 (Some alice) nessus5_server
             "<h1>404 File not found</h1>" "<html>Nessus 5</html>").
    + reflexivity.
    + split; reflexivity.
    + reflexivity.
    + split; reflexivity.
  - apply (H6 alice nessus60_server (JStr "60.1") nessus60_server (JStr "6"));
      reflexivity.
  - apply (H7 (Some alice) not_found_server 404%Z "Not Found");
      [reflexivity | reflexivity | reflexivity | discriminate].
Defined.

(** C1, the failing input: [load_scanners] run twice, on a response with
    scanner 1 and then on a response with scanner 2.  Both loads return
    [True], and the collection holds both scanners, not the hydrated form
    of the second response alone. *)
Theorem load_scanners_twice_accumulates :
  let js := loads_of [scanners_payload [scanner_record 1 "local"];
                      scanners_payload [scanner_record 2 "remote"]] in
  let st1 := snd (load_scanners js 0 two_scanner_lists) in
  let st2 := snd (load_scanners js 0 st1) in
  fst (load_scanners js 0 two_scanner_lists) = Ret true /\
  fst (load_scanners js 0 st1) = Ret true /\
  map scanner_id (_scanners (registry st1)) = [JInt 1] /\
  map scanner_id (_scanners (registry st2)) = [JInt 1; JInt 2] /\
  option_map (map scanner_id)
    (match map_outcome hydrate_scanner [scanner_record 2 "remote"] with
     | Ret l => Some l
     | Raise _ => None
     end) = Some [JInt 2].
Proof.
  repeat split; reflexivity.
Qed.

(** The sibling path: [load_scans] run twice keeps the second response
    only. *)
Lemma load_scans_twice_replaces :
  let js := loads_of [scans_payload [scan_record 5 3 7];
                      scans_payload [scan_record 6 3 7]] in
  let load_scans' := load_scans js 0 blank_template blank_folder blank_user in
  let st1 := snd (load_scans' two_scan_lists) in
  let st2 := snd (load_scans' st1) in
  fst (load_scans' two_scan_lists) = Ret true /\
  fst (load_scans' st1) = Ret true /\
  option_map (map scan_id) (_scans (registry st1)) = Some [JInt 5] /\
  option_map (map scan_id) (_scans (registry st2)) = Some [JInt 6].
Proof.
  repeat split; reflexivity.
Qed.

(** C4, counterexample: a load of the scanners that succeeds with an empty
    list, then a read of the [scanners] property: the getter fetches the
    collection again. *)
Lemma empty_scanners_counterexample :
  let js := loads_of [scanners_payload []] in
  let st1 := snd (load_scanners js 0 no_scanners_server) in
  fst (load_scanners js 0 no_scanners_server) = Ret true /\
  map rq_line (requests (wire st1)) = [("GET", "/scanners")] /\
  fst (scanners js 0 st1) = Ret [] /\
  map rq_line (requests (wire (snd (scanners js 0 st1)))) =
    [("GET", "/scanners"); ("GET", "/scanners")].
Proof.
  repeat split; reflexivity.
Qed.

(** C4, witness: the getter on a client whose scanners are loaded, and on
    the client of the counterexample. *)
Lemma getters_fetch_when_empty_witness :
  let js := loads_of [scanners_payload [scanner_record 1 "local"];
                      scanners_payload []] in
  let st1 := snd (load_scanners js 0 two_scanner_lists) in
  let st0 := snd (load_scanners js 0 no_scanners_server) in
  scanners js 0 st1 = (Ret (_scanners (registry st1)), st1) /\
  exists rest,
    requests (wire (snd (scanners js 0 st0))) =
    (requests (wire st0) ++
     [mkRequest "GET" "/scanners" (JsonDumps (JObj [])) (_headers (session st0))])
    ++ rest.
Proof.
  intros js st1 st0.
  destruct (getters_fetch_when_empty js 0) as [H1 [H2 _]].
  split.
  - apply H1. discriminate.
  - apply H2. reflexivity.
Defined.

(** C5, counterexample: a scan is loaded into a Registry that holds no
    folder and no template; its [folder] and [template] are set all the
    same, to instances the Registry does not hold. *)
Lemma scan_folder_counterexample :
  let js := loads_of [scans_payload [scan_record 5 3 7]] in
  let st1 := snd (load_scans js 0 blank_template blank_folder blank_user
                    two_scan_lists) in
  fst (load_scans js 0 blank_template blank_folder blank_user two_scan_lists)
    = Ret true /\
  _folders (registry st1) = [] /\
  _templates (registry st1) = [] /\
  exists scan,
    _scans (registry st1) = Some [scan] /\
    scan_folder scan = set_folder_id (JInt 3) blank_folder /\
    scan_template scan = set_template_uuid (JStr "template-1") blank_template /\
    ~ In (scan_folder scan) (_folders (registry st1)) /\
    ~ In (scan_template scan) (_templates (registry st1)).
Proof.
  repeat split; try reflexivity.
  eexists. repeat split; try reflexivity; intros [].
Qed.

Lemma scan_record_has_keys id folder_id owner_id :
  record_has scan_keys (scan_record id folder_id owner_id).
Proof.
  unfold record_has, scan_keys. repeat constructor; eexists; reflexivity.
Defined.

(** C7, counterexample: [load_agents] over two scanners.  The call for the
    second scanner is answered with [{"error": "invalid token"}]: the load
    raises [NessusAPIError], and the agent of the first scanner is in the
    collection, which was empty before. *)
Lemma load_agents_counterexample :
  let js := loads_of [scanners_payload [scanner_record 1 "local";
                                        scanner_record 2 "remote"];
                      agents_payload [agent_record 10 "agent-10"];
                      invalid_token] in
  let st1 := snd (load_scanners js 0 agents_fail_on_second) in
  let r := load_agents js 0 st1 in
  _agents (registry st1) = Some [] /\
  fst r = Raise (NessusAPIError (JStr "invalid token")) /\
  option_map (map agent_id) (_agents (registry (snd r))) = Some [JInt 10] /\
  map rq_line (requests (wire (snd r))) =
    [("GET", "/scanners"); ("GET", "/scanners/1/agents");
     ("GET", "/scanners/2/agents")].
Proof.
  repeat split; reflexivity.
Qed.

(** C10, witness: the properties, the mail and proxy settings and the
    scanners load; the call for the agents is answered with an error.
    [load] raises that error and the scanner loaded before is still
    there. *)
Lemma load_runs_in_order_witness :
  let js := loads_of [properties_payload;
                      scanners_payload [scanner_record 1 "local"];
                      invalid_token] in
  let r := load js 0 blank_template blank_folder blank_user [] []
             (ret true) (ret true) agents_fail_in_load in
  fst r = Raise (NessusAPIError (JStr "invalid token")) /\
  map scanner_id (_scanners (registry (snd r))) = [JInt 1].
Proof.
  intros js r.
  destruct (load_runs_in_order js 0 blank_template blank_folder blank_user [] []
              (ret true) (ret true)) as [_ [_ H]].
  set (pre := [load_properties js 0; load_mail [] (ret true);
               load_proxy [] (ret true); load_scanners js 0]).
  set (s_k := snd (run_loads pre true agents_fail_in_load)).
  assert (Hpre : run_loads pre true agents_fail_in_load = (Ret true, s_k))
    by (vm_compute; reflexivity).
  assert (Hf : load_agents js 0 s_k =
               (Raise (NessusAPIError (JStr "invalid token")),
                snd (load_agents js 0 s_k)))
    by (vm_compute; reflexivity).
  destruct (H pre (load_agents js 0)
              [load_agentgroups js 0; load_policies js 0;
               load_scans js 0 blank_template blank_folder blank_user;
               load_folders js 0; load_templates js 0; load_users js 0 blank_user]
              agents_fail_in_load true s_k eq_refl Hpre) as [Hraise _].
  specialize (Hraise _ _ Hf).
  subst r. rewrite Hraise. split; [reflexivity | vm_compute; reflexivity].
Defined.

(** X4, witness: a client built with [verify=False], after a stale
    connection and on its first request. *)
Lemma recovery_forgets_unverified_context_witness :
  let js := loads_of [token_abc; no_scans] in
  let p := JsonDumps (JObj []) in
  _connection (session (snd (_request js 1 "GET" "/scans" p None
     (unverified_client (sends [CannotSendRequest])
        [json_text token_abc; json_text no_scans])))) =
    Some (HTTPSConnection "nessus.example.org" 8834 false) /\
  _connection (session (snd (_request js 1 "GET" "/scans" p None
     (unverified_client always_sent [json_text no_scans])))) =
    Some (HTTPSConnection "nessus.example.org" 8834 true).
Proof.
  intros js p. split.
  - destruct (recovery_forgets_unverified_context js 1 "GET" "/scans" p None
                (unverified_client (sends [CannotSendRequest])
                   [json_text token_abc; json_text no_scans])) as [H _].
    apply H. reflexivity.
  - destruct (recovery_forgets_unverified_context js 1 "GET" "/scans" p None
                (unverified_client always_sent [json_text no_scans])) as [_ H].
    apply H; reflexivity.
Defined.

(** X5, witness: a port where nothing listens, and a server that answers 404. *)
Lemma request_failures_witness :
  let js := loads_of [no_scans] in
  let p := JsonDumps (JObj []) in
  (exists st',
     _request js 0 "GET" "/scans" p None refusing_server =
       (Raise (CannotConnect "nessus.example.org" 8834), st') /\
     n_getresponse (wire st') = 0) /\
  _request js 0 "GET" "/scans" p None not_found_server =
    (Raise (HTTPStatusError "Not Found"),
     exchange "GET" "/scans" p None not_found_server).
Proof.
  intros js p.
  destruct (request_failures js 0 "GET" "/scans" p None refusing_server)
    as [H _].
  destruct (request_failures js 0 "GET" "/scans" p None not_found_server)
    as [_ G].
  split.
  - destruct (H ECONNREFUSED eq_refl) as [H1 H2].
    eexists. split; [exact H1 | exact H2].
  - apply (G 404%Z "Not Found"); [reflexivity | reflexivity | discriminate].
Defined.

(** X6, witness: two levels of recovery against a transport that is stale for ever. *)
Lemma always_stale_exhausts_recursion_witness :
  let js := loads_of [no_scans] in
  let p := JsonDumps (JObj []) in
  fst (_request js 2 "GET" "/scans" p None stale_forever) = Raise RecursionLimit /\
  map rq_sent (requests (wire (snd (_request js 2 "GET" "/scans" p None stale_forever)))) =
    [("GET", "/scans", p); ("POST", "/session", credentials alice);
     ("POST", "/session", credentials alice)] /\
  n_getresponse (wire (snd (_request js 2 "GET" "/scans" p None stale_forever))) = 0.
Proof.
  intros js p.
  exact (always_stale_exhausts_recursion js 2 "GET" "/scans" p None
           stale_forever alice (fun _ => eq_refl) eq_refl eq_refl).
Defined.


(** X8, witness: a login answered with the token [abc]. *)
Lemma login_stores_token_witness :
  let js := loads_of [token_abc] in
  let st := nessus6_answering [json_text token_abc] in
  exists st',
    login js 0 (Some alice) st = (Ret true, st') /\
    _user (session st') = Some (set_token (JStr "abc") alice) /\
    x_cookie (_headers (session st')) =
      x_cookie (set_x_cookie (JStr "abc") (_headers (session st))).
Proof.
  intros js st.
  assert (Hs : served st (json_text token_abc)) by (split; reflexivity).
  assert (Hg : grants js (json_text token_abc) (JStr "abc")).
  { split; [discriminate |]. eexists. split; [vm_compute; reflexivity |].
    repeat split; reflexivity. }
  destruct (login_stores_token js 0 alice st (json_text token_abc) (JStr "abc")
              eq_refl Hs Hg) as [st' [H1 [H2 [H3 _]]]].
  exists st'. split; [exact H1 |]. split; [exact H2 |]. rewrite H3. reflexivity.
Defined.

(** X9, witness: a login answered with an empty body. *)
Lemma login_not_granted_witness :
  let js := loads_of [token_abc] in
  let st := nessus6_answering [""] in
  login js 0 (Some alice) st =
  (Ret false, exchange "POST" "/session" (credentials alice) None st).
Proof.
  intros js st.
  assert (Hs : served st "") by (split; reflexivity).
  destruct (login_not_granted js 0 alice st "" eq_refl Hs) as [H _].
  apply H. reflexivity.
Defined.

(** X10, witness: a second read of the version of a 6.x server. *)
Lemma server_version_is_cached_witness :
  let js := loads_of [token_abc] in
  let st' := snd (server_version js 0 nessus6_server) in
  _server_version (properties st') = JStr "6.x" /\
  server_version js 0 st' = (Ret (JStr "6.x"), st').
Proof.
  intros js st'.
  assert (H : server_version js 0 nessus6_server = (Ret (JStr "6.x"), st'))
    by (vm_compute; reflexivity).
  destruct (server_version_is_cached js 0 nessus6_server (JStr "6.x") st' H)
    as [_ [H2 H3]].
  split; [exact H2 | exact H3].
Defined.


(** X11, witness: a served load of the users stores the one user of the response. *)
Lemma loads_replace_their_collection_witness :
  let js := loads_of [users_payload [user_record 7 "bob"]] in
  exists us,
    load_users js 0 blank_user users_then_scans =
    (Ret true,
     upd_registry (set_users (Some us))
       (exchange "GET" "/users" (JsonDumps (JObj [])) None users_then_scans)) /\
    map user_username us = [JStr "bob"].
Proof.
  intro js.
  assert (Hf : fetched js users_then_scans (users_payload [user_record 7 "bob"])).
  { eexists. split; [split; reflexivity | vm_compute; reflexivity]. }
  destruct (loads_replace_their_collection js 0 blank_user users_then_scans
              (users_payload [user_record 7 "bob"]) [user_record 7 "bob"] Hf)
    as [_ [_ [_ H]]].
  eexists. split.
  - apply H; [reflexivity | reflexivity | vm_compute; reflexivity].
  - reflexivity.
Defined.

(** X12, witness: a response without the collection's key; [load_folders] returns [False], [load_scanners] returns [True]. *)
Lemma missing_collection_key_witness :
  let js := loads_of [ready] in
  let st := a_server always_sent [json_text ready] in
  load_folders js 0 st =
    (Ret false, exchange "GET" "/folders" (JsonDumps (JObj [])) None st) /\
  load_scanners js 0 st =
    (Ret true, exchange "GET" "/scanners" (JsonDumps (JObj [])) None st).
Proof.
  intros js st.
  assert (Hf : fetched js st (JObj [("status", JStr "ready")])).
  { eexists. split; [split; reflexivity | vm_compute; reflexivity]. }
  destruct (missing_collection_key js 0 blank_template blank_folder blank_user
              st [("status", JStr "ready")] Hf) as [H1 [_ [H3 _]]].
  split; [apply H1 | apply H3]; reflexivity.
Defined.

(** X13, witness: an empty body; [load_scanners] raises [TypeError], [load_properties] returns [False]. *)
Lemma empty_response_witness :
  let js := loads_of [ready] in
  let st := a_server always_sent [""] in
  load_scanners js 0 st =
    (Raise TypeError, exchange "GET" "/scanners" (JsonDumps (JObj [])) None st) /\
  load_properties js 0 st =
    (Ret false,
     exchange "GET" "/server/properties?json=1" (JsonDumps (JObj [])) None st).
Proof.
  intros js st.
  assert (Hf : fetched js st JNull).
  { exists "". split; [split; reflexivity | reflexivity]. }
  destruct (empty_response js 0 blank_template blank_folder blank_user st Hf)
    as [H1 [H2 _]].
  split; [exact H2 | exact H1].
Defined.

(** X14, witness: the second scanner record has no ["uuid"]; the first scanner stays in the collection. *)
Lemma record_that_fails_witness :
  let bad := JObj [("id", JInt 2)] in
  let payload := scanners_payload [scanner_record 1 "local"; bad] in
  let js := loads_of [payload] in
  let st := a_server always_sent [json_text payload] in
  fst (load_scanners js 0 st) = Raise (KeyError "uuid") /\
  map scanner_id (_scanners (registry (snd (load_scanners js 0 st)))) = [JInt 1].
Proof.
  intros bad payload js st.
  assert (Hf : fetched js st payload).
  { eexists. split; [split; reflexivity | vm_compute; reflexivity]. }
  destruct (record_that_fails js 0 blank_user st payload
              [scanner_record 1 "local"] bad [] (KeyError "uuid") Hf)
    as [H _].
  pose (xs := match map_outcome hydrate_scanner [scanner_record 1 "local"] with
              | Ret l => l
              | Raise _ => []
              end).
  rewrite (H xs eq_refl eq_refl eq_refl eq_refl).
  split; reflexivity.
Defined.

(** X15, witness: a served load of the users, and one answered with an empty body. *)
Lemma load_users_all_or_nothing_witness :
  let js := loads_of [users_payload [user_record 7 "bob"]] in
  let st := a_server always_sent [""] in
  (exists us,
     registry (snd (load_users js 0 blank_user users_then_scans)) =
     set_users (Some us) (registry users_then_scans)) /\
  registry (snd (load_users js 0 blank_user st)) = registry st.
Proof.
  intros js st. split.
  - destruct (load_users_all_or_nothing js 0 blank_user users_then_scans)
      as [H _].
    apply H. vm_compute. reflexivity.
  - destruct (load_users_all_or_nothing js 0 blank_user st) as [_ H].
    apply H. vm_compute. discriminate.
Defined.

(** X16, witness: one scanner with one agent behind it. *)
Lemma load_agents_collects_witness :
  let js := loads_of [scanners_payload [scanner_record 1 "local"];
                      agents_payload [agent_record 10 "agent-10"]] in
  let st := snd (load_scanners js 0 one_scanner_one_agent) in
  fst (load_agents js 0 st) = Ret true /\
  (exists ags,
     _agents (registry (snd (load_agents js 0 st))) = Some ags /\
     map agent_id ags = [JInt 10] /\
     map agent_scanner_id ags = [JInt 1]) /\
  map rq_line (requests (wire (snd (load_agents js 0 st)))) =
    [("GET", "/scanners"); ("GET", "/scanners/1/agents")].
Proof.
  intros js st.
  pose (out := match _scanners (registry st) with
               | scanner :: _ =>
                   match agents_of scanner
                           (agents_payload [agent_record 10 "agent-10"]) with
                   | Ret ags => [ags]
                   | Raise _ => []
                   end
               | [] => []
               end).
  assert (Hrun : agents_run js (_scanners (registry st))
                   (on_request (wire st)) (on_getresponse (wire st))
                   (length (requests (wire st))) (n_getresponse (wire st)) out).
  { vm_compute. split; [eexists; reflexivity |]. split; [reflexivity |].
    split; [| exact I]. do 2 eexists.
    split; [reflexivity |]. split; reflexivity. }
  destruct (load_agents_collects js 0 st [] out eq_refl Hrun)
    as [H1 [H2 [H3 _]]].
  split; [exact H1 |]. split.
  - eexists. split; [exact H2 |]. split; reflexivity.
  - rewrite H3. reflexivity.
Defined.

(** X18, witness: a folder record without ["type"] and ["unread_count"]. *)
Lemma optional_fields_default_witness :
  exists f,
    hydrate_folder (folder_record 3 "My Scans") = Ret f /\
    folder_type f = JStr "local" /\
    folder_unread_count f = JInt 0.
Proof.
  destruct (optional_fields_default
              [("id", JInt 3); ("custom", JInt 0); ("default_tag", JInt 1);
               ("name", JStr "My Scans")]) as [H _].
  destruct (H eq_refl) as [f [H1 [H2 H3]]].
  exists f. split; [exact H1 |]. split; [exact H2 | exact H3].
Defined.

(** X19, witness: the properties of a 6.3.3 server; the version probe is not run afterwards. *)
Lemma load_properties_stores_witness :
  let js := loads_of [properties_payload] in
  let st := a_server always_sent [json_text properties_payload] in
  exists st',
    load_properties js 0 st = (Ret true, st') /\
    _server_version (properties st') = JStr "6.3.3" /\
    server_version js 0 st' = (Ret (JStr "6.3.3"), st').
Proof.
  intros js st.
  assert (Hf : fetched js st properties_payload).
  { eexists. split; [split; reflexivity | vm_compute; reflexivity]. }
  destruct (load_properties_stores js 0 st _ [] Hf eq_refl eq_refl)
    as [st' [H1 [H2 [_ H4]]]].
  exists st'. split; [exact H1 |]. split.
  - rewrite H2. reflexivity.
  - apply H4. reflexivity.
Defined.


(** X21, witness: an import of a file that is not there. *)
Lemma missing_file_sends_nothing_witness :
  let js := loads_of [uploaded_as "policy.nessus"] in
  let st := a_server always_sent [json_text (uploaded_as "policy.nessus")] in
  import_policy js 0 one_file "/tmp/missing.nessus" st =
    (URaise (Message "This file does not exist."), st) /\
  requests (wire st) = [].
Proof.
  intros js st.
  destruct (missing_file_sends_nothing js 0 one_file "/tmp/missing.nessus" st
              eq_refl) as [_ [H _]].
  split; [exact H | reflexivity].
Defined.

(** X22, witness: a [GET /scans] after an upload goes out as multipart/form-data. *)
Lemma upload_leaves_multipart_content_type_witness :
  let js := loads_of [uploaded_as "policy.nessus"; no_scans] in
  let st := a_server always_sent
              [json_text (uploaded_as "policy.nessus"); json_text no_scans] in
  let st' := snd (upload_file js 0 one_file "/tmp/policy.nessus" st) in
  content_type (_headers (session st)) = "application/json" /\
  content_type (_headers (session st')) = multipart /\
  exists h rest,
    requests (wire (snd (_api_request js 0 "GET" "/scans" JNull st'))) =
    requests (wire st') ++ mkRequest "GET" "/scans" (JsonDumps (JObj [])) h :: rest /\
    content_type h = multipart.
Proof.
  intros js st st'.
  destruct (upload_leaves_multipart_content_type js 0 one_file
              "/tmp/policy.nessus" "<NessusClientData_v2/>" st eq_refl)
    as [H1 H2].
  split; [reflexivity |]. split; [exact H1 |].
  destruct (H2 "GET" "/scans" JNull) as [H _]. exact H.
Defined.

(** X23, witness: an upload the server acknowledges, and one it answers with an empty body. *)
Lemma upload_file_result_witness :
  let js := loads_of [uploaded_as "policy.nessus"] in
  let st := a_server always_sent [json_text (uploaded_as "policy.nessus")] in
  fst (upload_file js 0 one_file "/tmp/policy.nessus" st) =
    URet (JStr "policy.nessus") /\
  fst (upload_file js 0 one_file "/tmp/policy.nessus" (a_server always_sent [""])) =
    URaise (Exn ValueError).
Proof.
  intros js st. split.
  - assert (Hs : served st (json_text (uploaded_as "policy.nessus")))
      by (split; reflexivity).
    destruct (upload_file_result js 0 one_file "/tmp/policy.nessus"
                "<NessusClientData_v2/>" st _ eq_refl Hs) as [H _].
    rewrite (H [("fileuploaded", JStr "policy.nessus")]);
      [reflexivity | vm_compute; reflexivity].
  - assert (Hs : served (a_server always_sent [""]) "") by (split; reflexivity).
    destruct (upload_file_result js 0 one_file "/tmp/policy.nessus"
                "<NessusClientData_v2/>" (a_server always_sent [""]) _ eq_refl Hs)
      as [_ [H _]].
    rewrite H; reflexivity.
Defined.

(** X24, witness: a scan imported into folder 3, and an upload that the server acknowledges with an empty name. *)
Lemma imports_after_upload_witness :
  let js := loads_of [uploaded_as "policy.nessus"; uploaded_as ""] in
  let st := a_server always_sent [json_text (uploaded_as "policy.nessus"); ""] in
  let failed := a_server always_sent [json_text (uploaded_as "")] in
  fst (import_scan js 0 one_file "/tmp/policy.nessus" (JInt 3) JNull st) =
    URet (JBool true) /\
  map rq_sent (requests (wire (snd
    (import_scan js 0 one_file "/tmp/policy.nessus" (JInt 3) JNull st)))) =
    [("POST", "/file/upload",
      Text (snd (_encode "/tmp/policy.nessus" "<NessusClientData_v2/>")));
     ("POST", "/scans/import",
      JsonDumps (JObj [("file", JStr "policy.nessus"); ("folder_id", JInt 3)]))] /\
  fst (import_policy js 0 one_file "/tmp/policy.nessus" failed) =
    URaise (Message "An error occured while uploading /tmp/policy.nessus.") /\
  fst (import_scan js 0 one_file "/tmp/policy.nessus" JNull JNull failed) =
    URet JNull.
Proof.
  intros js st failed.
  assert (Hu : upload_file js 0 one_file "/tmp/policy.nessus" st =
               (URet (JStr "policy.nessus"),
                snd (upload_file js 0 one_file "/tmp/policy.nessus" st)))
    by (vm_compute; reflexivity).
  assert (Hv : upload_file js 0 one_file "/tmp/policy.nessus" failed =
               (URet (JStr ""),
                snd (upload_file js 0 one_file "/tmp/policy.nessus" failed)))
    by (vm_compute; reflexivity).
  destruct (imports_after_upload js 0 one_file "/tmp/policy.nessus" st _ _ Hu)
    as [_ H].
  destruct (imports_after_upload js 0 one_file "/tmp/policy.nessus" failed _ _ Hv)
    as [G _].
  assert (Hf : fetched js (snd (upload_file js 0 one_file "/tmp/policy.nessus" st))
                 JNull).
  { exists "". split; [split; vm_compute; reflexivity | reflexivity]. }
  destruct (H eq_refl JNull Hf) as [_ H2].
  destruct (G eq_refl) as [G1 G2].
  rewrite (H2 (JInt 3) JNull), G1, (G2 JNull JNull).
  split; [reflexivity |]. split; [vm_compute; reflexivity |].
  split; reflexivity.
Defined.

(** X25, witness: a server that is ready, and one that answers with an empty body. *)
Lemma status_of_answer_witness :
  let js := loads_of [ready] in
  status js 0 (a_server always_sent [json_text ready]) =
    (Ret (JStr "ready"),
     exchange "GET" "/server/status" (JsonDumps (JObj [])) None
       (a_server always_sent [json_text ready])) /\
  fst (status js 0 (a_server always_sent [""])) = Ret (JStr "unknown").
Proof.
  intro js. split.
  - assert (Hs : served (a_server always_sent [json_text ready]) (json_text ready))
      by (split; reflexivity).
    destruct (status_of_answer js 0 _ _ Hs) as [_ H].
    apply (H [("status", JStr "ready")]);
      [discriminate | vm_compute; reflexivity].
  - assert (Hs : served (a_server always_sent [""]) "") by (split; reflexivity).
    destruct (status_of_answer js 0 _ _ Hs) as [H _].
    rewrite (H eq_refl). reflexivity.
Defined.

(** X26, witness: a client whose users and agent groups were set to [None]. *)
Lemma getters_of_optional_collections_witness :
  let js := loads_of [users_payload [user_record 7 "bob"]] in
  let unset := upd_registry (fun r => set_users None (set_agentgroups None r))
                 users_then_scans in
  agentgroups unset = (Raise AttributeError, unset) /\
  users js 0 blank_user users_then_scans = (Ret (Some []), users_then_scans) /\
  exists us,
    fst (users js 0 blank_user unset) = Ret (Some us) /\
    map user_username us = [JStr "bob"].
Proof.
  intros js unset.
  destruct (getters_of_optional_collections js 0 blank_template blank_folder blank_user unset)
    as [_ [H2 [_ [_ H5]]]].
  destruct (getters_of_optional_collections js 0 blank_template blank_folder blank_user users_then_scans)
    as [[_ [H1 _]] _].
  split; [apply H2; reflexivity |].
  split; [apply H1; reflexivity |].
  assert (Hf : fetched js unset (users_payload [user_record 7 "bob"])).
  { eexists. split; [split; reflexivity | vm_compute; reflexivity]. }
  eexists. split.
  - rewrite (H5 (users_payload [user_record 7 "bob"]) [user_record 7 "bob"]
               (match map_outcome (hydrate_user blank_user) [user_record 7 "bob"] with
                | Ret l => l | Raise _ => [] end)
               eq_refl Hf eq_refl eq_refl eq_refl).
    reflexivity.
  - reflexivity.
Defined.

(** C5, witness: user 7 and folder 9 are loaded, then a scan record that
    names owner 7 and folder 3 is hydrated. *)
Lemma references_set_by_hydration_witness :
  let js := loads_of [users_payload [user_record 7 "bob"];
                      JObj [("folders", JArr [folder_record 9 "Trash"])];
                      scans_payload [scan_record 5 3 7]] in
  let st1 := snd (load_folders js 0
                    (snd (load_users js 0 blank_user users_folders_scans))) in
  map folder_id (_folders (registry st1)) = [JInt 9] /\
  exists scan,
    hydrate_scan js 0 blank_template blank_folder blank_user
      (scan_record 5 3 7) st1 = (Ret scan, st1) /\
    (exists u us oid,
       scan_owner scan = Some u /\
       _users (registry st1) = Some us /\ In u us /\
       getitem (scan_record 5 3 7) "owner_id" = Ret oid /\
       py_eq (user_id u) oid = true) /\
    scan_folder scan = set_folder_id (JInt 3) blank_folder /\
    ~ In (scan_folder scan) (_folders (registry st1)).
Proof.
  intros js st1.
  destruct (references_set_by_hydration js 0 blank_template blank_folder blank_user)
    as [H _].
  split; [reflexivity |].
  eexists.
  match goal with
  | |- ?A /\ _ => assert (Hh : A) by (vm_compute; reflexivity)
  end.
  split; [exact Hh |].
  destruct (H _ _ _ _ Hh) as [H1 [[fid [Hg [Hf Hnot]]] _]].
  split; [| split].
  - destruct (H1 _ eq_refl) as [us [oid Hu]].
    eexists. exists us, oid. split; [reflexivity | exact Hu].
  - reflexivity.
  - apply Hnot. vm_compute in Hg. inversion Hg; subst fid.
    intros f Hin. vm_compute in Hin. destruct Hin as [<- | []]. discriminate.
Defined.

(** C6, counterexample: the users of this client were never loaded (the
    collection was set to [None] and nothing was sent), and [load_scans]
    sets the owner of the scan all the same: the [users] getter fetches
    the users while the record is hydrated. *)
Lemma users_never_loaded_counterexample :
  let js := loads_of [scans_payload [scan_record 5 3 7];
                      users_payload [user_record 7 "bob"]] in
  let st := users_unset scans_then_users in
  let r := load_scans js 0 blank_template blank_folder blank_user st in
  _users (registry st) = None /\
  requests (wire st) = [] /\
  fst r = Ret true /\
  option_map (map (fun scan => option_map user_username (scan_owner scan)))
    (_scans (registry (snd r))) = Some [Some (JStr "bob")] /\
  map rq_line (requests (wire (snd r))) = [("GET", "/scans"); ("GET", "/users")].
Proof.
  repeat split; reflexivity.
Qed.

(** C6, witness: user 7 is loaded, then a scan record with [owner_id] 7 is
    hydrated; the same record on a client that never loaded the users; and
    on a client whose users were set to [None], with the users served. *)
Lemma scan_owner_follows_loaded_users_witness :
  let js := loads_of [users_payload [user_record 7 "bob"];
                      scans_payload [scan_record 5 3 7]] in
  let st1 := snd (load_users js 0 blank_user users_then_scans) in
  let st0 := users_unset users_then_scans in
  (exists scan,
     hydrate_scan js 0 blank_template blank_folder blank_user
       (scan_record 5 3 7) st1 = (Ret scan, st1) /\
     scan_owner scan <> None) /\
  (exists scan,
     hydrate_scan js 0 blank_template blank_folder blank_user
       (scan_record 5 3 7) two_scan_lists = (Ret scan, two_scan_lists) /\
     scan_owner scan = None) /\
  (exists scan,
     fst (hydrate_scan js 0 blank_template blank_folder blank_user
            (scan_record 5 3 7) st0) = Ret scan /\
     scan_owner scan <> None /\
     map rq_line (requests (wire (snd
       (hydrate_scan js 0 blank_template blank_folder blank_user
          (scan_record 5 3 7) st0)))) = [("GET", "/users")]).
Proof.
  intros js st1 st0.
  pose (bob := mkUser (JInt 1416140000) (JInt 128) (JStr "local") (JStr "bob")
                 (JStr "bob") (JInt 7) JNull JNull).
  destruct (scan_owner_follows_loaded_users js 0 blank_template blank_folder
              blank_user) as [Hsome [Hnone _]].
  split; [| split].
  - destruct (Hsome st1 [bob] eq_refl) as [H _].
    destruct (H (scan_record 5 3 7) (JInt 7) (scan_record_has_keys 5 3 7) eq_refl)
      as [scan [Hs [_ Ho]]].
    exists scan. split; [exact Hs |].
    apply Ho. eexists. split; [left; reflexivity | reflexivity].
  - destruct (Hsome two_scan_lists [] eq_refl) as [_ H].
    destruct (H eq_refl) as [H1 _].
    apply H1. apply scan_record_has_keys.
  - assert (Hf : fetched js st0 (users_payload [user_record 7 "bob"])).
    { eexists. split; [split; reflexivity | vm_compute; reflexivity]. }
    destruct (Hnone st0 (scan_record 5 3 7) (JInt 7)
                (users_payload [user_record 7 "bob"]) [user_record 7 "bob"] [bob]
                eq_refl (scan_record_has_keys 5 3 7) eq_refl Hf eq_refl eq_refl
                eq_refl) as [scan [Hs [_ Ho]]].
    exists scan. rewrite Hs. split; [reflexivity |]. split.
    + apply Ho. eexists. split; [left; reflexivity | reflexivity].
    + reflexivity.
Defined.

(** C7, witness: a second [load_scans], answered with
    [{"error": "invalid token"}], leaves the scan of the first load in
    place; and [load_agents] over two scanners, with the call for the
    second answered with that error, keeps the agent of the first. *)
Lemma failed_fetch_leaves_registry_witness :
  let js := loads_of [scans_payload [scan_record 5 3 7];
                      scanners_payload [scanner_record 1 "local";
                                        scanner_record 2 "remote"];
                      agents_payload [agent_record 10 "agent-10"];
                      invalid_token] in
  let load_scans' := load_scans js 0 blank_template blank_folder blank_user in
  let st1 := snd (load_scans' scans_then_error) in
  let st2 := snd (load_scanners js 0 agents_fail_on_second) in
  option_map (map scan_id) (_scans (registry st1)) = Some [JInt 5] /\
  fst (load_scans' st1) = Raise (NessusAPIError (JStr "invalid token")) /\
  registry (snd (load_scans' st1)) = registry st1 /\
  fst (load_agents js 0 st2) = Raise (NessusAPIError (JStr "invalid token")) /\
  option_map (map agent_id) (_agents (registry (snd (load_agents js 0 st2)))) =
    Some [JInt 10] /\
  _scanners (registry (snd (load_agents js 0 st2))) = _scanners (registry st2).
Proof.
  intros js load_scans' st1 st2.
  destruct (failed_fetch_leaves_registry js 0 blank_template blank_folder blank_user)
    as [H1 [H2 _]].
  split; [reflexivity |].
  assert (Hcall : _api_request js 0 "GET" (fst (endpoint FScans))
                    (snd (endpoint FScans)) st1 =
                  (Raise (NessusAPIError (JStr "invalid token")),
                   exchange "GET" "/scans" (JsonDumps (JObj [])) None st1))
    by (vm_compute; reflexivity).
  destruct (H1 FScans st1 _ _ Hcall) as [Hl Hr].
  change (loader js 0 blank_template blank_folder blank_user FScans st1)
    with (load_scans' st1) in Hl.
  rewrite Hl. cbn [fst snd]. split; [reflexivity |]. split; [exact Hr |].
  pose (sc1 := match hydrate_scanner (scanner_record 1 "local") with
               | Ret s => [s] | Raise _ => [] end).
  pose (sc2 := match hydrate_scanner (scanner_record 2 "remote") with
               | Ret s => [s] | Raise _ => [] end).
  pose (out := match sc1 with
               | s :: _ =>
                   match agents_of s (agents_payload [agent_record 10 "agent-10"]) with
                   | Ret ags => [ags] | Raise _ => []
                   end
               | [] => []
               end).
  assert (Hrun : scanners_served js agents_of sc1 (on_request (wire st2))
                   (on_getresponse (wire st2)) (length (requests (wire st2)))
                   (n_getresponse (wire st2)) out).
  { vm_compute. split; [eexists; reflexivity |]. split; [reflexivity |].
    split; [| exact I]. do 2 eexists.
    split; [reflexivity |]. split; reflexivity. }
  assert (Hraises : call_raises js (on_request (wire st2)) (on_getresponse (wire st2))
                      (length (requests (wire st2)) + length sc1)
                      (n_getresponse (wire st2) + length sc1)
                      (NessusAPIError (JStr "invalid token"))).
  { split; [reflexivity |]. eexists. split; [reflexivity | vm_compute; reflexivity]. }
  destruct (H2 st2 sc1
              (match sc2 with s :: _ => s | [] => mkScanner JNull JNull JNull JNull
                 JNull JNull JNull JNull JNull JNull JNull end)
              [] [] out "2" _ eq_refl eq_refl Hrun eq_refl Hraises) as [G1 G2].
  split; [exact G1 |]. rewrite G2. split; reflexivity.
Defined.
